(** * CoffeeDiary: the entries filter, the dashboard statistics and the
      authentication error messages

    A shallow embedding of the client-side computations of the CoffeeDiary
    pages:

    - [EntriesPage.filteredEntries], the search / filter / sort effect of
      [coffeediary/src/app/entries/page.tsx];
    - [DashboardPage.getStats], the summary of the dashboard page;
    - [CoffeeTrends], the chart data of the dashboard's trend component;
    - [AuthPage.authErrorMessage], the error branch of [handleAuth] in
      [coffeediary/src/app/auth/page.tsx].

    The pages are TypeScript; the parts of the JavaScript run-time they rely
    on (strings, [Array.prototype.sort], plain objects used as dictionaries,
    [Date], number formatting) are modelled first, each in its own module. *)

From Stdlib Require Import ZArith List String Ascii Bool Lia.
From Stdlib Require Import Permutation Sorting.Sorted QArith Qround Qabs.
From Stdlib Require Import DecimalString.
Import ListNotations.

Local Open Scope string_scope.
Local Open Scope Z_scope.

(* ================================================================== *)
(** ** JavaScript strings *)

(** Strings are the UTF-8 bytes of the text.  Substring search on well-formed
    text gives the same answer on UTF-8 bytes as on UTF-16 code units. *)
Module JsString.

Definition ofBytes (l : list N) : string :=
  string_of_list_ascii (map ascii_of_N l).

(** *** Text as code points

    [String.prototype.toLowerCase] works on the code points of the text, so
    the bytes are decoded first.  A byte that is not part of a well-formed
    UTF-8 sequence is kept as it is. *)
Inductive codeUnit :=
| Scalar (c : Z)                 (* a Unicode scalar value *)
| Stray (b : Z).                 (* a byte outside a well-formed sequence *)

Definition bytes (s : string) : list Z :=
  map (fun c => Z.of_N (N_of_ascii c)) (list_ascii_of_string s).

Definition fromBytes (l : list Z) : string :=
  string_of_list_ascii (map (fun b => ascii_of_N (Z.to_N b)) l).

Definition continuation (b : Z) : bool := (0x80 <=? b) && (b <=? 0xBF).

Definition scalar2 (b0 b1 : Z) : Z := (b0 - 0xC0) * 64 + (b1 - 0x80).
Definition scalar3 (b0 b1 b2 : Z) : Z :=
  (b0 - 0xE0) * 4096 + (b1 - 0x80) * 64 + (b2 - 0x80).
Definition scalar4 (b0 b1 b2 b3 : Z) : Z :=
  (b0 - 0xF0) * 262144 + (b1 - 0x80) * 4096 + (b2 - 0x80) * 64
  + (b3 - 0x80).

(** The well-formed sequences of two, three and four bytes: no overlong
    form, no surrogate, nothing above U+10FFFF. *)
Definition wellFormed2 (b0 b1 : Z) : bool :=
  (0xC2 <=? b0) && (b0 <=? 0xDF) && continuation b1.

Definition wellFormed3 (b0 b1 b2 : Z) : bool :=
  (0xE0 <=? b0) && (b0 <=? 0xEF) && continuation b1 && continuation b2
  && (0x800 <=? scalar3 b0 b1 b2)
  && negb ((0xD800 <=? scalar3 b0 b1 b2) && (scalar3 b0 b1 b2 <=? 0xDFFF)).

Definition wellFormed4 (b0 b1 b2 b3 : Z) : bool :=
  (0xF0 <=? b0) && (b0 <=? 0xF4) && continuation b1 && continuation b2
  && continuation b3
  && (0x10000 <=? scalar4 b0 b1 b2 b3)
  && (scalar4 b0 b1 b2 b3 <=? 0x10FFFF).

Fixpoint decode (l : list Z) : list codeUnit :=
  match l with
  | [] => []
  | b0 :: l1 =>
      if b0 <? 0x80 then Scalar b0 :: decode l1
      else
        match l1 with
        | b1 :: l2 =>
            if wellFormed2 b0 b1 then Scalar (scalar2 b0 b1) :: decode l2
            else
              match l2 with
              | b2 :: l3 =>
                  if wellFormed3 b0 b1 b2
                  then Scalar (scalar3 b0 b1 b2) :: decode l3
                  else
                    match l3 with
                    | b3 :: l4 =>
                        if wellFormed4 b0 b1 b2 b3
                        then Scalar (scalar4 b0 b1 b2 b3) :: decode l4
                        else Stray b0 :: decode l1
                    | [] => Stray b0 :: decode l1
                    end
              | [] => Stray b0 :: decode l1
              end
        | [] => Stray b0 :: decode l1
        end
  end.

Definition encodeUnit (u : codeUnit) : list Z :=
  match u with
  | Stray b => [b]
  | Scalar c =>
      if c <? 0x80 then [c]
      else if c <? 0x800 then [0xC0 + c / 64; 0x80 + c mod 64]
      else if c <? 0x10000
      then [0xE0 + c / 4096; 0x80 + (c / 64) mod 64; 0x80 + c mod 64]
      else [0xF0 + c / 262144; 0x80 + (c / 4096) mod 64;
            0x80 + (c / 64) mod 64; 0x80 + c mod 64]
  end.

Definition encode (l : list codeUnit) : list Z := flat_map encodeUnit l.

(** *** The case tables of the Unicode Character Database (version 14.0)

    [lowerCaseRanges]: the code points from [lo] to [hi] in steps of [step]
    have the lower case [c + delta] (the Lowercase_Mapping of
    UnicodeData.txt).  [casedRanges] and [caseIgnorableRanges]: the
    properties Cased and Case_Ignorable of DerivedCoreProperties.txt. *)
Definition lowerCaseRanges : list (Z * Z * Z * Z) :=
  [
   (0x41, 0x5A, 1, 32); (0xC0, 0xD6, 1, 32); (0xD8, 0xDE, 1, 32);
   (0x100, 0x12E, 2, 1); (0x132, 0x136, 2, 1); (0x139, 0x147, 2, 1);
   (0x14A, 0x176, 2, 1); (0x178, 0x178, 1, -121); (0x179, 0x17D, 2, 1);
   (0x181, 0x181, 1, 210); (0x182, 0x184, 2, 1); (0x186, 0x186, 1, 206);
   (0x187, 0x187, 1, 1); (0x189, 0x18A, 1, 205); (0x18B, 0x18B, 1, 1);
   (0x18E, 0x18E, 1, 79); (0x18F, 0x18F, 1, 202); (0x190, 0x190, 1, 203);
   (0x191, 0x191, 1, 1); (0x193, 0x193, 1, 205); (0x194, 0x194, 1, 207);
   (0x196, 0x196, 1, 211); (0x197, 0x197, 1, 209); (0x198, 0x198, 1, 1);
   (0x19C, 0x19C, 1, 211); (0x19D, 0x19D, 1, 213); (0x19F, 0x19F, 1, 214);
   (0x1A0, 0x1A4, 2, 1); (0x1A6, 0x1A6, 1, 218); (0x1A7, 0x1A7, 1, 1);
   (0x1A9, 0x1A9, 1, 218); (0x1AC, 0x1AC, 1, 1); (0x1AE, 0x1AE, 1, 218);
   (0x1AF, 0x1AF, 1, 1); (0x1B1, 0x1B2, 1, 217); (0x1B3, 0x1B5, 2, 1);
   (0x1B7, 0x1B7, 1, 219); (0x1B8, 0x1B8, 1, 1); (0x1BC, 0x1BC, 1, 1);
   (0x1C4, 0x1C4, 1, 2); (0x1C5, 0x1C5, 1, 1); (0x1C7, 0x1C7, 1, 2);
   (0x1C8, 0x1C8, 1, 1); (0x1CA, 0x1CA, 1, 2); (0x1CB, 0x1DB, 2, 1);
   (0x1DE, 0x1EE, 2, 1); (0x1F1, 0x1F1, 1, 2); (0x1F2, 0x1F4, 2, 1);
   (0x1F6, 0x1F6, 1, -97); (0x1F7, 0x1F7, 1, -56); (0x1F8, 0x21E, 2, 1);
   (0x220, 0x220, 1, -130); (0x222, 0x232, 2, 1); (0x23A, 0x23A, 1, 10795);
   (0x23B, 0x23B, 1, 1); (0x23D, 0x23D, 1, -163); (0x23E, 0x23E, 1, 10792);
   (0x241, 0x241, 1, 1); (0x243, 0x243, 1, -195); (0x244, 0x244, 1, 69);
   (0x245, 0x245, 1, 71); (0x246, 0x24E, 2, 1); (0x370, 0x372, 2, 1);
   (0x376, 0x376, 1, 1); (0x37F, 0x37F, 1, 116); (0x386, 0x386, 1, 38);
   (0x388, 0x38A, 1, 37); (0x38C, 0x38C, 1, 64); (0x38E, 0x38F, 1, 63);
   (0x391, 0x3A1, 1, 32); (0x3A3, 0x3AB, 1, 32); (0x3CF, 0x3CF, 1, 8);
   (0x3D8, 0x3EE, 2, 1); (0x3F4, 0x3F4, 1, -60); (0x3F7, 0x3F7, 1, 1);
   (0x3F9, 0x3F9, 1, -7); (0x3FA, 0x3FA, 1, 1); (0x3FD, 0x3FF, 1, -130);
   (0x400, 0x40F, 1, 80); (0x410, 0x42F, 1, 32); (0x460, 0x480, 2, 1);
   (0x48A, 0x4BE, 2, 1); (0x4C0, 0x4C0, 1, 15); (0x4C1, 0x4CD, 2, 1);
   (0x4D0, 0x52E, 2, 1); (0x531, 0x556, 1, 48); (0x10A0, 0x10C5, 1, 7264);
   (0x10C7, 0x10C7, 1, 7264); (0x10CD, 0x10CD, 1, 7264);
   (0x13A0, 0x13EF, 1, 38864); (0x13F0, 0x13F5, 1, 8);
   (0x1C90, 0x1CBA, 1, -3008); (0x1CBD, 0x1CBF, 1, -3008);
   (0x1E00, 0x1E94, 2, 1); (0x1E9E, 0x1E9E, 1, -7615);
   (0x1EA0, 0x1EFE, 2, 1); (0x1F08, 0x1F0F, 1, -8); (0x1F18, 0x1F1D, 1, -8);
   (0x1F28, 0x1F2F, 1, -8); (0x1F38, 0x1F3F, 1, -8);
   (0x1F48, 0x1F4D, 1, -8); (0x1F59, 0x1F5F, 2, -8);
   (0x1F68, 0x1F6F, 1, -8); (0x1F88, 0x1F8F, 1, -8);
   (0x1F98, 0x1F9F, 1, -8); (0x1FA8, 0x1FAF, 1, -8);
   (0x1FB8, 0x1FB9, 1, -8); (0x1FBA, 0x1FBB, 1, -74);
   (0x1FBC, 0x1FBC, 1, -9); (0x1FC8, 0x1FCB, 1, -86);
   (0x1FCC, 0x1FCC, 1, -9); (0x1FD8, 0x1FD9, 1, -8);
   (0x1FDA, 0x1FDB, 1, -100); (0x1FE8, 0x1FE9, 1, -8);
   (0x1FEA, 0x1FEB, 1, -112); (0x1FEC, 0x1FEC, 1, -7);
   (0x1FF8, 0x1FF9, 1, -128); (0x1FFA, 0x1FFB, 1, -126);
   (0x1FFC, 0x1FFC, 1, -9); (0x2126, 0x2126, 1, -7517);
   (0x212A, 0x212A, 1, -8383); (0x212B, 0x212B, 1, -8262);
   (0x2132, 0x2132, 1, 28); (0x2160, 0x216F, 1, 16); (0x2183, 0x2183, 1, 1);
   (0x24B6, 0x24CF, 1, 26); (0x2C00, 0x2C2F, 1, 48); (0x2C60, 0x2C60, 1, 1);
   (0x2C62, 0x2C62, 1, -10743); (0x2C63, 0x2C63, 1, -3814);
   (0x2C64, 0x2C64, 1, -10727); (0x2C67, 0x2C6B, 2, 1);
   (0x2C6D, 0x2C6D, 1, -10780); (0x2C6E, 0x2C6E, 1, -10749);
   (0x2C6F, 0x2C6F, 1, -10783); (0x2C70, 0x2C70, 1, -10782);
   (0x2C72, 0x2C72, 1, 1); (0x2C75, 0x2C75, 1, 1);
   (0x2C7E, 0x2C7F, 1, -10815); (0x2C80, 0x2CE2, 2, 1);
   (0x2CEB, 0x2CED, 2, 1); (0x2CF2, 0x2CF2, 1, 1); (0xA640, 0xA66C, 2, 1);
   (0xA680, 0xA69A, 2, 1); (0xA722, 0xA72E, 2, 1); (0xA732, 0xA76E, 2, 1);
   (0xA779, 0xA77B, 2, 1); (0xA77D, 0xA77D, 1, -35332);
   (0xA77E, 0xA786, 2, 1); (0xA78B, 0xA78B, 1, 1);
   (0xA78D, 0xA78D, 1, -42280); (0xA790, 0xA792, 2, 1);
   (0xA796, 0xA7A8, 2, 1); (0xA7AA, 0xA7AA, 1, -42308);
   (0xA7AB, 0xA7AB, 1, -42319); (0xA7AC, 0xA7AC, 1, -42315);
   (0xA7AD, 0xA7AD, 1, -42305); (0xA7AE, 0xA7AE, 1, -42308);
   (0xA7B0, 0xA7B0, 1, -42258); (0xA7B1, 0xA7B1, 1, -42282);
   (0xA7B2, 0xA7B2, 1, -42261); (0xA7B3, 0xA7B3, 1, 928);
   (0xA7B4, 0xA7C2, 2, 1); (0xA7C4, 0xA7C4, 1, -48);
   (0xA7C5, 0xA7C5, 1, -42307); (0xA7C6, 0xA7C6, 1, -35384);
   (0xA7C7, 0xA7C9, 2, 1); (0xA7D0, 0xA7D0, 1, 1); (0xA7D6, 0xA7D8, 2, 1);
   (0xA7F5, 0xA7F5, 1, 1); (0xFF21, 0xFF3A, 1, 32);
   (0x10400, 0x10427, 1, 40); (0x104B0, 0x104D3, 1, 40);
   (0x10570, 0x1057A, 1, 39); (0x1057C, 0x1058A, 1, 39);
   (0x1058C, 0x10592, 1, 39); (0x10594, 0x10595, 1, 39);
   (0x10C80, 0x10CB2, 1, 64); (0x118A0, 0x118BF, 1, 32);
   (0x16E40, 0x16E5F, 1, 32); (0x1E900, 0x1E921, 1, 34)
  ].

Definition casedRanges : list (Z * Z) :=
  [
   (0x41, 0x5A); (0x61, 0x7A); (0xAA, 0xAA); (0xB5, 0xB5); (0xBA, 0xBA);
   (0xC0, 0xD6); (0xD8, 0xF6); (0xF8, 0x1BA); (0x1BC, 0x1BF);
   (0x1C4, 0x293); (0x295, 0x2B8); (0x2C0, 0x2C1); (0x2E0, 0x2E4);
   (0x345, 0x345); (0x370, 0x373); (0x376, 0x377); (0x37A, 0x37D);
   (0x37F, 0x37F); (0x386, 0x386); (0x388, 0x38A); (0x38C, 0x38C);
   (0x38E, 0x3A1); (0x3A3, 0x3F5); (0x3F7, 0x481); (0x48A, 0x52F);
   (0x531, 0x556); (0x560, 0x588); (0x10A0, 0x10C5); (0x10C7, 0x10C7);
   (0x10CD, 0x10CD); (0x10D0, 0x10FA); (0x10FD, 0x10FF); (0x13A0, 0x13F5);
   (0x13F8, 0x13FD); (0x1C80, 0x1C88); (0x1C90, 0x1CBA); (0x1CBD, 0x1CBF);
   (0x1D00, 0x1DBF); (0x1E00, 0x1F15); (0x1F18, 0x1F1D); (0x1F20, 0x1F45);
   (0x1F48, 0x1F4D); (0x1F50, 0x1F57); (0x1F59, 0x1F59); (0x1F5B, 0x1F5B);
   (0x1F5D, 0x1F5D); (0x1F5F, 0x1F7D); (0x1F80, 0x1FB4); (0x1FB6, 0x1FBC);
   (0x1FBE, 0x1FBE); (0x1FC2, 0x1FC4); (0x1FC6, 0x1FCC); (0x1FD0, 0x1FD3);
   (0x1FD6, 0x1FDB); (0x1FE0, 0x1FEC); (0x1FF2, 0x1FF4); (0x1FF6, 0x1FFC);
   (0x2071, 0x2071); (0x207F, 0x207F); (0x2090, 0x209C); (0x2102, 0x2102);
   (0x2107, 0x2107); (0x210A, 0x2113); (0x2115, 0x2115); (0x2119, 0x211D);
   (0x2124, 0x2124); (0x2126, 0x2126); (0x2128, 0x2128); (0x212A, 0x212D);
   (0x212F, 0x2134); (0x2139, 0x2139); (0x213C, 0x213F); (0x2145, 0x2149);
   (0x214E, 0x214E); (0x2160, 0x217F); (0x2183, 0x2184); (0x24B6, 0x24E9);
   (0x2C00, 0x2CE4); (0x2CEB, 0x2CEE); (0x2CF2, 0x2CF3); (0x2D00, 0x2D25);
   (0x2D27, 0x2D27); (0x2D2D, 0x2D2D); (0xA640, 0xA66D); (0xA680, 0xA69D);
   (0xA722, 0xA787); (0xA78B, 0xA78E); (0xA790, 0xA7CA); (0xA7D0, 0xA7D1);
   (0xA7D3, 0xA7D3); (0xA7D5, 0xA7D9); (0xA7F5, 0xA7F6); (0xA7F8, 0xA7FA);
   (0xAB30, 0xAB5A); (0xAB5C, 0xAB68); (0xAB70, 0xABBF); (0xFB00, 0xFB06);
   (0xFB13, 0xFB17); (0xFF21, 0xFF3A); (0xFF41, 0xFF5A); (0x10400, 0x1044F);
   (0x104B0, 0x104D3); (0x104D8, 0x104FB); (0x10570, 0x1057A);
   (0x1057C, 0x1058A); (0x1058C, 0x10592); (0x10594, 0x10595);
   (0x10597, 0x105A1); (0x105A3, 0x105B1); (0x105B3, 0x105B9);
   (0x105BB, 0x105BC); (0x10780, 0x10780); (0x10783, 0x10785);
   (0x10787, 0x107B0); (0x107B2, 0x107BA); (0x10C80, 0x10CB2);
   (0x10CC0, 0x10CF2); (0x118A0, 0x118DF); (0x16E40, 0x16E7F);
   (0x1D400, 0x1D454); (0x1D456, 0x1D49C); (0x1D49E, 0x1D49F);
   (0x1D4A2, 0x1D4A2); (0x1D4A5, 0x1D4A6); (0x1D4A9, 0x1D4AC);
   (0x1D4AE, 0x1D4B9); (0x1D4BB, 0x1D4BB); (0x1D4BD, 0x1D4C3);
   (0x1D4C5, 0x1D505); (0x1D507, 0x1D50A); (0x1D50D, 0x1D514);
   (0x1D516, 0x1D51C); (0x1D51E, 0x1D539); (0x1D53B, 0x1D53E);
   (0x1D540, 0x1D544); (0x1D546, 0x1D546); (0x1D54A, 0x1D550);
   (0x1D552, 0x1D6A5); (0x1D6A8, 0x1D6C0); (0x1D6C2, 0x1D6DA);
   (0x1D6DC, 0x1D6FA); (0x1D6FC, 0x1D714); (0x1D716, 0x1D734);
   (0x1D736, 0x1D74E); (0x1D750, 0x1D76E); (0x1D770, 0x1D788);
   (0x1D78A, 0x1D7A8); (0x1D7AA, 0x1D7C2); (0x1D7C4, 0x1D7CB);
   (0x1DF00, 0x1DF09); (0x1DF0B, 0x1DF1E); (0x1E900, 0x1E943);
   (0x1F130, 0x1F149); (0x1F150, 0x1F169); (0x1F170, 0x1F189)
  ].

Definition caseIgnorableRanges : list (Z * Z) :=
  [
   (0x27, 0x27); (0x2E, 0x2E); (0x3A, 0x3A); (0x5E, 0x5E); (0x60, 0x60);
   (0xA8, 0xA8); (0xAD, 0xAD); (0xAF, 0xAF); (0xB4, 0xB4); (0xB7, 0xB8);
   (0x2B0, 0x36F); (0x374, 0x375); (0x37A, 0x37A); (0x384, 0x385);
   (0x387, 0x387); (0x483, 0x489); (0x559, 0x559); (0x55F, 0x55F);
   (0x591, 0x5BD); (0x5BF, 0x5BF); (0x5C1, 0x5C2); (0x5C4, 0x5C5);
   (0x5C7, 0x5C7); (0x5F4, 0x5F4); (0x600, 0x605); (0x610, 0x61A);
   (0x61C, 0x61C); (0x640, 0x640); (0x64B, 0x65F); (0x670, 0x670);
   (0x6D6, 0x6DD); (0x6DF, 0x6E8); (0x6EA, 0x6ED); (0x70F, 0x70F);
   (0x711, 0x711); (0x730, 0x74A); (0x7A6, 0x7B0); (0x7EB, 0x7F5);
   (0x7FA, 0x7FA); (0x7FD, 0x7FD); (0x816, 0x82D); (0x859, 0x85B);
   (0x888, 0x888); (0x890, 0x891); (0x898, 0x89F); (0x8C9, 0x902);
   (0x93A, 0x93A); (0x93C, 0x93C); (0x941, 0x948); (0x94D, 0x94D);
   (0x951, 0x957); (0x962, 0x963); (0x971, 0x971); (0x981, 0x981);
   (0x9BC, 0x9BC); (0x9C1, 0x9C4); (0x9CD, 0x9CD); (0x9E2, 0x9E3);
   (0x9FE, 0x9FE); (0xA01, 0xA02); (0xA3C, 0xA3C); (0xA41, 0xA42);
   (0xA47, 0xA48); (0xA4B, 0xA4D); (0xA51, 0xA51); (0xA70, 0xA71);
   (0xA75, 0xA75); (0xA81, 0xA82); (0xABC, 0xABC); (0xAC1, 0xAC5);
   (0xAC7, 0xAC8); (0xACD, 0xACD); (0xAE2, 0xAE3); (0xAFA, 0xAFF);
   (0xB01, 0xB01); (0xB3C, 0xB3C); (0xB3F, 0xB3F); (0xB41, 0xB44);
   (0xB4D, 0xB4D); (0xB55, 0xB56); (0xB62, 0xB63); (0xB82, 0xB82);
   (0xBC0, 0xBC0); (0xBCD, 0xBCD); (0xC00, 0xC00); (0xC04, 0xC04);
   (0xC3C, 0xC3C); (0xC3E, 0xC40); (0xC46, 0xC48); (0xC4A, 0xC4D);
   (0xC55, 0xC56); (0xC62, 0xC63); (0xC81, 0xC81); (0xCBC, 0xCBC);
   (0xCBF, 0xCBF); (0xCC6, 0xCC6); (0xCCC, 0xCCD); (0xCE2, 0xCE3);
   (0xD00, 0xD01); (0xD3B, 0xD3C); (0xD41, 0xD44); (0xD4D, 0xD4D);
   (0xD62, 0xD63); (0xD81, 0xD81); (0xDCA, 0xDCA); (0xDD2, 0xDD4);
   (0xDD6, 0xDD6); (0xE31, 0xE31); (0xE34, 0xE3A); (0xE46, 0xE4E);
   (0xEB1, 0xEB1); (0xEB4, 0xEBC); (0xEC6, 0xEC6); (0xEC8, 0xECD);
   (0xF18, 0xF19); (0xF35, 0xF35); (0xF37, 0xF37); (0xF39, 0xF39);
   (0xF71, 0xF7E); (0xF80, 0xF84); (0xF86, 0xF87); (0xF8D, 0xF97);
   (0xF99, 0xFBC); (0xFC6, 0xFC6); (0x102D, 0x1030); (0x1032, 0x1037);
   (0x1039, 0x103A); (0x103D, 0x103E); (0x1058, 0x1059); (0x105E, 0x1060);
   (0x1071, 0x1074); (0x1082, 0x1082); (0x1085, 0x1086); (0x108D, 0x108D);
   (0x109D, 0x109D); (0x10FC, 0x10FC); (0x135D, 0x135F); (0x1712, 0x1714);
   (0x1732, 0x1733); (0x1752, 0x1753); (0x1772, 0x1773); (0x17B4, 0x17B5);
   (0x17B7, 0x17BD); (0x17C6, 0x17C6); (0x17C9, 0x17D3); (0x17D7, 0x17D7);
   (0x17DD, 0x17DD); (0x180B, 0x180F); (0x1843, 0x1843); (0x1885, 0x1886);
   (0x18A9, 0x18A9); (0x1920, 0x1922); (0x1927, 0x1928); (0x1932, 0x1932);
   (0x1939, 0x193B); (0x1A17, 0x1A18); (0x1A1B, 0x1A1B); (0x1A56, 0x1A56);
   (0x1A58, 0x1A5E); (0x1A60, 0x1A60); (0x1A62, 0x1A62); (0x1A65, 0x1A6C);
   (0x1A73, 0x1A7C); (0x1A7F, 0x1A7F); (0x1AA7, 0x1AA7); (0x1AB0, 0x1ACE);
   (0x1B00, 0x1B03); (0x1B34, 0x1B34); (0x1B36, 0x1B3A); (0x1B3C, 0x1B3C);
   (0x1B42, 0x1B42); (0x1B6B, 0x1B73); (0x1B80, 0x1B81); (0x1BA2, 0x1BA5);
   (0x1BA8, 0x1BA9); (0x1BAB, 0x1BAD); (0x1BE6, 0x1BE6); (0x1BE8, 0x1BE9);
   (0x1BED, 0x1BED); (0x1BEF, 0x1BF1); (0x1C2C, 0x1C33); (0x1C36, 0x1C37);
   (0x1C78, 0x1C7D); (0x1CD0, 0x1CD2); (0x1CD4, 0x1CE0); (0x1CE2, 0x1CE8);
   (0x1CED, 0x1CED); (0x1CF4, 0x1CF4); (0x1CF8, 0x1CF9); (0x1D2C, 0x1D6A);
   (0x1D78, 0x1D78); (0x1D9B, 0x1DFF); (0x1FBD, 0x1FBD); (0x1FBF, 0x1FC1);
   (0x1FCD, 0x1FCF); (0x1FDD, 0x1FDF); (0x1FED, 0x1FEF); (0x1FFD, 0x1FFE);
   (0x200B, 0x200F); (0x2018, 0x2019); (0x2024, 0x2024); (0x2027, 0x2027);
   (0x202A, 0x202E); (0x2060, 0x2064); (0x2066, 0x206F); (0x2071, 0x2071);
   (0x207F, 0x207F); (0x2090, 0x209C); (0x20D0, 0x20F0); (0x2C7C, 0x2C7D);
   (0x2CEF, 0x2CF1); (0x2D6F, 0x2D6F); (0x2D7F, 0x2D7F); (0x2DE0, 0x2DFF);
   (0x2E2F, 0x2E2F); (0x3005, 0x3005); (0x302A, 0x302D); (0x3031, 0x3035);
   (0x303B, 0x303B); (0x3099, 0x309E); (0x30FC, 0x30FE); (0xA015, 0xA015);
   (0xA4F8, 0xA4FD); (0xA60C, 0xA60C); (0xA66F, 0xA672); (0xA674, 0xA67D);
   (0xA67F, 0xA67F); (0xA69C, 0xA69F); (0xA6F0, 0xA6F1); (0xA700, 0xA721);
   (0xA770, 0xA770); (0xA788, 0xA78A); (0xA7F2, 0xA7F4); (0xA7F8, 0xA7F9);
   (0xA802, 0xA802); (0xA806, 0xA806); (0xA80B, 0xA80B); (0xA825, 0xA826);
   (0xA82C, 0xA82C); (0xA8C4, 0xA8C5); (0xA8E0, 0xA8F1); (0xA8FF, 0xA8FF);
   (0xA926, 0xA92D); (0xA947, 0xA951); (0xA980, 0xA982); (0xA9B3, 0xA9B3);
   (0xA9B6, 0xA9B9); (0xA9BC, 0xA9BD); (0xA9CF, 0xA9CF); (0xA9E5, 0xA9E6);
   (0xAA29, 0xAA2E); (0xAA31, 0xAA32); (0xAA35, 0xAA36); (0xAA43, 0xAA43);
   (0xAA4C, 0xAA4C); (0xAA70, 0xAA70); (0xAA7C, 0xAA7C); (0xAAB0, 0xAAB0);
   (0xAAB2, 0xAAB4); (0xAAB7, 0xAAB8); (0xAABE, 0xAABF); (0xAAC1, 0xAAC1);
   (0xAADD, 0xAADD); (0xAAEC, 0xAAED); (0xAAF3, 0xAAF4); (0xAAF6, 0xAAF6);
   (0xAB5B, 0xAB5F); (0xAB69, 0xAB6B); (0xABE5, 0xABE5); (0xABE8, 0xABE8);
   (0xABED, 0xABED); (0xFB1E, 0xFB1E); (0xFBB2, 0xFBC2); (0xFE00, 0xFE0F);
   (0xFE13, 0xFE13); (0xFE20, 0xFE2F); (0xFE52, 0xFE52); (0xFE55, 0xFE55);
   (0xFEFF, 0xFEFF); (0xFF07, 0xFF07); (0xFF0E, 0xFF0E); (0xFF1A, 0xFF1A);
   (0xFF3E, 0xFF3E); (0xFF40, 0xFF40); (0xFF70, 0xFF70); (0xFF9E, 0xFF9F);
   (0xFFE3, 0xFFE3); (0xFFF9, 0xFFFB); (0x101FD, 0x101FD);
   (0x102E0, 0x102E0); (0x10376, 0x1037A); (0x10780, 0x10785);
   (0x10787, 0x107B0); (0x107B2, 0x107BA); (0x10A01, 0x10A03);
   (0x10A05, 0x10A06); (0x10A0C, 0x10A0F); (0x10A38, 0x10A3A);
   (0x10A3F, 0x10A3F); (0x10AE5, 0x10AE6); (0x10D24, 0x10D27);
   (0x10EAB, 0x10EAC); (0x10F46, 0x10F50); (0x10F82, 0x10F85);
   (0x11001, 0x11001); (0x11038, 0x11046); (0x11070, 0x11070);
   (0x11073, 0x11074); (0x1107F, 0x11081); (0x110B3, 0x110B6);
   (0x110B9, 0x110BA); (0x110BD, 0x110BD); (0x110C2, 0x110C2);
   (0x110CD, 0x110CD); (0x11100, 0x11102); (0x11127, 0x1112B);
   (0x1112D, 0x11134); (0x11173, 0x11173); (0x11180, 0x11181);
   (0x111B6, 0x111BE); (0x111C9, 0x111CC); (0x111CF, 0x111CF);
   (0x1122F, 0x11231); (0x11234, 0x11234); (0x11236, 0x11237);
   (0x1123E, 0x1123E); (0x112DF, 0x112DF); (0x112E3, 0x112EA);
   (0x11300, 0x11301); (0x1133B, 0x1133C); (0x11340, 0x11340);
   (0x11366, 0x1136C); (0x11370, 0x11374); (0x11438, 0x1143F);
   (0x11442, 0x11444); (0x11446, 0x11446); (0x1145E, 0x1145E);
   (0x114B3, 0x114B8); (0x114BA, 0x114BA); (0x114BF, 0x114C0);
   (0x114C2, 0x114C3); (0x115B2, 0x115B5); (0x115BC, 0x115BD);
   (0x115BF, 0x115C0); (0x115DC, 0x115DD); (0x11633, 0x1163A);
   (0x1163D, 0x1163D); (0x1163F, 0x11640); (0x116AB, 0x116AB);
   (0x116AD, 0x116AD); (0x116B0, 0x116B5); (0x116B7, 0x116B7);
   (0x1171D, 0x1171F); (0x11722, 0x11725); (0x11727, 0x1172B);
   (0x1182F, 0x11837); (0x11839, 0x1183A); (0x1193B, 0x1193C);
   (0x1193E, 0x1193E); (0x11943, 0x11943); (0x119D4, 0x119D7);
   (0x119DA, 0x119DB); (0x119E0, 0x119E0); (0x11A01, 0x11A0A);
   (0x11A33, 0x11A38); (0x11A3B, 0x11A3E); (0x11A47, 0x11A47);
   (0x11A51, 0x11A56); (0x11A59, 0x11A5B); (0x11A8A, 0x11A96);
   (0x11A98, 0x11A99); (0x11C30, 0x11C36); (0x11C38, 0x11C3D);
   (0x11C3F, 0x11C3F); (0x11C92, 0x11CA7); (0x11CAA, 0x11CB0);
   (0x11CB2, 0x11CB3); (0x11CB5, 0x11CB6); (0x11D31, 0x11D36);
   (0x11D3A, 0x11D3A); (0x11D3C, 0x11D3D); (0x11D3F, 0x11D45);
   (0x11D47, 0x11D47); (0x11D90, 0x11D91); (0x11D95, 0x11D95);
   (0x11D97, 0x11D97); (0x11EF3, 0x11EF4); (0x13430, 0x13438);
   (0x16AF0, 0x16AF4); (0x16B30, 0x16B36); (0x16B40, 0x16B43);
   (0x16F4F, 0x16F4F); (0x16F8F, 0x16F9F); (0x16FE0, 0x16FE1);
   (0x16FE3, 0x16FE4); (0x1AFF0, 0x1AFF3); (0x1AFF5, 0x1AFFB);
   (0x1AFFD, 0x1AFFE); (0x1BC9D, 0x1BC9E); (0x1BCA0, 0x1BCA3);
   (0x1CF00, 0x1CF2D); (0x1CF30, 0x1CF46); (0x1D167, 0x1D169);
   (0x1D173, 0x1D182); (0x1D185, 0x1D18B); (0x1D1AA, 0x1D1AD);
   (0x1D242, 0x1D244); (0x1DA00, 0x1DA36); (0x1DA3B, 0x1DA6C);
   (0x1DA75, 0x1DA75); (0x1DA84, 0x1DA84); (0x1DA9B, 0x1DA9F);
   (0x1DAA1, 0x1DAAF); (0x1E000, 0x1E006); (0x1E008, 0x1E018);
   (0x1E01B, 0x1E021); (0x1E023, 0x1E024); (0x1E026, 0x1E02A);
   (0x1E130, 0x1E13D); (0x1E2AE, 0x1E2AE); (0x1E2EC, 0x1E2EF);
   (0x1E8D0, 0x1E8D6); (0x1E944, 0x1E94B); (0x1F3FB, 0x1F3FF);
   (0xE0001, 0xE0001); (0xE0020, 0xE007F); (0xE0100, 0xE01EF)
  ].

Definition within (c : Z) (r : Z * Z) : bool :=
  (fst r <=? c) && (c <=? snd r).

Definition isCased (u : codeUnit) : bool :=
  match u with
  | Scalar c => existsb (within c) casedRanges
  | Stray _ => false
  end.

Definition isCaseIgnorable (u : codeUnit) : bool :=
  match u with
  | Scalar c => existsb (within c) caseIgnorableRanges
  | Stray _ => false
  end.

Definition mapsAt (c : Z) (r : Z * Z * Z * Z) : bool :=
  let '(lo, hi, step, _) := r in
  (lo <=? c) && (c <=? hi) && ((c - lo) mod step =? 0).

Definition lowerCodePoint (c : Z) : Z :=
  match find (mapsAt c) lowerCaseRanges with
  | Some (_, _, _, delta) => c + delta
  | None => c
  end.

(** The code units [l], read from their first, go on with a cased letter
    after the case-ignorable ones. *)
Fixpoint casedLetterNext (l : list codeUnit) : bool :=
  match l with
  | [] => false
  | u :: l' => if isCaseIgnorable u then casedLetterNext l' else isCased u
  end.

(** The condition Final_Sigma of SpecialCasing.txt: a cased letter before
    (the code units [before] are in reverse order), none after. *)
Definition finalSigma (before after : list codeUnit) : bool :=
  casedLetterNext before && negb (casedLetterNext after).

(** The lower case of one code unit in its context: the two mappings of
    SpecialCasing.txt that hold in every locale (U+03A3 in final position,
    and U+0130), and the simple mapping for every other code point. *)
Definition lowerUnit (before : list codeUnit) (u : codeUnit)
    (after : list codeUnit) : list codeUnit :=
  match u with
  | Stray b => [Stray b]
  | Scalar c =>
      if c =? 0x3A3
      then [Scalar (if finalSigma before after then 0x3C2 else 0x3C3)]
      else if c =? 0x130 then [Scalar 0x69; Scalar 0x307]
      else [Scalar (lowerCodePoint c)]
  end.

Fixpoint lowerFrom (before l : list codeUnit) : list codeUnit :=
  match l with
  | [] => []
  | u :: l' => (lowerUnit before u l' ++ lowerFrom (u :: before) l')%list
  end.

(** [String.prototype.toLowerCase]: the Unicode default case conversion of
    the code points of the text. *)
Definition toLowerCase (s : string) : string :=
  fromBytes (encode (lowerFrom [] (decode (bytes s)))).

(** [s.includes(t)]: [t] occurs in [s] as a contiguous substring. *)
Fixpoint includes (s t : string) : bool :=
  String.prefix t s ||
  match s with
  | EmptyString => false
  | String _ s' => includes s' t
  end.

(** The WhiteSpace and LineTerminator code points of ECMAScript, in UTF-8:
    TAB, LF, VT, FF, CR, SP, NBSP, U+1680, U+2000..U+200A, U+2028, U+2029,
    U+202F, U+205F, U+3000 and U+FEFF. *)
Definition whiteSpace : list (list ascii) :=
  map (map ascii_of_N)
    (List.app
       [[9]; [10]; [11]; [12]; [13]; [32]; [194; 160]; [225; 154; 128]]
       (List.app
          (map (fun b => [226; 128; b])
             [128; 129; 130; 131; 132; 133; 134; 135; 136; 137; 138;
              168; 169; 175])
          [[226; 129; 159]; [227; 128; 128]; [239; 187; 191]]))%N.

Fixpoint stripPrefix (p l : list ascii) : option (list ascii) :=
  match p, l with
  | [], _ => Some l
  | _ :: _, [] => None
  | a :: p', b :: l' => if Ascii.eqb a b then stripPrefix p' l' else None
  end.

Fixpoint stripAny (ws : list (list ascii)) (l : list ascii)
  : option (list ascii) :=
  match ws with
  | [] => None
  | w :: ws' =>
      match stripPrefix w l with
      | Some r => Some r
      | None => stripAny ws' l
      end
  end.

(** Drops leading white space; every round removes at least one byte, so
    [length l] rounds are enough. *)
Fixpoint dropWhile (ws : list (list ascii)) (fuel : nat) (l : list ascii)
  : list ascii :=
  match fuel with
  | O => l
  | S fuel' =>
      match stripAny ws l with
      | Some r => dropWhile ws fuel' r
      | None => l
      end
  end.

Definition trimStartBytes (ws : list (list ascii)) (l : list ascii) :=
  dropWhile ws (List.length l) l.

(** [String.prototype.trim]: white space is removed at both ends. *)
Definition trim (s : string) : string :=
  let l := trimStartBytes whiteSpace (list_ascii_of_string s) in
  let r := trimStartBytes (map (@rev ascii) whiteSpace) (rev l) in
  string_of_list_ascii (rev r).

(** Truthiness of a string: every string but the empty one. *)
Definition nonEmpty (s : string) : bool := negb (s =? "")%string.

End JsString.

(* ================================================================== *)
(** ** Array.prototype.sort *)

(** [Array.prototype.sort] is stable (ECMAScript 2019).  For a consistent
    comparator all stable sorts compute the same array; the model is the
    insertion sort.  A comparator result is a number: positive when its first
    argument belongs after its second. *)
Module JsArray.
Section Sort.
Context {A : Type}.
Variable cmp : A -> A -> Z.

Fixpoint insert (x : A) (l : list A) : list A :=
  match l with
  | [] => [x]
  | y :: l' => if 0 <? cmp x y then y :: insert x l' else x :: y :: l'
  end.

Definition sort (l : list A) : list A := fold_right insert [] l.
End Sort.

(** The comparator [(a, b) => key(b) - key(a)], which sorts in descending
    order of the key, and the order it aims at. *)
Definition descending {A : Type} (key : A -> Z) (a b : A) : Z :=
  key b - key a.
Definition notBelow {A : Type} (key : A -> Z) (a b : A) : Prop :=
  key b <= key a.

(** [a[i]++] on an array of counters.  [None] stands for an index that is
    not an element of the array: there JavaScript would read [undefined]
    and store [NaN] outside the array's elements. *)
Fixpoint incrementAt (i : nat) (a : list Z) : option (list Z) :=
  match a, i with
  | [], _ => None
  | x :: a', O => Some ((x + 1) :: a')
  | x :: a', S i' => option_map (cons x) (incrementAt i' a')
  end.

Definition incrementIndex (i : Z) (a : list Z) : option (list Z) :=
  if i <? 0 then None else incrementAt (Z.to_nat i) a.
End JsArray.

(* ================================================================== *)
(** ** Plain objects used as dictionaries *)

(** The pages count in object literals ([Record<string, number>]).  Such an
    object has its own properties, kept in the order of creation, and behind
    them the properties it inherits from [Object.prototype]: a read
    [o[k]] of a key that is not an own property finds the inherited one. *)
Module JsObject.

(** The values that reach a counter object. *)
Inductive value :=
| Num (n : Z)                    (* a number, here always an integer *)
| NaN
| Inherited (k : string)         (* [Object.prototype[k]]: a function, or
                                    [Object.prototype] itself for
                                    [__proto__] *)
| Text (k : string) (ones : nat) (* [String(Object.prototype[k])] followed
                                    by [ones] characters [1] *)
| Undefined.

Definition object := list (string * value).

(** The property names of [Object.prototype]. *)
Definition prototypeKeys : list string :=
  ["constructor"; "__defineGetter__"; "__defineSetter__"; "hasOwnProperty";
   "__lookupGetter__"; "__lookupSetter__"; "isPrototypeOf";
   "propertyIsEnumerable"; "toString"; "valueOf"; "__proto__";
   "toLocaleString"].

Definition inPrototype (k : string) : bool :=
  existsb (String.eqb k) prototypeKeys.

Fixpoint own (o : object) (k : string) : option value :=
  match o with
  | [] => None
  | (k', v) :: o' => if (k' =? k)%string then Some v else own o' k
  end.

(** [o[k]] *)
Definition get (o : object) (k : string) : value :=
  match own o k with
  | Some v => v
  | None => if inPrototype k then Inherited k else Undefined
  end.

Fixpoint replace (o : object) (k : string) (v : value) : object :=
  match o with
  | [] => []
  | (k', v') :: o' =>
      if (k' =? k)%string then (k', v) :: o' else (k', v') :: replace o' k v
  end.

(** [o[k] = v] for a primitive [v].  An own property is overwritten in
    place; a new key is appended, also when it shadows an inherited
    function (those are writable data properties).  [__proto__] is an
    accessor whose setter ignores primitives. *)
Definition set (o : object) (k : string) (v : value) : object :=
  match own o k with
  | Some _ => replace o k v
  | None => if (k =? "__proto__")%string then o else (o ++ [(k, v)])%list
  end.

(** [v !== undefined] *)
Definition defined (v : value) : bool :=
  match v with
  | Undefined => false
  | _ => true
  end.

Definition truthy (v : value) : bool :=
  match v with
  | Num n => negb (n =? 0)
  | NaN | Undefined => false
  | Inherited _ | Text _ _ => true
  end.

(** The value stored by [o[k]++]: the operand converted to a number, plus
    one.  Functions, objects and their texts convert to [NaN]. *)
Definition increment (v : value) : value :=
  match v with
  | Num n => Num (n + 1)
  | _ => NaN
  end.

(** [(v || 0) + 1]; [+] concatenates when its left operand is not a
    number. *)
Definition orZeroPlusOne (v : value) : value :=
  match v with
  | Num n => if n =? 0 then Num 1 else Num (n + 1)
  | NaN | Undefined => Num 1
  | Inherited k => Text k 1
  | Text k ones => Text k (S ones)
  end.

(** [b - a] as the result of a sort comparator: a [NaN] difference counts
    as [0]. *)
Definition difference (b a : value) : Z :=
  match b, a with
  | Num y, Num x => y - x
  | _, _ => 0
  end.

(** A key is an array index when it is the canonical decimal text of an
    integer below [2^32 - 1]. *)
Definition arrayIndex (k : string) : option N :=
  match NilZero.uint_of_string k with
  | Some d =>
      let n := N.of_uint d in
      if ((NilZero.string_of_uint (N.to_uint n) =? k)%string
          && (n <? 4294967295)%N)%bool
      then Some n else None
  | None => None
  end.

Definition indexed (o : object) : list (N * (string * value)) :=
  flat_map (fun p => match arrayIndex (fst p) with
                     | Some n => [(n, p)]
                     | None => []
                     end) o.

Definition named (o : object) : object :=
  filter (fun p => match arrayIndex (fst p) with
                   | Some _ => false
                   | None => true
                   end) o.

(** [Object.entries(o)]: array-index keys in ascending order, then the
    other keys in the order of creation. *)
Definition entries (o : object) : list (string * value) :=
  (map snd
     (JsArray.sort (fun a b => Z.of_N (fst a) - Z.of_N (fst b)) (indexed o))
   ++ named o)%list.

Definition keys (o : object) : list string := map fst (entries o).
Definition values (o : object) : list value := map snd (entries o).

End JsObject.

(* ================================================================== *)
(** ** Dates *)

(** A [Date] is its time value, the milliseconds since the epoch.  The local
    time zone is taken to be UTC.  The calendar is the proleptic Gregorian
    one; days are converted with the usual era / year-of-era arithmetic, the
    year starting in March. *)
Module JsDate.

Definition msPerDay : Z := 86400000.

(** Day number of the civil date [y]-[m]-[d], [m] in 1..12; day 0 is
    1970-01-01. *)
Definition daysFromCivil (y m d : Z) : Z :=
  let y' := if m <=? 2 then y - 1 else y in
  let era := y' / 400 in
  let yoe := y' mod 400 in
  let mp := (m + 9) mod 12 in
  let doy := (153 * mp + 2) / 5 + d - 1 in
  let doe := yoe * 365 + yoe / 4 - yoe / 100 + doy in
  era * 146097 + doe - 719468.

(** The civil date of day [doe] of the 400-year era [era]. *)
Definition civilOfEra (era doe : Z) : Z * Z * Z :=
  let yoe := (doe - doe / 1460 + doe / 36524 - doe / 146096) / 365 in
  let doy := doe - (365 * yoe + yoe / 4 - yoe / 100) in
  let mp := (5 * doy + 2) / 153 in
  let d := doy - (153 * mp + 2) / 5 + 1 in
  let m := if mp <? 10 then mp + 3 else mp - 9 in
  let y := yoe + era * 400 + (if m <=? 2 then 1 else 0) in
  (y, m, d).

Definition civilFromDays (z : Z) : Z * Z * Z :=
  let z' := z + 719468 in
  civilOfEra (z' / 146097) (z' mod 146097).

Definition getFullYear (t : Z) : Z :=
  let '(y, _, _) := civilFromDays (t / msPerDay) in y.

(** [getMonth()], 0 for January. *)
Definition getMonth (t : Z) : Z :=
  let '(_, m, _) := civilFromDays (t / msPerDay) in m - 1.

(** [new Date(year, month, date)]: a year in 0..99 means 1900 + year, and
    a month outside 0..11 carries into the year. *)
Definition fullYear (year : Z) : Z :=
  if (0 <=? year) && (year <=? 99) then 1900 + year else year.

Definition make (year month date : Z) : Z :=
  let year := fullYear year in
  let ym := year + month / 12 in
  let mn := month mod 12 in
  (daysFromCivil ym (mn + 1) 1 + (date - 1)) * msPerDay.

Definition decimal (n : Z) : string :=
  NilZero.string_of_uint (N.to_uint (Z.to_N n)).

(** The short name of month [m], 0 for January, in Japanese: the number
    of the month followed by the sign for month. *)
Definition monthLabel (m : Z) : string := (decimal (m + 1) ++ "月")%string.

(** [toLocaleDateString("ja-JP", { month: "short" })] *)
Definition monthShort (t : Z) : string := monthLabel (getMonth t).

End JsDate.

(* ================================================================== *)
(** ** Numbers: division and toFixed *)

(** The quotient of two integers as a JavaScript number.  A finite quotient
    is kept as the exact rational, in lowest terms: the rounding of the
    quotient to a double is not modelled, nor the sign of zero. *)
Module JsNumber.

Inductive number :=
| Finite (q : Q)
| NotANumber
| Infinite (negative : bool).

Definition div (a b : Z) : number :=
  if b =? 0 then
    if a =? 0 then NotANumber else Infinite (a <? 0)
  else Finite (Qred (inject_Z a / inject_Z b)).

(** [x.toFixed(1)] below [10^21]: the integer [n] with [n / 10] nearest to
    [|x|], the larger one on a tie, printed with one digit after the
    point. *)
Definition toFixed1 (x : number) : string :=
  match x with
  | Finite q =>
      let negative := Qnum q <? 0 in
      let n := Qfloor (Qabs q * inject_Z 10 + (1 # 2)) in
      ((if negative then "-" else "")
       ++ JsDate.decimal (n / 10) ++ "." ++ JsDate.decimal (n mod 10))%string
  | NotANumber => "NaN"
  | Infinite negative => if negative then "-Infinity" else "Infinity"
  end.

End JsNumber.

(* ================================================================== *)
(** ** Coffee entries *)

(** The pages declare [CoffeeEntry] three times, each with the columns it
    selects; the record has the union.  The text columns other than the name
    are nullable in [database_setup.sql], and the code guards the name with
    [?.] too, hence [option].  The rating and the four taste columns are
    INTEGER columns, hence [Z].  [created_at] is the time value
    [new Date(entry.created_at).getTime()] of the stored timestamp, in
    milliseconds since the epoch. *)
Record CoffeeEntry : Type := mkEntry {
  id : string;
  bean_name : option string;
  bean_origin : option string;
  roast_level : option string;
  brew_method : option string;
  rating : Z;
  sourness : Z;
  sweetness : Z;
  bitterness : Z;
  richness : Z;
  created_at : Z
}.

(** [entry.field === filter] for a nullable column. *)
Definition strictEq (field : option string) (s : string) : bool :=
  match field with
  | Some v => (v =? s)%string
  | None => false
  end.

(* ================================================================== *)
(** ** The entries page *)

Module EntriesPage.
Import JsString.

Inductive sortMode := SortDate | SortRating.

(** The state the effect depends on. *)
Record filters := mkFilters {
  searchTerm : string;
  originFilter : string;
  roastFilter : string;
  brewMethodFilter : string;
  ratingFilter : Z;
  sortBy : sortMode
}.

(** [entry.bean_name?.toLowerCase().includes(term)] *)
Definition fieldIncludes (field : option string) (term : string) : bool :=
  match field with
  | Some v => includes (toLowerCase v) term
  | None => false
  end.

Definition keywordMatch (term : string) (entry : CoffeeEntry) : bool :=
  fieldIncludes (bean_name entry) term
  || fieldIncludes (bean_origin entry) term.

Definition byRating (a b : CoffeeEntry) : Z := rating b - rating a.
Definition byDate (a b : CoffeeEntry) : Z := created_at b - created_at a.

(** The body of the search-and-filter effect; the value is what it passes
    to [setFilteredEntries]. *)
Definition filteredEntries (entries : list CoffeeEntry) (f : filters)
  : list CoffeeEntry :=
  let result := entries in
  let result :=
    if negb (trim (searchTerm f) =? "")%string then
      let term := toLowerCase (searchTerm f) in
      filter (keywordMatch term) result
    else result in
  let result :=
    if nonEmpty (originFilter f) then
      filter (fun entry => strictEq (bean_origin entry) (originFilter f))
        result
    else result in
  let result :=
    if nonEmpty (roastFilter f) then
      filter (fun entry => strictEq (roast_level entry) (roastFilter f))
        result
    else result in
  let result :=
    if nonEmpty (brewMethodFilter f) then
      filter (fun entry => strictEq (brew_method entry) (brewMethodFilter f))
        result
    else result in
  let result :=
    if ratingFilter f >? 0 then
      filter (fun entry => rating entry >=? ratingFilter f) result
    else result in
  match sortBy f with
  | SortRating => JsArray.sort byRating result
  | SortDate => JsArray.sort byDate result
  end.

(** *** The five filters as stages *)

(** Each [if] block of the effect is a stage; [runStages] applies stages in
    a given order.  [sourceOrder] is the order of the effect. *)
Inductive stage := Keyword | Origin | Roast | BrewMethod | Rating.

Definition sourceOrder : list stage :=
  [Keyword; Origin; Roast; BrewMethod; Rating].

(** The per-entry predicate of a stage: [true] when the stage's filter is
    absent, the callback of its [filter] call otherwise. *)
Definition stageMatch (f : filters) (s : stage) (entry : CoffeeEntry)
  : bool :=
  match s with
  | Keyword =>
      if negb (trim (searchTerm f) =? "")%string
      then keywordMatch (toLowerCase (searchTerm f)) entry else true
  | Origin =>
      if nonEmpty (originFilter f)
      then strictEq (bean_origin entry) (originFilter f) else true
  | Roast =>
      if nonEmpty (roastFilter f)
      then strictEq (roast_level entry) (roastFilter f) else true
  | BrewMethod =>
      if nonEmpty (brewMethodFilter f)
      then strictEq (brew_method entry) (brewMethodFilter f) else true
  | Rating =>
      if ratingFilter f >? 0
      then rating entry >=? ratingFilter f else true
  end.

Definition runStage (f : filters) (s : stage) (result : list CoffeeEntry)
  : list CoffeeEntry :=
  match s with
  | Keyword =>
      if negb (trim (searchTerm f) =? "")%string then
        filter (keywordMatch (toLowerCase (searchTerm f))) result
      else result
  | Origin =>
      if nonEmpty (originFilter f) then
        filter (fun entry => strictEq (bean_origin entry) (originFilter f))
          result
      else result
  | Roast =>
      if nonEmpty (roastFilter f) then
        filter (fun entry => strictEq (roast_level entry) (roastFilter f))
          result
      else result
  | BrewMethod =>
      if nonEmpty (brewMethodFilter f) then
        filter
          (fun entry => strictEq (brew_method entry) (brewMethodFilter f))
          result
      else result
  | Rating =>
      if ratingFilter f >? 0 then
        filter (fun entry => rating entry >=? ratingFilter f) result
      else result
  end.

Definition runStages (f : filters) (order : list stage)
    (entries : list CoffeeEntry) : list CoffeeEntry :=
  fold_left (fun result s => runStage f s result) order entries.

(** The conjunction of the five predicates. *)
Definition matchesAll (f : filters) (entry : CoffeeEntry) : bool :=
  stageMatch f Keyword entry && stageMatch f Origin entry
  && stageMatch f Roast entry && stageMatch f BrewMethod entry
  && stageMatch f Rating entry.

Definition sortResult (f : filters) (result : list CoffeeEntry)
  : list CoffeeEntry :=
  match sortBy f with
  | SortRating => JsArray.sort byRating result
  | SortDate => JsArray.sort byDate result
  end.

(** The filter is absent: what [resetFilters] sets, or a search term of
    white space only. *)
Definition noFilters (f : filters) : Prop :=
  trim (searchTerm f) = "" /\ originFilter f = "" /\ roastFilter f = ""
  /\ brewMethodFilter f = "" /\ ratingFilter f = 0.

End EntriesPage.

(* ================================================================== *)
(** ** The dashboard page *)

Module DashboardPage.
Import JsObject.

Record stats := mkStats {
  totalEntries : Z;
  avgRating : string;
  topMethod : string;
  topOrigin : string;
  thisMonth : Z
}.

(** The counting loop of [getStats], written twice in the source, for
    [brew_method] and for [bean_origin]:
    [if (entry.f) counts[entry.f] = (counts[entry.f] || 0) + 1]. *)
Definition countStep (field : CoffeeEntry -> option string)
    (counts : object) (entry : CoffeeEntry) : object :=
  match field entry with
  | Some k =>
      if JsString.nonEmpty k
      then set counts k (orZeroPlusOne (get counts k))
      else counts
  | None => counts
  end.

Definition countBy (field : CoffeeEntry -> option string)
    (entries : list CoffeeEntry) : object :=
  fold_left (countStep field) entries [].

(** [Object.entries(counts).sort((a, b) => b[1] - a[1]).shift()] *)
Definition top (counts : object) : option (string * value) :=
  hd_error
    (JsArray.sort (fun a b => difference (snd b) (snd a))
       (JsObject.entries counts)).

Definition sumRatings (entries : list CoffeeEntry) : Z :=
  fold_left (fun sum entry => sum + rating entry) entries 0.

(** [n || 1] *)
Definition orOne (n : Z) : Z := if n =? 0 then 1 else n.

Definition averageRating (entries : list CoffeeEntry) : JsNumber.number :=
  JsNumber.div (sumRatings entries) (orOne (Z.of_nat (List.length entries))).

Definition inMonthOf (now : Z) (e : CoffeeEntry) : bool :=
  (JsDate.getMonth (created_at e) =? JsDate.getMonth now)
  && (JsDate.getFullYear (created_at e) =? JsDate.getFullYear now).

(** [getStats]; [now] is the clock read by [new Date()]. *)
Definition getStats (now : Z) (entries : list CoffeeEntry) : stats :=
  let totalEntries := Z.of_nat (List.length entries) in
  let avgRating := averageRating entries in
  let methodCounts := countBy brew_method entries in
  let topMethod := top methodCounts in
  let originCounts := countBy bean_origin entries in
  let topOrigin := top originCounts in
  {| totalEntries := totalEntries;
     avgRating := JsNumber.toFixed1 avgRating;
     topMethod := match topMethod with Some p => fst p | None => "なし" end;
     topOrigin := match topOrigin with Some p => fst p | None => "なし" end;
     thisMonth := Z.of_nat (List.length (filter (inMonthOf now) entries)) |}.

End DashboardPage.

(* ================================================================== *)
(** ** The trend charts *)

Module CoffeeTrends.
Import JsObject.

(** What a chart shows: the labels and the data set; colours and borders
    are left out. *)
Record chart (A : Type) := mkChart {
  labels : list string;
  data : list A
}.
Arguments mkChart {A} _ _.
Arguments labels {A} _.
Arguments data {A} _.

Definition other : string := "その他/不明".

Definition roastLevels : object :=
  [("浅煎り", Num 0); ("中浅煎り", Num 0); ("中煎り", Num 0);
   ("中深煎り", Num 0); ("深煎り", Num 0); (other, Num 0)].

(** [if (entry.roast_level && levels[entry.roast_level] !== undefined)
    levels[entry.roast_level]++; else levels["その他/不明"]++] *)
Definition roastStep (levels : object) (entry : CoffeeEntry) : object :=
  match roast_level entry with
  | Some r =>
      if JsString.nonEmpty r && defined (get levels r)
      then set levels r (increment (get levels r))
      else set levels other (increment (get levels other))
  | None => set levels other (increment (get levels other))
  end.

Definition roastLevelCounts (entries : list CoffeeEntry) : object :=
  fold_left roastStep entries roastLevels.

Definition roastLevelData (entries : list CoffeeEntry) : chart value :=
  let levels := roastLevelCounts entries in
  mkChart (keys levels) (values levels).

(** The rating histogram.  [None] is an access outside the five cells. *)
Definition ratingStep (ratings : option (list Z)) (entry : CoffeeEntry)
  : option (list Z) :=
  match ratings with
  | Some a =>
      if (rating entry >=? 1) && (rating entry <=? 5)
      then JsArray.incrementIndex (rating entry - 1) a
      else Some a
  | None => None
  end.

Definition ratingCounts (entries : list CoffeeEntry) : option (list Z) :=
  fold_left ratingStep entries (Some [0; 0; 0; 0; 0]).

Definition ratingData (entries : list CoffeeEntry) : option (chart Z) :=
  option_map (mkChart ["★1"; "★2"; "★3"; "★4"; "★5"])
    (ratingCounts entries).

(** The six month names, oldest first: [for (let i = 5; i >= 0; i--)]. *)
Definition monthKey (now i : Z) : string :=
  JsDate.monthShort
    (JsDate.make (JsDate.getFullYear now) (JsDate.getMonth now - i) 1).

Definition monthBuckets (now : Z) : object :=
  fold_left (fun months i => set months (monthKey now i) (Num 0))
    [5; 4; 3; 2; 1; 0] [].

Definition monthStep (months : object) (entry : CoffeeEntry) : object :=
  let monthName := JsDate.monthShort (created_at entry) in
  if defined (get months monthName)
  then set months monthName (increment (get months monthName))
  else months.

Definition monthlyCounts (now : Z) (entries : list CoffeeEntry) : object :=
  fold_left monthStep entries (monthBuckets now).

Definition monthlyData (now : Z) (entries : list CoffeeEntry)
  : chart value :=
  let months := monthlyCounts now entries in
  mkChart (keys months) (values months).

(** [sum += entry.attribute || 0] *)
Definition sumOf (attribute : CoffeeEntry -> Z) (entries : list CoffeeEntry)
  : Z :=
  fold_left
    (fun sum entry =>
       sum + (if attribute entry =? 0 then 0 else attribute entry))
    entries 0.

Definition tasteProfileData (entries : list CoffeeEntry)
  : chart JsNumber.number :=
  let sourness := sumOf sourness entries in
  let sweetness := sumOf sweetness entries in
  let bitterness := sumOf bitterness entries in
  let richness := sumOf richness entries in
  let count := DashboardPage.orOne (Z.of_nat (List.length entries)) in
  mkChart ["酸味"; "甘味"; "苦味"; "コク"]
    [JsNumber.div sourness count; JsNumber.div sweetness count;
     JsNumber.div bitterness count; JsNumber.div richness count].

(** [if (!methods[m]) methods[m] = 0; methods[m]++] for a truthy [m]. *)
Definition brewStep (methods : object) (entry : CoffeeEntry) : object :=
  match brew_method entry with
  | Some m =>
      if JsString.nonEmpty m then
        let methods :=
          if negb (truthy (get methods m)) then set methods m (Num 0)
          else methods in
        set methods m (increment (get methods m))
      else methods
  | None => methods
  end.

Definition brewMethodData (entries : list CoffeeEntry) : chart value :=
  let methods := fold_left brewStep entries [] in
  let sortedMethods :=
    firstn 5
      (JsArray.sort (fun a b => difference (snd b) (snd a))
         (JsObject.entries methods)) in
  mkChart (map fst sortedMethods) (map snd sortedMethods).

(** *** Rendering *)

(** The component defines the five data functions and calls them only
    while it builds the charts.  The calls are logged. *)
Inductive call :=
| RoastLevelData | RatingData | MonthlyData | TasteProfileData
| BrewMethodData.

Definition logged (A : Type) : Type := A * list call.

Definition ret {A : Type} (a : A) : logged A := (a, []).

Definition bind {A B : Type} (m : logged A) (k : A -> logged B)
  : logged B :=
  let (b, l) := k (fst m) in (b, (snd m ++ l)%list).

Definition invoke {A : Type} (c : call) (a : A) : logged A := (a, [c]).

Notation "x <- m ;; k" := (bind m (fun x => k))
  (at level 61, m at next level, right associativity).

Inductive view :=
| Notice
| Charts (ratings : option (chart Z)) (roast : chart value)
    (monthly : chart value) (taste : chart JsNumber.number)
    (brew : option (chart value)).

(** The component; [now] is the clock read by [monthlyData]. *)
Definition render (now : Z) (entries : list CoffeeEntry) : logged view :=
  if Z.of_nat (List.length entries) <? 3 then ret Notice
  else
    ratings <- invoke RatingData (ratingData entries) ;;
    roast <- invoke RoastLevelData (roastLevelData entries) ;;
    monthly <- invoke MonthlyData (monthlyData now entries) ;;
    taste <- invoke TasteProfileData (tasteProfileData entries) ;;
    shown <- invoke BrewMethodData (brewMethodData entries) ;;
    if 0 <? Z.of_nat (List.length (labels shown)) then
      brew <- invoke BrewMethodData (brewMethodData entries) ;;
      ret (Charts ratings roast monthly taste (Some brew))
    else ret (Charts ratings roast monthly taste None).

End CoffeeTrends.

(* ================================================================== *)
(** ** The authentication page *)

Module AuthPage.
Import JsString.

Definition emailNotConfirmed : string :=
  "メールアドレスが確認されていません。メールをご確認ください。".
Definition invalidCredentials : string :=
  "メールアドレスまたはパスワードが正しくありません。".
Definition alreadyRegistered : string :=
  "このメールアドレスは既に登録されています。".
Definition weakPassword : string :=
  "パスワードは8文字以上にしてください。".
Definition fallback (errorMsg : string) : string :=
  ("エラーが発生しました: " ++ errorMsg)%string.
Definition unexpected : string :=
  "認証中に予期せぬエラーが発生しました。".

(** The message [handleAuth] shows for a provider error with text
    [errorMsg]. *)
Definition authErrorMessage (errorMsg : string) : string :=
  if includes errorMsg "Email not confirmed" then emailNotConfirmed
  else if includes errorMsg "Invalid login credentials"
  then invalidCredentials
  else if includes errorMsg "Email already registered"
  then alreadyRegistered
  else if includes errorMsg "Password should be at least"
  then weakPassword
  else fallback errorMsg.

(** The [catch] block: [err] is [Some] of the message when the thrown value
    is an object with a string [message]. *)
Definition handleAuthError (err : option string) : string :=
  match err with
  | Some errorMsg => authErrorMessage errorMsg
  | None => unexpected
  end.

End AuthPage.

(* ================================================================== *)
(** ** Vocabulary of the properties *)

(** What the properties below are stated with: counts of entries, counter
    objects with known keys, and the checks over an era of the calendar. *)
Module Counting.
Import JsObject.

(** The number of entries rated [k]. *)
Definition rated (k : Z) (entries : list CoffeeEntry) : Z :=
  Z.of_nat (List.length (filter (fun e => rating e =? k) entries)).

(** The number of elements of [l] that [label] files under key [k]. *)
Definition tally {A : Type} (label : A -> string) (k : string)
    (l : list A) : Z :=
  Z.of_nat (List.length (filter (fun a => (label a =? k)%string) l)).

(** The object with keys [ks], in this order, and the number [c k] under
    key [k]. *)
Definition counters (ks : list string) (c : string -> Z) : object :=
  map (fun k => (k, Num (c k))) ks.

(** One more under key [k]. *)
Definition bump (c : string -> Z) (k : string) : string -> Z :=
  fun k' => c k' + (if (k' =? k)%string then 1 else 0).

(** The entry has no brew method (no origin): the column is null or the
    empty string. *)
Definition blank (field : CoffeeEntry -> option string) (e : CoffeeEntry)
  : Prop :=
  field e = None \/ field e = Some "".

(** The group [p] of a count is keyed by the non-empty value of some
    entry. *)
Definition groupOf (field : CoffeeEntry -> option string)
    (all : list CoffeeEntry) (p : string * value) : Prop :=
  fst p <> "" /\ exists e, In e all /\ field e = Some (fst p).

Definition roastKeys : list string := map fst CoffeeTrends.roastLevels.

(** The bucket of an entry in the roast-level histogram: its roast level
    when that is one of the six keys, the other/unknown bucket
    otherwise. *)
Definition bucketOf (e : CoffeeEntry) : string :=
  match roast_level e with
  | Some r => if existsb (fun k => (k =? r)%string) roastKeys then r
              else CoffeeTrends.other
  | None => CoffeeTrends.other
  end.

(** The roast level is not the name of a property of
    [Object.prototype]. *)
Definition plainRoast (e : CoffeeEntry) : Prop :=
  match roast_level e with
  | Some r => inPrototype r = false
  | None => True
  end.

(** The names of the six months that end with month [m], oldest first. *)
Definition lastSix (m : Z) : list string :=
  map (fun i => JsDate.monthLabel ((m - i) mod 12)) [5; 4; 3; 2; 1; 0].

Definition monthOf (e : CoffeeEntry) : string :=
  JsDate.monthShort (created_at e).

(** [P] holds of the [n] integers from [start] on. *)
Fixpoint allFrom (P : Z -> bool) (n : nat) (start : Z) : bool :=
  match n with
  | O => true
  | S n' => P start && allFrom P n' (start + 1)
  end.

(** The last byte of a string. *)
Fixpoint lastByte (s : string) : option ascii :=
  match s with
  | EmptyString => None
  | String c s' =>
      match s' with
      | EmptyString => Some c
      | String _ _ => lastByte s'
      end
  end.

(** The first day of month [mp] (0 for March) of year [yoe] of an era
    converts back to itself. *)
Definition firstDayBack (yoe mp : Z) : bool :=
  let doe := yoe * 365 + yoe / 4 - yoe / 100 + (153 * mp + 2) / 5 in
  let '(y, m, d) := JsDate.civilOfEra 0 doe in
  (0 <=? doe) && (doe <? 146097)
  && (y =? yoe + (if m <=? 2 then 1 else 0))
  && (m =? (if mp <? 10 then mp + 3 else mp - 9))
  && (d =? 1).

End Counting.

(* ================================================================== *)
(** ** Sample data *)

Module Samples.
Import EntriesPage.

Definition entry (name : string) (origin roast brew : option string)
    (stars : Z) (created : Z) : CoffeeEntry :=
  {| id := name; bean_name := Some name; bean_origin := origin;
     roast_level := roast; brew_method := brew; rating := stars;
     sourness := 3; sweetness := 3; bitterness := 3; richness := 3;
     created_at := created |}.

(** Three entries rated 5, 3 and 5, made on the first days of January,
    February and March 2024. *)
Definition january : CoffeeEntry :=
  entry "Yirgacheffe" (Some "Ethiopia") (Some "浅煎り") (Some "V60") 5
    (JsDate.make 2024 0 1).
Definition february : CoffeeEntry :=
  entry "Huila" (Some "Colombia") (Some "中煎り") None 3
    (JsDate.make 2024 1 1).
Definition march : CoffeeEntry :=
  entry "Sidamo" (Some "Ethiopia") None (Some "French press") 5
    (JsDate.make 2024 2 1).

Definition reset (mode : sortMode) : filters :=
  {| searchTerm := ""; originFilter := ""; roastFilter := "";
     brewMethodFilter := ""; ratingFilter := 0; sortBy := mode |}.

(** Only the origin filter is set. *)
Definition fromEthiopia : filters :=
  {| searchTerm := ""; originFilter := "Ethiopia"; roastFilter := "";
     brewMethodFilter := ""; ratingFilter := 0; sortBy := SortDate |}.

(** A search term of two spaces, everything else reset. *)
Definition blankSearch : filters :=
  {| searchTerm := "  "; originFilter := ""; roastFilter := "";
     brewMethodFilter := ""; ratingFilter := 0; sortBy := SortDate |}.
End Samples.

(* ================================================================== *)
(** ** Sets of strings *)

(** [Array.from(new Set(array))]: a set keeps its elements in the order they
    were first added. *)
Module JsSet.

Definition add (s : list string) (x : string) : list string :=
  if existsb (String.eqb x) s then s else (s ++ [x])%list.

Definition fromArray (l : list string) : list string := fold_left add l [].

End JsSet.

(* ================================================================== *)
(** ** The entries page: options, reset and what is shown *)

Module EntriesView.
Import JsString EntriesPage.

(** [origin && origin.trim() !== ""] *)
Definition present (origin : option string) : bool :=
  match origin with
  | Some s => nonEmpty s && negb (trim s =? "")%string
  | None => false
  end.

(** The strings of an array whose nulls have been filtered out. *)
Definition strings (l : list (option string)) : list string :=
  flat_map (fun v => match v with Some s => [s] | None => [] end) l.

(** [Array.from(new Set(fetchedEntries.map(entry => entry.f).filter(...)))],
    written for [bean_origin] and for [brew_method]. *)
Definition uniqueValues (field : CoffeeEntry -> option string)
    (fetchedEntries : list CoffeeEntry) : list string :=
  JsSet.fromArray (strings (filter present (map field fetchedEntries))).

Definition uniqueOrigins : list CoffeeEntry -> list string :=
  uniqueValues bean_origin.
Definition uniqueBrewMethods : list CoffeeEntry -> list string :=
  uniqueValues brew_method.

(** The state [resetFilters] sets. *)
Definition resetFilters : filters :=
  {| searchTerm := ""; originFilter := ""; roastFilter := "";
     brewMethodFilter := ""; ratingFilter := 0; sortBy := SortDate |}.

(** The setters of the filter state. *)
Definition setSearchTerm (f : filters) (term : string) : filters :=
  {| searchTerm := term; originFilter := originFilter f;
     roastFilter := roastFilter f; brewMethodFilter := brewMethodFilter f;
     ratingFilter := ratingFilter f; sortBy := sortBy f |}.

Definition setOriginFilter (f : filters) (origin : string) : filters :=
  {| searchTerm := searchTerm f; originFilter := origin;
     roastFilter := roastFilter f; brewMethodFilter := brewMethodFilter f;
     ratingFilter := ratingFilter f; sortBy := sortBy f |}.

Definition setBrewMethodFilter (f : filters) (method : string) : filters :=
  {| searchTerm := searchTerm f; originFilter := originFilter f;
     roastFilter := roastFilter f; brewMethodFilter := method;
     ratingFilter := ratingFilter f; sortBy := sortBy f |}.

Definition setRatingFilter (f : filters) (stars : Z) : filters :=
  {| searchTerm := searchTerm f; originFilter := originFilter f;
     roastFilter := roastFilter f; brewMethodFilter := brewMethodFilter f;
     ratingFilter := stars; sortBy := sortBy f |}.

(** The state of the page. *)
Record page := mkPage {
  entries : list CoffeeEntry;
  shown : list CoffeeEntry;      (* the state [filteredEntries] *)
  origins : list string;
  brewMethods : list string;
  loading : bool;
  error : option string;
  criteria : filters
}.

(** The search-and-filter effect, which runs after every change of the
    entries or of a filter. *)
Definition runEffect (p : page) : page :=
  {| entries := entries p;
     shown := filteredEntries (entries p) (criteria p);
     origins := origins p; brewMethods := brewMethods p;
     loading := loading p; error := error p; criteria := criteria p |}.

(** A click on a reset button, and the effect it triggers. *)
Definition clickReset (p : page) : page :=
  runEffect
    {| entries := entries p; shown := shown p; origins := origins p;
       brewMethods := brewMethods p; loading := loading p;
       error := error p; criteria := resetFilters |}.

(** The choice of an origin in the drop-down list, and the effect. *)
Definition chooseOrigin (p : page) (origin : string) : page :=
  runEffect
    {| entries := entries p; shown := shown p; origins := origins p;
       brewMethods := brewMethods p; loading := loading p;
       error := error p; criteria := setOriginFilter (criteria p) origin |}.

Definition chooseBrewMethod (p : page) (method : string) : page :=
  runEffect
    {| entries := entries p; shown := shown p; origins := origins p;
       brewMethods := brewMethods p; loading := loading p;
       error := error p;
       criteria := setBrewMethodFilter (criteria p) method |}.

(** What the page shows. *)
Inductive view :=
| Loading
| ErrorView (message : string)
| NoEntries                                   (* まだコーヒー記録がありません *)
| NoMatches (total : nat)                     (* 該当する記録がありません *)
| Listing (cards : list CoffeeEntry) (displayed total : nat).

(** The [return] statements of the component: [if (loading)], [if (error)],
    [entries.length === 0], [filteredEntries.length === 0]. *)
Definition render (p : page) : view :=
  if loading p then Loading
  else
    let body :=
      match entries p with
      | [] => NoEntries
      | _ :: _ =>
          match shown p with
          | [] => NoMatches (List.length (entries p))
          | _ :: _ =>
              Listing (shown p) (List.length (shown p))
                (List.length (entries p))
          end
      end in
    match error p with
    | Some message => if nonEmpty message then ErrorView message else body
    | None => body
    end.

(** The page when it is mounted. *)
Definition initial : page :=
  {| entries := []; shown := []; origins := []; brewMethods := [];
     loading := true; error := None; criteria := resetFilters |}.

(** What [fetchEntries] gets from the back end: no signed-in user, a thrown
    value ([Some] of its message when it is an object with a string
    [message]), or the rows ([None] for a null [data]). *)
Inductive fetched :=
| NoUser
| Failed (err : option string)
| Rows (data : option (list CoffeeEntry)).

(** [fetchEntries], followed by the effect.  The second component is the
    address the window is sent to. *)
Definition fetchEntries (p : page) (r : fetched) : page * option string :=
  match r with
  | NoUser =>
      ({| entries := entries p; shown := shown p; origins := origins p;
          brewMethods := brewMethods p; loading := false;
          error := error p; criteria := criteria p |}, Some "/auth")
  | Failed err =>
      ({| entries := entries p; shown := shown p; origins := origins p;
          brewMethods := brewMethods p; loading := false;
          error := Some match err with
                        | Some message => message
                        | None => "未知のエラーが発生しました"
                        end;
          criteria := criteria p |}, None)
  | Rows data =>
      let fetchedEntries := match data with Some l => l | None => [] end in
      (runEffect
         {| entries := fetchedEntries; shown := fetchedEntries;
            origins := uniqueOrigins fetchedEntries;
            brewMethods := uniqueBrewMethods fetchedEntries;
            loading := false; error := error p; criteria := criteria p |},
       None)
  end.

End EntriesView.

(* ================================================================== *)
(** ** The dashboard page: what is shown *)

Module DashboardView.

Inductive view :=
| Loading
| ErrorView (message : string)
| NoEntries
| Content (stats : DashboardPage.stats) (trends : CoffeeTrends.view)
    (recent : list CoffeeEntry).

(** The component after its state is set: [getStats()] is evaluated before
    the entries are looked at, [CoffeeTrends] is rendered only in the last
    branch, and the table shows [entries.slice(0, 5)].  The log is that of
    the chart data functions. *)
Definition render (now : Z) (loading : bool) (error : option string)
    (entries : list CoffeeEntry) : CoffeeTrends.logged view :=
  if loading then CoffeeTrends.ret Loading
  else
    let body :=
      let stats := DashboardPage.getStats now entries in
      match entries with
      | [] => CoffeeTrends.ret NoEntries
      | _ :: _ =>
          CoffeeTrends.bind (CoffeeTrends.render now entries)
            (fun trends =>
               CoffeeTrends.ret (Content stats trends (firstn 5 entries)))
      end in
    match error with
    | Some message =>
        if JsString.nonEmpty message then CoffeeTrends.ret (ErrorView message)
        else body
    | None => body
    end.

End DashboardView.

(* ================================================================== *)
(** ** The authentication page: the two handlers *)

Module AuthFlow.

Inductive mode := Login | Signup.

Record state := mkState {
  current : mode;
  loading : bool;
  error : option string;
  message : option string
}.

(** How an awaited call ends: with a value, or with a thrown value, which is
    [Some] of its message when it is an object with a string [message]. *)
Inductive outcome (A : Type) :=
| Returned (a : A)
| Thrown (err : option string).
Arguments Returned {A} _.
Arguments Thrown {A} _.

Record profile := mkProfile {
  bio : option string;
  favorite_types : option (list string)
}.

(** The calls of [handleAuth] and their results.  [signUp] and [signIn]
    return the [error] field of the response: null, or an error with a
    message.  [fetchProfile] returns the row, or null. *)
Record provider := mkProvider {
  signUp : outcome (option string);
  signIn : outcome (option string);
  fetchProfile : outcome (option profile)
}.

Inductive action := SetMode (m : mode) | Push (path : string).

(** [setTimeout(action, ms)] *)
Inductive timer := After (ms : Z) (a : action).

Definition signedUp : string :=
  "認証メールを送信しました。メールをご確認ください。".
Definition loggedIn : string :=
  "ログインしました。ホームページへ移動します...".

(** [!profile?.bio || !profile?.favorite_types
     || profile?.favorite_types.length === 0] *)
Definition isProfileIncomplete (p : option profile) : bool :=
  match p with
  | None => true
  | Some p =>
      match bio p with
      | None => true
      | Some b =>
          if JsString.nonEmpty b then
            match favorite_types p with
            | None => true
            | Some types => match types with [] => true | _ :: _ => false end
            end
          else true
      end
  end.

(** The [catch] block, then [finally]. *)
Definition caught (m : mode) (message : option string) (err : option string)
  : state * list timer :=
  ({| current := m; loading := false;
      error := Some (AuthPage.handleAuthError err); message := message |},
   []).

(** The call [signUp] or [signIn]: the error of the response is thrown. *)
Definition thrownBy (r : outcome (option string)) : option (option string) :=
  match r with
  | Returned None => None
  | Returned (Some text) => Some (Some text)
  | Thrown err => Some err
  end.

(** [handleAuth]: the state when the handler has run, and the timers it has
    set. *)
Definition handleAuth (st : state) (p : provider) : state * list timer :=
  match current st with
  | Signup =>
      match thrownBy (signUp p) with
      | Some err => caught Signup None err
      | None =>
          ({| current := Signup; loading := false; error := None;
              message := Some signedUp |},
           [After 5000 (SetMode Login)])
      end
  | Login =>
      match thrownBy (signIn p) with
      | Some err => caught Login None err
      | None =>
          match fetchProfile p with
          | Thrown err => caught Login (Some loggedIn) err
          | Returned row =>
              ({| current := Login; loading := false; error := None;
                  message := Some loggedIn |},
               [After 1500
                  (Push (if isProfileIncomplete row then "/profile"
                         else "/"))])
          end
      end
  end.

Definition enterEmail : string := "メールアドレスを入力してください。".
Definition resetSent : string :=
  "パスワード再設定用メールを送信しました。メールをご確認ください。".
Definition resetFailed : string :=
  "パスワードリセット中にエラーが発生しました。".

(** [handlePasswordReset]; the second component tells whether the provider
    was called.  [reset] is the result of [resetPasswordForEmail]. *)
Definition handlePasswordReset (st : state) (email : string)
    (reset : outcome (option string)) : state * bool :=
  if negb (JsString.nonEmpty email) then
    ({| current := current st; loading := loading st;
        error := Some enterEmail; message := message st |}, false)
  else
    match thrownBy reset with
    | None =>
        ({| current := current st; loading := false; error := None;
            message := Some resetSent |}, true)
    | Some err =>
        ({| current := current st; loading := false;
            error := Some match err with
                          | Some text =>
                              ("パスワードリセットエラー: " ++ text)%string
                          | None => resetFailed
                          end;
            message := None |}, true)
    end.

(** [{error && <div>...</div>}]: the box is shown for a non-empty text. *)
Definition boxShown (text : option string) : bool :=
  match text with
  | Some s => JsString.nonEmpty s
  | None => false
  end.

End AuthFlow.

(* ================================================================== *)
(** ** The record and profile pages: selecting tags *)

(** [handleFlavor] of the record page and [handleFavoriteType] of the profile
    page are the same function of the previous selection:
    [prev.includes(x) ? prev.filter(f => f !== x) : [...prev, x]]. *)
Module Selection.

Definition toggle (prev : list string) (x : string) : list string :=
  if existsb (String.eqb x) prev
  then filter (fun f => negb (f =? x)%string) prev
  else (prev ++ [x])%list.

Definition handleFlavor := toggle.
Definition handleFavoriteType := toggle.

(** [const flavors = [...selectedFlavors];
     if (customFlavor) flavors.push(customFlavor)] of [handleSubmit]. *)
Definition flavorNotes (selectedFlavors : list string) (customFlavor : string)
  : list string :=
  if JsString.nonEmpty customFlavor
  then (selectedFlavors ++ [customFlavor])%list
  else selectedFlavors.

End Selection.

(* ================================================================== *)
(** ** More vocabulary *)

Module Coverage.
Import JsObject.

(** The number of entries whose [field] is the string [k]. *)
Definition occurrences (field : CoffeeEntry -> option string) (k : string)
    (entries : list CoffeeEntry) : Z :=
  Z.of_nat (List.length (filter (fun e => strictEq (field e) k) entries)).

(** No entry's [field] is the name of a property of [Object.prototype]. *)
Definition plainField (field : CoffeeEntry -> option string)
    (e : CoffeeEntry) : Prop :=
  match field e with
  | Some k => inPrototype k = false
  | None => True
  end.

(** The number a counter holds; 0 for what is not a number. *)
Definition numberOf (v : value) : Z :=
  match v with
  | Num n => n
  | _ => 0
  end.

(** The counter object [o] after the entries [es]: its keys are distinct,
    and it holds under every non-empty key that occurs the number of its
    occurrences, and nothing else. *)
Definition counted (field : CoffeeEntry -> option string) (o : object)
    (es : list CoffeeEntry) : Prop :=
  NoDup (map fst o)
  /\ forall k : string,
      own o k
      = if JsString.nonEmpty k && (0 <? occurrences field k es)
        then Some (Num (occurrences field k es)) else None.

(** The sum of the numbers of a data set. *)
Definition total (data : list value) : Z :=
  fold_right (fun v n => numberOf v + n) 0 data.

(** The rating and the four taste values are within 1..5, as the form and
    the rating's CHECK constraint have them. *)
Definition inScale (attribute : CoffeeEntry -> Z) (e : CoffeeEntry) : Prop :=
  1 <= attribute e <= 5.

(** A finite number between [lo] and [hi]. *)
Definition between (lo hi : Z) (x : JsNumber.number) : Prop :=
  exists q : Q,
    x = JsNumber.Finite q /\ (inject_Z lo <= q)%Q /\ (q <= inject_Z hi)%Q.

Definition isScalar (u : JsString.codeUnit) : bool :=
  match u with
  | JsString.Scalar _ => true
  | JsString.Stray _ => false
  end.

(** The bytes are the UTF-8 form of a text, as those of every JavaScript
    string without a lone surrogate are: decoding leaves no stray byte. *)
Definition wellFormed (s : string) : bool :=
  forallb isScalar (JsString.decode (JsString.bytes s)).

Definition isCapitalSigma (u : JsString.codeUnit) : bool :=
  match u with
  | JsString.Scalar c => c =? 0x3A3
  | JsString.Stray _ => false
  end.

(** The text has a capital sigma, the one letter whose lower case depends
    on its neighbours. *)
Definition hasCapitalSigma (s : string) : bool :=
  existsb isCapitalSigma (JsString.decode (JsString.bytes s)).

End Coverage.

(* ================================================================== *)
(** * Properties *)

Import Counting.

(** ** Checks on concrete inputs *)

(** Space, TAB and the ideographic space U+3000 around [a b]. *)
Example trim_white_space :
  JsString.trim (JsString.ofBytes [32; 9; 227; 128; 128; 97; 32; 98; 10]%N)
  = "a b".
Proof. vm_compute. reflexivity. Qed.

Example includes_lower_case :
  JsString.includes (JsString.toLowerCase "Yirgacheffe G1") "cheffe" = true
  /\ JsString.includes "Huila" "" = true
  /\ JsString.includes "Huila" "huila" = false.
Proof. repeat split. Qed.

Example toLowerCase_letters :
  JsString.toLowerCase "É" = "é"
  /\ JsString.toLowerCase "ＡＢ" = "ａｂ"
  /\ JsString.toLowerCase "エチオピア G1" = "エチオピア g1"
  /\ JsString.toLowerCase "ΑΣ" = "ας"
  /\ JsString.toLowerCase "Σ" = "σ"
  /\ JsString.toLowerCase "ΑΣΑ" = "ασα"
  /\ JsString.toLowerCase "İ" = "i̇".
Proof. vm_compute. repeat split. Qed.

Example toFixed1_rounds :
  JsNumber.toFixed1 (JsNumber.div 9 2) = "4.5"
  /\ JsNumber.toFixed1 (JsNumber.div 13 4) = "3.3"
  /\ JsNumber.toFixed1 (JsNumber.div 14 3) = "4.7"
  /\ JsNumber.toFixed1 (JsNumber.div 0 0) = "NaN".
Proof. repeat split. Qed.

(** 1 June 2024 is 1717200000000 ms after the epoch; month -1 of 2024 is
    December 2023. *)
Example make_dates :
  JsDate.make 2024 5 1 = 1717200000000
  /\ JsDate.civilFromDays (JsDate.make 2024 (-1) 1 / JsDate.msPerDay)
     = (2023, 12, 1)
  /\ JsDate.monthShort (JsDate.make 2024 (-1) 1) = "12月".
Proof. repeat split. Qed.

(** Array-index keys come first in [Object.keys], in ascending order. *)
Example keys_order :
  JsObject.keys
    [("V60", JsObject.Num 1); ("10", JsObject.Num 2); ("2", JsObject.Num 3);
     ("01", JsObject.Num 4)]
  = ["2"; "10"; "V60"; "01"].
Proof. vm_compute. reflexivity. Qed.

(** The origin filter "Ethiopia" over origins Ethiopia, Colombia, Ethiopia
    keeps the two entries from Ethiopia, in the order of the base list. *)
Example filter_by_origin :
  EntriesPage.filteredEntries
    [Samples.march; Samples.february; Samples.january] Samples.fromEthiopia
  = [Samples.march; Samples.january].
Proof. vm_compute. reflexivity. Qed.

Example getStats_sample :
  DashboardPage.getStats (JsDate.make 2024 2 20)
    [Samples.march; Samples.february; Samples.january]
  = {| DashboardPage.totalEntries := 3;
       DashboardPage.avgRating := "4.3";
       DashboardPage.topMethod := "French press";
       DashboardPage.topOrigin := "Ethiopia";
       DashboardPage.thisMonth := 1 |}.
Proof. vm_compute. reflexivity. Qed.

(** ** Sorting *)

Section SortFacts.
Context {A : Type}.
Variable cmp : A -> A -> Z.

Lemma insert_perm (x : A) (l : list A) :
  Permutation (JsArray.insert cmp x l) (x :: l).
Proof.
  induction l as [|y l IH]; simpl.
  - apply Permutation_refl.
  - destruct (0 <? cmp x y).
    + apply perm_trans with (y :: x :: l).
      * apply perm_skip, IH.
      * apply perm_swap.
    + apply Permutation_refl.
Qed.

Lemma sort_perm (l : list A) : Permutation (JsArray.sort cmp l) l.
Proof.
  induction l as [|x l IH]; simpl.
  - apply perm_nil.
  - apply perm_trans with (x :: JsArray.sort cmp l).
    + apply insert_perm.
    + apply perm_skip, IH.
Qed.

(** Stability: the elements selected by [p] keep their order when no
    selected element belongs after another selected one. *)
Lemma insert_filter (p : A -> bool) (x : A) (l : list A) :
  (forall y, In y l -> p x = true -> p y = true -> cmp x y <= 0) ->
  filter p (JsArray.insert cmp x l) = filter p (x :: l).
Proof.
  induction l as [|y l IH]; intros H; simpl.
  - reflexivity.
  - destruct (0 <? cmp x y) eqn:E.
    + simpl. simpl in IH. rewrite IH.
      * destruct (p x) eqn:Px; destruct (p y) eqn:Py; try reflexivity.
        apply Z.ltb_lt in E.
        specialize (H y (or_introl eq_refl) eq_refl Py). lia.
      * intros z Hz. apply H. right. exact Hz.
    + reflexivity.
Qed.

Lemma sort_stable (p : A -> bool) (l : list A) :
  (forall x y, p x = true -> p y = true -> cmp x y <= 0) ->
  filter p (JsArray.sort cmp l) = filter p l.
Proof.
  intros H. induction l as [|x l IH].
  - reflexivity.
  - change (JsArray.sort cmp (x :: l))
      with (JsArray.insert cmp x (JsArray.sort cmp l)).
    rewrite insert_filter.
    + simpl. rewrite IH. reflexivity.
    + intros y _. apply H.
Qed.

(** An array already in order is left as it is. *)
Lemma sort_sorted_id (l : list A) :
  Sorted (fun a b => cmp a b <= 0) l -> JsArray.sort cmp l = l.
Proof.
  induction 1 as [|x l Hs IH Hd].
  - reflexivity.
  - change (JsArray.sort cmp (x :: l))
      with (JsArray.insert cmp x (JsArray.sort cmp l)).
    rewrite IH. destruct Hd as [|y l Hxy]; simpl.
    + reflexivity.
    + destruct (0 <? cmp x y) eqn:E.
      * apply Z.ltb_lt in E. lia.
      * reflexivity.
Qed.
End SortFacts.

(** Sorting in descending order of an integer key. *)
Section SortByKey.
Context {A : Type}.
Variable key : A -> Z.

Let descending := JsArray.descending key.
Let notBelow := JsArray.notBelow key.

Lemma insert_descending (x : A) (l : list A) :
  StronglySorted notBelow l ->
  StronglySorted notBelow (JsArray.insert descending x l).
Proof.
  induction 1 as [|y l Hs IH Hall]; simpl.
  - constructor; constructor.
  - unfold descending, JsArray.descending at 1.
    destruct (0 <? key y - key x) eqn:E.
    + apply Z.ltb_lt in E. constructor.
      * exact IH.
      * apply Forall_forall. intros z Hz.
        apply (Permutation_in _ (insert_perm descending x l)) in Hz.
        destruct Hz as [<-|Hz].
        -- unfold notBelow, JsArray.notBelow. lia.
        -- rewrite Forall_forall in Hall. apply Hall, Hz.
    + apply Z.ltb_ge in E. constructor.
      * constructor; assumption.
      * constructor.
        -- unfold notBelow, JsArray.notBelow. lia.
        -- apply Forall_forall. intros z Hz.
           rewrite Forall_forall in Hall. specialize (Hall z Hz).
           unfold notBelow, JsArray.notBelow in *. lia.
Qed.

Lemma sort_descending (l : list A) :
  StronglySorted notBelow (JsArray.sort descending l).
Proof.
  induction l as [|x l IH]; simpl.
  - constructor.
  - apply insert_descending, IH.
Qed.

Lemma sort_descending_stable (r : Z) (l : list A) :
  filter (fun a => key a =? r) (JsArray.sort descending l)
  = filter (fun a => key a =? r) l.
Proof.
  apply sort_stable. intros x y Hx Hy.
  apply Z.eqb_eq in Hx, Hy. unfold descending, JsArray.descending. lia.
Qed.

Lemma sort_descending_id (l : list A) :
  StronglySorted notBelow l -> JsArray.sort descending l = l.
Proof.
  intros H. apply sort_sorted_id.
  apply StronglySorted_Sorted in H.
  induction H as [|x l Hs IH Hd]; constructor.
  - exact IH.
  - destruct Hd; constructor.
    unfold descending, notBelow, JsArray.descending, JsArray.notBelow in *.
    lia.
Qed.
(** Two arrays in descending order of the key that list, for every key, the
    same elements in the same order are the same array. *)
Lemma descending_stable_eq (l1 : list A) :
  forall l2 : list A,
    StronglySorted notBelow l1 -> StronglySorted notBelow l2 ->
    (forall r, filter (fun a => key a =? r) l1
               = filter (fun a => key a =? r) l2) ->
    l1 = l2.
Proof.
  induction l1 as [|x t1 IH]; intros l2 H1 H2 Hf.
  - destruct l2 as [|y t2]; [reflexivity|].
    specialize (Hf (key y)). simpl in Hf. rewrite Z.eqb_refl in Hf.
    discriminate Hf.
  - destruct l2 as [|y t2].
    + specialize (Hf (key x)). simpl in Hf. rewrite Z.eqb_refl in Hf.
      discriminate Hf.
    + apply StronglySorted_inv in H1, H2.
      destruct H1 as [H1 Hx], H2 as [H2 Hy].
      rewrite Forall_forall in Hx, Hy.
      assert (Hxy : key x <= key y).
      { assert (Hin : In x (filter (fun a => key a =? key x) (y :: t2))).
        { rewrite <- Hf. simpl. rewrite Z.eqb_refl. now left. }
        apply filter_In in Hin. destruct Hin as [[->|Hin] _]; [lia|].
        apply (Hy x Hin). }
      assert (Hyx : key y <= key x).
      { assert (Hin : In y (filter (fun a => key a =? key y) (x :: t1))).
        { rewrite Hf. simpl. rewrite Z.eqb_refl. now left. }
        apply filter_In in Hin. destruct Hin as [[->|Hin] _]; [lia|].
        apply (Hx y Hin). }
      assert (Heq : x = y).
      { specialize (Hf (key x)). simpl in Hf. rewrite Z.eqb_refl in Hf.
        replace (key y =? key x) with true in Hf
          by (symmetry; apply Z.eqb_eq; lia).
        now inversion Hf. }
      subst y. f_equal. apply IH; try assumption.
      intros r. specialize (Hf r). simpl in Hf.
      destruct (key x =? r); [now inversion Hf | exact Hf].
Qed.

(** So the result of the sort does not depend on the sorting algorithm:
    whatever array is in descending order of the key and keeps, for every
    key, the elements of [l] in their order, it is [sort l]. *)
Lemma sort_descending_unique (l l' : list A) :
  StronglySorted notBelow l' ->
  (forall r, filter (fun a => key a =? r) l'
             = filter (fun a => key a =? r) l) ->
  l' = JsArray.sort descending l.
Proof.
  intros Hs Hf. apply descending_stable_eq.
  - exact Hs.
  - apply sort_descending.
  - intros r. rewrite Hf. symmetry. apply sort_descending_stable.
Qed.
End SortByKey.

(** ** The filter stages *)

Section Stages.
Import EntriesPage.
Variable f : filters.

Lemma filter_all {A : Type} (l : list A) : filter (fun _ => true) l = l.
Proof.
  induction l as [|x l IH]; simpl; [reflexivity | now rewrite IH].
Qed.

Lemma filter_filter {A : Type} (p q : A -> bool) (l : list A) :
  filter q (filter p l) = filter (fun x => p x && q x) l.
Proof.
  induction l as [|x l IH]; simpl.
  - reflexivity.
  - destruct (p x); simpl.
    + destruct (q x); now rewrite IH.
    + exact IH.
Qed.

Lemma runStage_filter (s : stage) (l : list CoffeeEntry) :
  runStage f s l = filter (stageMatch f s) l.
Proof.
  destruct s; unfold runStage, stageMatch;
    match goal with
    | |- (if ?c then _ else _) = _ => destruct c
    end;
    solve [reflexivity | symmetry; apply filter_all].
Qed.

Lemma runStages_filter (order : list stage) (l : list CoffeeEntry) :
  runStages f order l
  = filter (fun e => forallb (fun s => stageMatch f s e) order) l.
Proof.
  unfold runStages. revert l.
  induction order as [|s order IH]; intros l; simpl.
  - symmetry. apply filter_all.
  - rewrite IH, runStage_filter, filter_filter. reflexivity.
Qed.

Lemma forallb_perm {A : Type} (p : A -> bool) (l l' : list A) :
  Permutation l l' -> forallb p l = forallb p l'.
Proof.
  induction 1; simpl.
  - reflexivity.
  - now rewrite IHPermutation.
  - destruct (p x), (p y); reflexivity.
  - congruence.
Qed.

Lemma runStages_matchesAll (order : list stage) (l : list CoffeeEntry) :
  Permutation order sourceOrder ->
  runStages f order l = filter (matchesAll f) l.
Proof.
  intros H. rewrite runStages_filter. apply filter_ext. intros e.
  rewrite (forallb_perm _ _ _ H). unfold matchesAll. simpl.
  rewrite andb_true_r, !andb_assoc. reflexivity.
Qed.

(** The effect is its five stages in the order of the source, then the
    sort. *)
Lemma filteredEntries_stages (entries : list CoffeeEntry) :
  filteredEntries entries f
  = sortResult f (runStages f sourceOrder entries).
Proof. reflexivity. Qed.

Lemma sortResult_perm (l : list CoffeeEntry) :
  Permutation (sortResult f l) l.
Proof. unfold sortResult. destruct (sortBy f); apply sort_perm. Qed.

Lemma filteredEntries_perm (entries : list CoffeeEntry) :
  Permutation (filteredEntries entries f) (filter (matchesAll f) entries).
Proof.
  rewrite filteredEntries_stages.
  rewrite (runStages_matchesAll sourceOrder entries (Permutation_refl _)).
  apply sortResult_perm.
Qed.

Lemma noFilters_matchesAll (e : CoffeeEntry) :
  noFilters f -> matchesAll f e = true.
Proof.
  intros (Ht & Ho & Hr & Hb & Hn). unfold matchesAll, stageMatch.
  rewrite Ht, Ho, Hr, Hb, Hn. reflexivity.
Qed.
End Stages.

(** ** The entries list *)

Section EntriesList.
Import EntriesPage.

Lemma noFilters_keeps_all (f : filters) (entries : list CoffeeEntry) :
  noFilters f -> filter (matchesAll f) entries = entries.
Proof.
  intros H. rewrite <- (filter_all entries) at 2.
  apply filter_ext. intros e. apply noFilters_matchesAll, H.
Qed.

Lemma filteredEntries_sorted_filter (f : filters)
    (entries : list CoffeeEntry) :
  filteredEntries entries f = sortResult f (filter (matchesAll f) entries).
Proof.
  rewrite filteredEntries_stages.
  now rewrite (runStages_matchesAll f sourceOrder entries
                 (Permutation_refl _)).
Qed.
End EntriesList.

(** C1.  Whatever the five filters and the sort mode are, every entry of the
    filtered list is an entry of the base list; the filtered list is a
    rearrangement of the base entries that satisfy the filters.  When all
    filters are absent (a search term that trims to the empty string, empty
    origin, roast and brew-method filters, rating threshold 0) the result is
    a rearrangement of the whole base list; in the default mode, by date, it
    is the base list sorted by creation time, newest first, and it is the
    base list itself when that one is already in this order, as fetched. *)
Theorem filteredEntries_subset_and_reset
    (entries : list CoffeeEntry) (f : EntriesPage.filters) :
  incl (EntriesPage.filteredEntries entries f) entries
  /\ Permutation (EntriesPage.filteredEntries entries f)
       (filter (EntriesPage.matchesAll f) entries)
  /\ (EntriesPage.noFilters f ->
      Permutation (EntriesPage.filteredEntries entries f) entries
      /\ (EntriesPage.sortBy f = EntriesPage.SortDate ->
          EntriesPage.filteredEntries entries f
          = JsArray.sort EntriesPage.byDate entries
          /\ StronglySorted (JsArray.notBelow created_at)
               (EntriesPage.filteredEntries entries f)
          /\ (StronglySorted (JsArray.notBelow created_at) entries ->
              EntriesPage.filteredEntries entries f = entries))).
Proof.
  pose proof (filteredEntries_perm f entries) as Hperm.
  split; [|split].
  - intros e He. apply (Permutation_in _ Hperm) in He.
    apply filter_In in He. tauto.
  - exact Hperm.
  - intros Hno. rewrite (noFilters_keeps_all f entries Hno) in Hperm.
    split; [exact Hperm|]. intros Hdate.
    assert (Heq : EntriesPage.filteredEntries entries f
                  = JsArray.sort EntriesPage.byDate entries).
    { rewrite filteredEntries_sorted_filter.
      rewrite (noFilters_keeps_all f _ Hno).
      unfold EntriesPage.sortResult. now rewrite Hdate. }
    rewrite Heq. split; [reflexivity|]. split.
    + apply (sort_descending created_at).
    + apply (sort_descending_id created_at).
Qed.

Lemma filteredEntries_subset_and_reset_witness :
  EntriesPage.noFilters Samples.blankSearch
  /\ EntriesPage.sortBy Samples.blankSearch = EntriesPage.SortDate
  /\ StronglySorted (JsArray.notBelow created_at)
       [Samples.march; Samples.february; Samples.january]
  /\ EntriesPage.filteredEntries
       [Samples.march; Samples.february; Samples.january] Samples.blankSearch
     = [Samples.march; Samples.february; Samples.january].
Proof.
  assert (Hno : EntriesPage.noFilters Samples.blankSearch)
    by (repeat split; vm_compute; reflexivity).
  assert (Hs : StronglySorted (JsArray.notBelow created_at)
                 [Samples.march; Samples.february; Samples.january]).
  { repeat constructor; vm_compute; discriminate. }
  split; [exact Hno|]. split; [reflexivity|]. split; [exact Hs|].
  destruct (filteredEntries_subset_and_reset
              [Samples.march; Samples.february; Samples.january]
              Samples.blankSearch) as (_ & _ & H).
  destruct (H Hno) as (_ & Hdate).
  destruct (Hdate eq_refl) as (_ & _ & Hid).
  exact (Hid Hs).
Defined.

(** C2.  In sort mode "rating" the filtered entries come out by rating,
    highest first, and the sort is stable: for every rating, the entries of
    that rating appear in the result in the order they have in the base
    list.  In particular three entries rated 5, 3 and 5, in this order in the
    base list, come out as first, third, second. *)
Theorem rating_sort_stable :
  (forall (entries : list CoffeeEntry) (f : EntriesPage.filters),
      EntriesPage.sortBy f = EntriesPage.SortRating ->
      StronglySorted (JsArray.notBelow rating)
        (EntriesPage.filteredEntries entries f)
      /\ forall r : Z,
          filter (fun e => rating e =? r)
            (EntriesPage.filteredEntries entries f)
          = filter (fun e => rating e =? r)
              (filter (EntriesPage.matchesAll f) entries))
  /\ (forall (e1 e2 e3 : CoffeeEntry) (f : EntriesPage.filters),
         EntriesPage.noFilters f ->
         EntriesPage.sortBy f = EntriesPage.SortRating ->
         rating e1 = 5 -> rating e2 = 3 -> rating e3 = 5 ->
         EntriesPage.filteredEntries [e1; e2; e3] f = [e1; e3; e2]).
Proof.
  split.
  - intros entries f Hmode.
    rewrite filteredEntries_sorted_filter. unfold EntriesPage.sortResult.
    rewrite Hmode. split.
    + apply (sort_descending rating).
    + intros r. apply (sort_descending_stable rating).
  - intros e1 e2 e3 f Hno Hmode H1 H2 H3.
    rewrite filteredEntries_sorted_filter.
      rewrite (noFilters_keeps_all f _ Hno).
    unfold EntriesPage.sortResult. rewrite Hmode.
    unfold JsArray.sort, EntriesPage.byRating.
    repeat (simpl; rewrite ?H1, ?H2, ?H3). reflexivity.
Qed.

Lemma rating_sort_stable_witness :
  EntriesPage.filteredEntries
    [Samples.january; Samples.february; Samples.march]
    (Samples.reset EntriesPage.SortRating)
  = [Samples.january; Samples.march; Samples.february]
  /\ filter (fun e => rating e =? 5)
       (EntriesPage.filteredEntries
          [Samples.january; Samples.february; Samples.march]
          (Samples.reset EntriesPage.SortRating))
     = [Samples.january; Samples.march].
Proof.
  split.
  - apply (proj2 rating_sort_stable Samples.january Samples.february
             Samples.march (Samples.reset EntriesPage.SortRating)).
    + repeat split; vm_compute; reflexivity.
    + reflexivity.
    + reflexivity.
    + reflexivity.
    + reflexivity.
  - rewrite (proj2 (proj1 rating_sort_stable
                      [Samples.january; Samples.february; Samples.march]
                      (Samples.reset EntriesPage.SortRating) eq_refl) 5).
    vm_compute. reflexivity.
Defined.

(** C3.  The five filters compose as a conjunction: applying the five stages
    in any order keeps exactly the entries that satisfy all five per-entry
    predicates, in the order of the base list; this is what the order of the
    source keeps, so the sorted result is the same for every order. *)
Theorem filters_compose_conjunctively
    (entries : list CoffeeEntry) (f : EntriesPage.filters)
    (order : list EntriesPage.stage) :
  Permutation order EntriesPage.sourceOrder ->
  EntriesPage.runStages f order entries
  = filter (EntriesPage.matchesAll f) entries
  /\ EntriesPage.runStages f order entries
     = EntriesPage.runStages f EntriesPage.sourceOrder entries
  /\ EntriesPage.sortResult f (EntriesPage.runStages f order entries)
     = EntriesPage.filteredEntries entries f.
Proof.
  intros H.
  pose proof (runStages_matchesAll f order entries H) as Ho.
  pose proof (runStages_matchesAll f EntriesPage.sourceOrder entries
                (Permutation_refl _)) as Hs.
  split; [exact Ho|]. split; [congruence|].
  rewrite filteredEntries_stages. congruence.
Qed.

Lemma filters_compose_conjunctively_witness :
  Permutation (rev EntriesPage.sourceOrder) EntriesPage.sourceOrder
  /\ EntriesPage.runStages Samples.fromEthiopia (rev EntriesPage.sourceOrder)
       [Samples.january; Samples.february; Samples.march]
     = [Samples.january; Samples.march].
Proof.
  assert (H : Permutation (rev EntriesPage.sourceOrder)
                EntriesPage.sourceOrder)
    by (apply Permutation_sym, Permutation_rev).
  split; [exact H|].
  rewrite (proj1 (filters_compose_conjunctively
                    [Samples.january; Samples.february; Samples.march]
                    Samples.fromEthiopia (rev EntriesPage.sourceOrder) H)).
  vm_compute. reflexivity.
Defined.

(** ** Counter objects with a fixed set of keys *)

Section Counters.
Import JsObject.

Lemma counters_ext (ks : list string) (c c' : string -> Z) :
  (forall k, In k ks -> c k = c' k) -> counters ks c = counters ks c'.
Proof.
  intros H. apply map_ext_in. intros k Hk. now rewrite (H k Hk).
Qed.

Lemma own_counters_in (ks : list string) (c : string -> Z) (k : string) :
  In k ks -> own (counters ks c) k = Some (Num (c k)).
Proof.
  induction ks as [|k0 ks IH]; simpl; [tauto|].
  destruct (String.eqb_spec k0 k) as [->|Hne]; [reflexivity|].
  intros [H|H]; [contradiction | exact (IH H)].
Qed.

Lemma own_counters_out (ks : list string) (c : string -> Z) (k : string) :
  ~ In k ks -> own (counters ks c) k = None.
Proof.
  induction ks as [|k0 ks IH]; simpl; [reflexivity|].
  intros H. destruct (String.eqb_spec k0 k) as [->|Hne]; tauto.
Qed.

Lemma bump_other (c : string -> Z) (k k' : string) :
  k' <> k -> bump c k k' = c k'.
Proof.
  intros H. unfold bump. destruct (String.eqb_spec k' k); [contradiction|].
  lia.
Qed.

Lemma bump_same (c : string -> Z) (k : string) : bump c k k = c k + 1.
Proof. unfold bump. now rewrite String.eqb_refl. Qed.

Lemma counters_bump_out (ks : list string) (c : string -> Z) (k : string) :
  ~ In k ks -> counters ks (bump c k) = counters ks c.
Proof.
  intros H. apply counters_ext. intros k' Hk'. apply bump_other.
  intros ->. contradiction.
Qed.

Lemma replace_counters (ks : list string) (c : string -> Z) (k : string) :
  NoDup ks -> In k ks ->
  replace (counters ks c) k (Num (c k + 1)) = counters ks (bump c k).
Proof.
  induction 1 as [|k0 ks Hk0 Hnd IH]; simpl; [tauto|].
  destruct (String.eqb_spec k0 k) as [->|Hne]; intros Hin.
  - rewrite bump_same, counters_bump_out by exact Hk0. reflexivity.
  - rewrite bump_other by exact Hne. f_equal. apply IH.
    destruct Hin; [contradiction | assumption].
Qed.

(** [o[k]++] on the counter of a key of the object. *)
Lemma set_increment (ks : list string) (c : string -> Z) (k : string) :
  NoDup ks -> In k ks ->
  set (counters ks c) k (increment (get (counters ks c) k))
  = counters ks (bump c k).
Proof.
  intros Hnd Hin. unfold set, get.
  rewrite (own_counters_in ks c k Hin). simpl increment.
  apply replace_counters; assumption.
Qed.

(** A key the object does not have reads as [undefined], unless
    [Object.prototype] has it. *)
Lemma get_counters_out (ks : list string) (c : string -> Z) (k : string) :
  ~ In k ks -> inPrototype k = false ->
  get (counters ks c) k = Undefined.
Proof.
  intros Hk Hp. unfold get. now rewrite own_counters_out, Hp.
Qed.

Lemma entries_named (o : object) :
  Forall (fun p => arrayIndex (fst p) = None) o -> entries o = o.
Proof.
  intros H. unfold entries, indexed, named.
  replace (flat_map _ o) with (@nil (N * (string * value))).
  - simpl. induction H as [|p o Hp Ho IH]; simpl.
    + reflexivity.
    + rewrite Hp. f_equal. exact IH.
  - induction H as [|p o Hp Ho IH]; simpl.
    + reflexivity.
    + rewrite Hp. exact IH.
Qed.

Lemma entries_counters (ks : list string) (c : string -> Z) :
  Forall (fun k => arrayIndex k = None) ks ->
  entries (counters ks c) = counters ks c.
Proof.
  intros H. apply entries_named. unfold counters.
  apply Forall_map. simpl. exact H.
Qed.

Lemma keys_counters (ks : list string) (c : string -> Z) :
  Forall (fun k => arrayIndex k = None) ks -> keys (counters ks c) = ks.
Proof.
  intros H. unfold keys. rewrite entries_counters by exact H.
  unfold counters. rewrite map_map. simpl. apply map_id.
Qed.

Lemma values_counters (ks : list string) (c : string -> Z) :
  Forall (fun k => arrayIndex k = None) ks ->
  values (counters ks c) = map (fun k => Num (c k)) ks.
Proof.
  intros H. unfold values. rewrite entries_counters by exact H.
  unfold counters. rewrite map_map. reflexivity.
Qed.

Lemma tally_cons {A : Type} (label : A -> string) (k : string) (a : A)
    (l : list A) :
  tally label k (a :: l)
  = (if (k =? label a)%string then 1 else 0) + tally label k l.
Proof.
  unfold tally. simpl. rewrite (String.eqb_sym k).
  destruct (label a =? k)%string; simpl List.length; lia.
Qed.

Lemma fold_counters {A : Type} (step : object -> A -> object)
    (label : A -> string) (ks : list string) (l : list A) :
  (forall c a, In a l ->
               step (counters ks c) a = counters ks (bump c (label a))) ->
  forall c,
    fold_left step l (counters ks c)
    = counters ks (fun k => c k + tally label k l).
Proof.
  induction l as [|a l IH]; intros Hstep c.
  - simpl. apply counters_ext. intros k _. unfold tally. simpl. lia.
  - cbn [fold_left]. rewrite Hstep by now left. rewrite IH.
    + apply counters_ext. intros k _. rewrite tally_cons. unfold bump. lia.
    + intros c' a' Ha'. apply Hstep. now right.
Qed.
End Counters.

(** ** The roast-level histogram *)

Section RoastHistogram.
Import JsObject CoffeeTrends.

Lemma roastKeys_NoDup : NoDup roastKeys.
Proof.
  repeat constructor; simpl; intuition discriminate.
Qed.

Lemma roastKeys_named : Forall (fun k => arrayIndex k = None) roastKeys.
Proof. repeat constructor. Qed.

Lemma roastKeys_nonEmpty (r : string) :
  In r roastKeys -> JsString.nonEmpty r = true.
Proof.
  simpl. intros H.
  repeat (destruct H as [<-|H]; [reflexivity|]). destruct H.
Qed.

Lemma other_key : In other roastKeys.
Proof. simpl. tauto. Qed.

Lemma bucketOf_key (e : CoffeeEntry) : In (bucketOf e) roastKeys.
Proof.
  unfold bucketOf. destruct (roast_level e) as [r|]; [|apply other_key].
  destruct (existsb _ roastKeys) eqn:E; [|apply other_key].
  apply existsb_exists in E. destruct E as (k & Hk & E).
  apply String.eqb_eq in E. now subst.
Qed.

Lemma roastStep_plain (c : string -> Z) (e : CoffeeEntry) :
  plainRoast e ->
  roastStep (counters roastKeys c) e
  = counters roastKeys (bump c (bucketOf e)).
Proof.
  unfold plainRoast, roastStep, bucketOf.
  destruct (roast_level e) as [r|]; intros Hp.
  - destruct (existsb (fun k => (k =? r)%string) roastKeys) eqn:E.
    + assert (Hin : In r roastKeys).
      { apply existsb_exists in E. destruct E as (k & Hk & E).
        apply String.eqb_eq in E. now subst. }
      rewrite (roastKeys_nonEmpty r Hin).
      unfold get at 1. rewrite (own_counters_in _ c r Hin). simpl.
      apply (set_increment _ c r roastKeys_NoDup Hin).
    + assert (Hout : ~ In r roastKeys).
      { intros Hin. apply Bool.not_true_iff_false in E. apply E.
        apply existsb_exists. exists r. split; [exact Hin|].
        apply String.eqb_refl. }
      rewrite (get_counters_out _ c r Hout Hp). simpl defined.
      rewrite andb_false_r.
      apply (set_increment _ c other roastKeys_NoDup other_key).
  - apply (set_increment _ c other roastKeys_NoDup other_key).
Qed.

Lemma one_bucket (k : string) :
  In k roastKeys ->
  fold_right (fun k' n => (if (k' =? k)%string then 1 else 0) + n) 0
    roastKeys = 1.
Proof.
  simpl. intros H.
  repeat (destruct H as [<-|H]; [reflexivity|]). destruct H.
Qed.

Lemma tally_total (entries : list CoffeeEntry) :
  fold_right (fun k n => tally bucketOf k entries + n) 0 roastKeys
  = Z.of_nat (List.length entries).
Proof.
  induction entries as [|e entries IH].
  - reflexivity.
  - pose proof (one_bucket (bucketOf e) (bucketOf_key e)) as H.
    unfold roastKeys, roastLevels in H, IH |- *.
    cbn [map fst fold_right] in H, IH |- *. rewrite !tally_cons.
    cbn [List.length]. lia.
Qed.

(** When no roast level is the name of a property of [Object.prototype],
    the histogram has the six fixed buckets, each entry is counted in the
    bucket of its roast level, and the counts add up to the number of
    entries. *)
Lemma roastLevelData_plain (entries : list CoffeeEntry) :
  Forall plainRoast entries ->
  roastLevelData entries
  = mkChart roastKeys
      (map (fun k => Num (tally bucketOf k entries)) roastKeys)
  /\ fold_right (fun k n => tally bucketOf k entries + n) 0 roastKeys
     = Z.of_nat (List.length entries).
Proof.
  intros H. split; [|apply tally_total].
  unfold roastLevelData, roastLevelCounts.
  change roastLevels with (counters roastKeys (fun _ => 0)).
  rewrite (fold_counters roastStep bucketOf).
  - rewrite keys_counters, values_counters by exact roastKeys_named.
    reflexivity.
  - intros c e He. apply roastStep_plain.
    rewrite Forall_forall in H. apply H, He.
Qed.
End RoastHistogram.

(** The example of the specification: roast levels 浅煎り, "unknown", the
    empty string and null give one entry in 浅煎り and three in
    その他/不明. *)
Example roastLevelData_example :
  CoffeeTrends.roastLevelData
    [Samples.entry "a" None (Some "浅煎り") None 3 0;
     Samples.entry "b" None (Some "unknown") None 3 0;
     Samples.entry "c" None (Some "") None 3 0;
     Samples.entry "d" None None None 3 0]
  = CoffeeTrends.mkChart
      ["浅煎り"; "中浅煎り"; "中煎り"; "中深煎り"; "深煎り"; "その他/不明"]
      [JsObject.Num 1; JsObject.Num 0; JsObject.Num 0; JsObject.Num 0;
       JsObject.Num 0; JsObject.Num 3].
Proof. vm_compute. reflexivity. Qed.

(** C4.  The roast-level histogram at a roast level that names a property of
    [Object.prototype].  For the single entry with roast level
    "constructor" the lookup [levels["constructor"]] finds the inherited
    function, so the entry is not counted as other/unknown: the object gets a
    seventh key, "constructor", with the value NaN, and the six buckets add
    up to 0, not to 1.  For roast level "__proto__" the object keeps its six
    keys and the entry is counted in none of them. *)
Theorem roastLevelData_inherited_key :
  CoffeeTrends.roastLevelData
    [Samples.entry "Kenya AA" None (Some "constructor") None 4 0]
  = CoffeeTrends.mkChart
      ["浅煎り"; "中浅煎り"; "中煎り"; "中深煎り"; "深煎り"; "その他/不明";
       "constructor"]
      [JsObject.Num 0; JsObject.Num 0; JsObject.Num 0; JsObject.Num 0;
       JsObject.Num 0; JsObject.Num 0; JsObject.NaN]
  /\ CoffeeTrends.roastLevelData
       [Samples.entry "Kenya AA" None (Some "__proto__") None 4 0]
     = CoffeeTrends.mkChart
         ["浅煎り"; "中浅煎り"; "中煎り"; "中深煎り"; "深煎り"; "その他/不明"]
         [JsObject.Num 0; JsObject.Num 0; JsObject.Num 0; JsObject.Num 0;
          JsObject.Num 0; JsObject.Num 0].
Proof. split; vm_compute; reflexivity. Qed.

(** ** The calendar *)

Section Calendar.
Import JsDate.

Lemma allFrom_spec (P : Z -> bool) (n : nat) :
  forall start z,
    allFrom P n start = true -> start <= z < start + Z.of_nat n ->
    P z = true.
Proof.
  induction n as [|n IH]; intros start z H Hz.
  - lia.
  - simpl in H. apply andb_prop in H. destruct H as [H0 H].
    destruct (Z.eq_dec z start) as [->|Hne]; [exact H0|].
    apply (IH (start + 1)); [exact H | lia].
Qed.

Lemma allFrom_below (P : Z -> bool) (n : Z) (z : Z) :
  allFrom P (Z.to_nat n) 0 = true -> 0 <= z < n -> P z = true.
Proof.
  intros H Hz. apply (allFrom_spec P (Z.to_nat n) 0 z H). lia.
Qed.

Lemma firstDayBack_era :
  allFrom (fun yoe => allFrom (firstDayBack yoe) (Z.to_nat 12) 0)
    (Z.to_nat 400) 0 = true.
Proof. vm_compute. reflexivity. Qed.

Lemma civilOfEra_shift (era doe : Z) :
  civilOfEra era doe
  = let '(y, m, d) := civilOfEra 0 doe in (y + era * 400, m, d).
Proof.
  unfold civilOfEra. cbv zeta. f_equal. f_equal. lia.
Qed.

Lemma civil_first_day (y m : Z) :
  1 <= m <= 12 -> civilFromDays (daysFromCivil y m 1) = (y, m, 1).
Proof.
  intros Hm. unfold daysFromCivil, civilFromDays. cbv zeta.
  set (y' := if m <=? 2 then y - 1 else y).
  set (mp := (m + 9) mod 12).
  assert (Hyoe : 0 <= y' mod 400 < 400) by (apply Z.mod_pos_bound; lia).
  assert (Hmp : 0 <= mp < 12) by (apply Z.mod_pos_bound; lia).
  pose proof (allFrom_below _ _ _ firstDayBack_era Hyoe) as H.
  cbv beta in H.
  pose proof (allFrom_below _ _ _ H Hmp) as Hback. clear H.
  unfold firstDayBack in Hback. cbv zeta in Hback.
  replace ((153 * mp + 2) / 5 + 1 - 1) with ((153 * mp + 2) / 5) by lia.
  set (doe := y' mod 400 * 365 + y' mod 400 / 4 - y' mod 400 / 100
              + (153 * mp + 2) / 5) in *.
  replace (y' / 400 * 146097 + doe - 719468 + 719468)
    with (doe + y' / 400 * 146097) by lia.
  rewrite civilOfEra_shift.
  destruct (civilOfEra 0 ((doe + y' / 400 * 146097) mod 146097))
    as [[y0 m0] d0] eqn:E.
  rewrite Z.mod_add in E by lia.
  destruct (civilOfEra 0 doe) as [[y1 m1] d1] eqn:E1.
  repeat (apply andb_prop in Hback; destruct Hback as [Hback ?]).
  rewrite Z.mod_small in E by lia. rewrite E1 in E.
  inversion E; subst y1 m1 d1.
  rewrite Z.div_add by lia. rewrite Z.div_small by lia.
  assert (Hm0 : m0 = m).
  { assert (Hcase : mp = m - 3 \/ mp = m + 9).
    { unfold mp. destruct (Z.leb_spec m 2).
      - right. apply Z.mod_small. lia.
      - left. replace (m + 9) with (m - 3 + 1 * 12) by lia.
        rewrite Z.mod_add by lia. apply Z.mod_small. lia. }
    destruct (Z.ltb_spec mp 10); lia. }
  subst m0.
  pose proof (Z.div_mod y' 400 ltac:(lia)) as Hy'.
  f_equal; [f_equal|]; try lia.
  unfold y' in *. destruct (Z.leb_spec m 2); lia.
Qed.

Lemma make_first_day (year month : Z) :
  civilFromDays (make year month 1 / msPerDay)
  = (fullYear year + month / 12, month mod 12 + 1, 1).
Proof.
  unfold make. cbv zeta. fold (fullYear year).
  replace (1 - 1) with 0 by lia. rewrite Z.add_0_r.
  rewrite Z.div_mul by (unfold msPerDay; lia).
  apply civil_first_day.
  pose proof (Z.mod_pos_bound month 12). lia.
Qed.

Lemma getMonth_make (year month : Z) :
  getMonth (make year month 1) = month mod 12.
Proof. unfold getMonth. rewrite make_first_day. lia. Qed.

Lemma getFullYear_make (year month : Z) :
  getFullYear (make year month 1) = fullYear year + month / 12.
Proof. unfold getFullYear. rewrite make_first_day. reflexivity. Qed.
End Calendar.

(** ** The monthly histogram *)

Section MonthlyHistogram.
Import JsObject JsDate CoffeeTrends.

Lemma month_cases (m : Z) :
  In (m mod 12) [0; 1; 2; 3; 4; 5; 6; 7; 8; 9; 10; 11].
Proof. pose proof (Z.mod_pos_bound m 12). simpl. lia. Qed.

Lemma lastSix_mod (m : Z) : lastSix m = lastSix (m mod 12).
Proof.
  unfold lastSix. apply map_ext. intros i.
  now rewrite Zminus_mod_idemp_l.
Qed.

(** A statement about [lastSix m] is settled on the twelve months. *)
Ltac each_month m :=
  rewrite (lastSix_mod m);
  let H := fresh "H" in
  pose proof (month_cases m) as H; simpl in H;
  repeat (destruct H as [<-|H]; [|]); [..|destruct H].

Lemma monthKey_label (now i : Z) :
  monthKey now i = monthLabel ((getMonth now - i) mod 12).
Proof. unfold monthKey, monthShort. now rewrite getMonth_make. Qed.

Lemma lastByte_append (s t : string) :
  t <> "" -> lastByte (s ++ t) = lastByte t.
Proof.
  intros Ht. induction s as [|c s IH]; [reflexivity|].
  cbn [append lastByte]. rewrite IH.
  destruct (s ++ t)%string eqn:E; [|reflexivity].
  destruct s; simpl in E; [contradiction | discriminate].
Qed.

(** A month name ends with the sign for month, and no property name of
    [Object.prototype] does. *)
Lemma monthLabel_plain (m : Z) : inPrototype (monthLabel m) = false.
Proof.
  destruct (inPrototype (monthLabel m)) eqn:E; [exfalso|reflexivity].
  apply existsb_exists in E. destruct E as (k & Hk & E).
  apply String.eqb_eq in E.
  assert (H : lastByte (monthLabel m) = lastByte "月")
    by (apply lastByte_append; discriminate).
  rewrite E in H. simpl in Hk.
  repeat (destruct Hk as [<-|Hk]; [discriminate H|]). destruct Hk.
Qed.

Lemma lastSix_named (m : Z) :
  Forall (fun k => arrayIndex k = None) (lastSix m).
Proof. each_month m; repeat constructor. Qed.

Lemma lastSix_NoDup (m : Z) : NoDup (lastSix m).
Proof.
  each_month m; vm_compute; repeat constructor; simpl;
    intuition discriminate.
Qed.

Lemma monthBuckets_counters (now : Z) :
  monthBuckets now = counters (lastSix (getMonth now)) (fun _ => 0).
Proof.
  unfold monthBuckets. cbn [fold_left]. rewrite !monthKey_label.
  rewrite lastSix_mod, <- !(Zminus_mod_idemp_l (getMonth now)).
  pose proof (month_cases (getMonth now)) as H. simpl in H.
  repeat (destruct H as [<-|H]; [vm_compute; reflexivity|]). destruct H.
Qed.

Lemma monthStep_counters (ks : list string) (c : string -> Z)
    (e : CoffeeEntry) :
  NoDup ks ->
  monthStep (counters ks c) e = counters ks (bump c (monthOf e)).
Proof.
  intros Hnd. unfold monthStep. fold (monthOf e).
  destruct (in_dec string_dec (monthOf e) ks) as [Hin|Hout].
  - unfold get at 1. rewrite (own_counters_in ks c _ Hin). simpl defined.
    cbv iota. apply set_increment; assumption.
  - rewrite get_counters_out, counters_bump_out; try assumption.
    + reflexivity.
    + apply monthLabel_plain.
Qed.

(** The histogram has the six month names of the window as labels, and
    under each the number of entries whose month has that name. *)
Lemma monthlyData_buckets (now : Z) (entries : list CoffeeEntry) :
  monthlyData now entries
  = mkChart (lastSix (getMonth now))
      (map (fun k => Num (tally monthOf k entries))
         (lastSix (getMonth now)))
  /\ List.length (labels (monthlyData now entries)) = 6%nat.
Proof.
  assert (Heq : monthlyData now entries
                = mkChart (lastSix (getMonth now))
                    (map (fun k => Num (tally monthOf k entries))
                       (lastSix (getMonth now)))).
  { unfold monthlyData, monthlyCounts. rewrite monthBuckets_counters.
    rewrite (fold_counters monthStep monthOf).
    - rewrite keys_counters, values_counters by apply lastSix_named.
      reflexivity.
    - intros c e _. apply monthStep_counters, lastSix_NoDup. }
  split; [exact Heq|]. rewrite Heq. reflexivity.
Qed.
End MonthlyHistogram.

(** C5.  The monthly histogram at an entry of the same month a year before
    the window.  On 15 June 2024 the window is January to June 2024.  An
    entry made on 10 May 2023 lies before the first day of the window, and
    the histogram counts it all the same, under 5月: the buckets are keyed
    by the month name alone. *)
Theorem monthlyData_counts_older_entry :
  let now := JsDate.make 2024 5 15 in
  let old := Samples.entry "Kenya AA" None None None 4 (JsDate.make 2023 4 10)
  in
  created_at old
  < JsDate.make (JsDate.getFullYear now) (JsDate.getMonth now - 5) 1
  /\ CoffeeTrends.monthlyData now [old]
     = CoffeeTrends.mkChart ["1月"; "2月"; "3月"; "4月"; "5月"; "6月"]
         [JsObject.Num 0; JsObject.Num 0; JsObject.Num 0; JsObject.Num 0;
          JsObject.Num 1; JsObject.Num 0].
Proof. split; vm_compute; reflexivity. Qed.

(** ** Averages *)

Lemma orOne_nonzero (n : Z) : DashboardPage.orOne n <> 0.
Proof. unfold DashboardPage.orOne. destruct (Z.eqb_spec n 0); lia. Qed.

(** The divisor [length || 1] is never zero, so every average is a finite
    number. *)
Lemma div_orOne_finite (a n : Z) :
  exists q : Q, JsNumber.div a (DashboardPage.orOne n) = JsNumber.Finite q.
Proof.
  unfold JsNumber.div.
  destruct (Z.eqb_spec (DashboardPage.orOne n) 0) as [H|_].
  - now apply orOne_nonzero in H.
  - eexists. reflexivity.
Qed.

(** C6.  For the empty entry list the averages are the number 0, not NaN and
    not an infinity: [getStats] renders the average rating as "0.0", and the
    four taste averages (sourness, sweetness, bitterness, richness) are 0.
    For every entry list the divisor is at least 1, so no average is NaN. *)
Theorem averages_of_no_entries :
  (forall now : Z,
      DashboardPage.avgRating (DashboardPage.getStats now []) = "0.0")
  /\ DashboardPage.averageRating [] = JsNumber.Finite 0
  /\ CoffeeTrends.data (CoffeeTrends.tasteProfileData [])
     = [JsNumber.Finite 0; JsNumber.Finite 0; JsNumber.Finite 0;
        JsNumber.Finite 0]
  /\ (forall entries : list CoffeeEntry,
         (exists q, DashboardPage.averageRating entries = JsNumber.Finite q)
         /\ Forall (fun x => exists q, x = JsNumber.Finite q)
              (CoffeeTrends.data (CoffeeTrends.tasteProfileData entries))).
Proof.
  split; [|split; [|split]].
  - intros now. reflexivity.
  - reflexivity.
  - reflexivity.
  - intros entries. split.
    + apply div_orOne_finite.
    + unfold CoffeeTrends.tasteProfileData. simpl CoffeeTrends.data.
      repeat constructor; apply div_orOne_finite.
Qed.

(** ** The rating histogram *)

Section RatingHistogram.
Import CoffeeTrends.

Lemma rated_cons (k : Z) (e : CoffeeEntry) (entries : list CoffeeEntry) :
  rated k (e :: entries)
  = (if rating e =? k then 1 else 0) + rated k entries.
Proof.
  unfold rated. simpl. destruct (rating e =? k); simpl List.length; lia.
Qed.

(** Two arrays of cells are equal when their cells are, as integers. *)
Ltac cells :=
  apply (f_equal (@Some (list Z)));
  repeat (apply (f_equal2 (@cons Z)); [lia|]);
  reflexivity.

Lemma ratingStep_cells (a1 a2 a3 a4 a5 : Z) (e : CoffeeEntry) :
  ratingStep (Some [a1; a2; a3; a4; a5]) e
  = Some [a1 + (if rating e =? 1 then 1 else 0);
          a2 + (if rating e =? 2 then 1 else 0);
          a3 + (if rating e =? 3 then 1 else 0);
          a4 + (if rating e =? 4 then 1 else 0);
          a5 + (if rating e =? 5 then 1 else 0)].
Proof.
  unfold ratingStep. rewrite Z.geb_leb.
  destruct (Z.leb_spec 1 (rating e)) as [Hlo|Hlo];
    destruct (Z.leb_spec (rating e) 5) as [Hhi|Hhi];
    simpl andb; cbv iota.
  - assert (Hr : rating e = 1 \/ rating e = 2 \/ rating e = 3
                 \/ rating e = 4 \/ rating e = 5) by lia.
    destruct Hr as [Hr|[Hr|[Hr|[Hr|Hr]]]]; rewrite Hr;
      unfold JsArray.incrementIndex; simpl; cells.
  - assert (Hr : 5 < rating e) by lia.
    repeat match goal with
           | |- context [rating e =? ?k] =>
               destruct (Z.eqb_spec (rating e) k); [lia|]
           end.
    cells.
  - assert (Hr : rating e < 1) by lia.
    repeat match goal with
           | |- context [rating e =? ?k] =>
               destruct (Z.eqb_spec (rating e) k); [lia|]
           end.
    cells.
  - lia.
Qed.

Lemma ratingCounts_from (entries : list CoffeeEntry) :
  forall a1 a2 a3 a4 a5 : Z,
    fold_left ratingStep entries (Some [a1; a2; a3; a4; a5])
    = Some [a1 + rated 1 entries; a2 + rated 2 entries;
            a3 + rated 3 entries; a4 + rated 4 entries;
            a5 + rated 5 entries].
Proof.
  induction entries as [|e entries IH]; intros a1 a2 a3 a4 a5.
  - unfold rated. simpl. cells.
  - cbn [fold_left]. rewrite ratingStep_cells, IH, !rated_cons. cells.
Qed.
End RatingHistogram.

(** C7.  The rating histogram has five cells labelled ★1 to ★5.  For every
    entry list the computation stays within the five cells (it never leaves
    the array), the cell of rating k holds the number of entries rated k, and
    so an entry rated outside 1..5 is counted nowhere: the cells add up to
    the number of entries rated within 1..5. *)
Theorem ratingData_buckets (entries : list CoffeeEntry) :
  CoffeeTrends.ratingData entries
  = Some (CoffeeTrends.mkChart ["★1"; "★2"; "★3"; "★4"; "★5"]
            (map (fun k => rated k entries) [1; 2; 3; 4; 5]))
  /\ rated 1 entries + rated 2 entries + rated 3 entries + rated 4 entries
     + rated 5 entries
     = Z.of_nat
         (List.length
            (filter (fun e => (1 <=? rating e) && (rating e <=? 5)) entries)).
Proof.
  split.
  - unfold CoffeeTrends.ratingData, CoffeeTrends.ratingCounts.
    rewrite ratingCounts_from. reflexivity.
  - induction entries as [|e entries IH].
    + reflexivity.
    + rewrite !rated_cons. simpl filter.
      destruct (Z.leb_spec 1 (rating e)); destruct (Z.leb_spec (rating e) 5);
        simpl andb; cbv iota; simpl List.length;
        repeat match goal with
               | |- context [rating e =? ?k] =>
                   destruct (Z.eqb_spec (rating e) k)
               end; lia.
Qed.

(** ** The trends view *)

(** C8.  With fewer than three entries the trends component renders the
    notice and calls none of its five data functions; with three or more it
    renders the charts, built from the rating, roast-level, monthly and taste
    data (and the brew-method data when there is a brew method to show). *)
Theorem render_threshold (now : Z) (entries : list CoffeeEntry) :
  ((List.length entries < 3)%nat ->
   CoffeeTrends.render now entries = (CoffeeTrends.Notice, []))
  /\ ((3 <= List.length entries)%nat ->
      exists brew,
        fst (CoffeeTrends.render now entries)
        = CoffeeTrends.Charts (CoffeeTrends.ratingData entries)
            (CoffeeTrends.roastLevelData entries)
            (CoffeeTrends.monthlyData now entries)
            (CoffeeTrends.tasteProfileData entries) brew
        /\ (brew = None
            \/ brew = Some (CoffeeTrends.brewMethodData entries))
        /\ incl [CoffeeTrends.RatingData; CoffeeTrends.RoastLevelData;
                 CoffeeTrends.MonthlyData; CoffeeTrends.TasteProfileData;
                 CoffeeTrends.BrewMethodData]
             (snd (CoffeeTrends.render now entries))).
Proof.
  unfold CoffeeTrends.render. split; intros H.
  - destruct (Z.ltb_spec (Z.of_nat (List.length entries)) 3); [reflexivity|lia].
  - destruct (Z.ltb_spec (Z.of_nat (List.length entries)) 3); [lia|].
    unfold CoffeeTrends.bind, CoffeeTrends.invoke, CoffeeTrends.ret.
    cbn [fst snd].
    destruct (0 <? Z.of_nat
                (List.length
                   (CoffeeTrends.labels (CoffeeTrends.brewMethodData entries)))).
    + exists (Some (CoffeeTrends.brewMethodData entries)). cbn [fst snd app].
      split; [reflexivity|]. split; [now right|].
      intros c Hc. simpl in Hc |- *. tauto.
    + exists None. cbn [fst snd app].
      split; [reflexivity|]. split; [now left|].
      intros c Hc. simpl in Hc |- *. tauto.
Qed.

Lemma render_threshold_witness :
  CoffeeTrends.render 0 [Samples.january; Samples.february]
  = (CoffeeTrends.Notice, [])
  /\ exists brew,
      fst (CoffeeTrends.render 0
             [Samples.january; Samples.february; Samples.march])
      = CoffeeTrends.Charts
          (CoffeeTrends.ratingData
             [Samples.january; Samples.february; Samples.march])
          (CoffeeTrends.roastLevelData
             [Samples.january; Samples.february; Samples.march])
          (CoffeeTrends.monthlyData 0
             [Samples.january; Samples.february; Samples.march])
          (CoffeeTrends.tasteProfileData
             [Samples.january; Samples.february; Samples.march]) brew.
Proof.
  split.
  - apply (proj1 (render_threshold 0 [Samples.january; Samples.february])).
    simpl. lia.
  - destruct (proj2 (render_threshold 0
                       [Samples.january; Samples.february; Samples.march]))
      as (brew & H & _).
    + simpl. lia.
    + exists brew. exact H.
Defined.

(** ** Authentication errors *)

(** The message for a provider error with a text is decided by substring
    tests in a fixed order. *)
Lemma authErrorMessage_cases (errorMsg : string) :
  (JsString.includes errorMsg "Email not confirmed" = true ->
   AuthPage.authErrorMessage errorMsg = AuthPage.emailNotConfirmed)
  /\ (JsString.includes errorMsg "Email not confirmed" = false ->
      JsString.includes errorMsg "Invalid login credentials" = true ->
      AuthPage.authErrorMessage errorMsg = AuthPage.invalidCredentials)
  /\ (JsString.includes errorMsg "Email not confirmed" = false ->
      JsString.includes errorMsg "Invalid login credentials" = false ->
      JsString.includes errorMsg "Email already registered" = true ->
      AuthPage.authErrorMessage errorMsg = AuthPage.alreadyRegistered)
  /\ (JsString.includes errorMsg "Email not confirmed" = false ->
      JsString.includes errorMsg "Invalid login credentials" = false ->
      JsString.includes errorMsg "Email already registered" = false ->
      JsString.includes errorMsg "Password should be at least" = true ->
      AuthPage.authErrorMessage errorMsg = AuthPage.weakPassword)
  /\ (JsString.includes errorMsg "Email not confirmed" = false ->
      JsString.includes errorMsg "Invalid login credentials" = false ->
      JsString.includes errorMsg "Email already registered" = false ->
      JsString.includes errorMsg "Password should be at least" = false ->
      AuthPage.authErrorMessage errorMsg = AuthPage.fallback errorMsg)
  /\ In (AuthPage.authErrorMessage errorMsg)
       [AuthPage.emailNotConfirmed; AuthPage.invalidCredentials;
        AuthPage.alreadyRegistered; AuthPage.weakPassword;
        AuthPage.fallback errorMsg]
  /\ AuthPage.authErrorMessage "Email not confirmed"
     = AuthPage.emailNotConfirmed
  /\ AuthPage.authErrorMessage "Invalid login credentials"
     = AuthPage.invalidCredentials
  /\ AuthPage.authErrorMessage "Email already registered"
     = AuthPage.alreadyRegistered
  /\ AuthPage.authErrorMessage "Password should be at least"
     = AuthPage.weakPassword.
Proof.
  unfold AuthPage.authErrorMessage.
  repeat split; try (intros; repeat
    match goal with
    | H : ?c = _ |- context [if ?c then _ else _] => rewrite H
    end; reflexivity).
  destruct (JsString.includes errorMsg "Email not confirmed");
    [simpl; tauto|].
  destruct (JsString.includes errorMsg "Invalid login credentials");
    [simpl; tauto|].
  destruct (JsString.includes errorMsg "Email already registered");
    [simpl; tauto|].
  destruct (JsString.includes errorMsg "Password should be at least");
    simpl; tauto.
Qed.

(** C9.  What the login/signup handler shows when a call fails with a
    provider error: whichever call of [handleAuth] throws the error (the
    sign-up, the sign-in, or the profile query after a sign-in), the error
    the page then shows is a total function of the error text, decided by
    substring tests in a fixed order.  A text that contains "Email not
    confirmed" shows the unconfirmed-email message; otherwise one that
    contains "Invalid login credentials" shows the invalid-credentials
    message; otherwise one that contains "Email already registered" shows
    the duplicate-registration message; otherwise one that contains
    "Password should be at least" shows the weak-password message; a text
    that contains none of the four shows the fallback message, which quotes
    the text.  So every text shows exactly one message, each of the four
    provider texts shows its own, and no timer is set. *)
Theorem handleAuth_error_message (st : AuthFlow.state)
    (p : AuthFlow.provider) (errorMsg : string) :
  (AuthFlow.current st = AuthFlow.Signup
   /\ AuthFlow.thrownBy (AuthFlow.signUp p) = Some (Some errorMsg))
  \/ (AuthFlow.current st = AuthFlow.Login
      /\ AuthFlow.thrownBy (AuthFlow.signIn p) = Some (Some errorMsg))
  \/ (AuthFlow.current st = AuthFlow.Login
      /\ AuthFlow.thrownBy (AuthFlow.signIn p) = None
      /\ AuthFlow.fetchProfile p = AuthFlow.Thrown (Some errorMsg)) ->
  let shown := AuthFlow.error (fst (AuthFlow.handleAuth st p)) in
  (JsString.includes errorMsg "Email not confirmed" = true ->
   shown = Some "メールアドレスが確認されていません。メールをご確認ください。")
  /\ (JsString.includes errorMsg "Email not confirmed" = false ->
      JsString.includes errorMsg "Invalid login credentials" = true ->
      shown = Some "メールアドレスまたはパスワードが正しくありません。")
  /\ (JsString.includes errorMsg "Email not confirmed" = false ->
      JsString.includes errorMsg "Invalid login credentials" = false ->
      JsString.includes errorMsg "Email already registered" = true ->
      shown = Some "このメールアドレスは既に登録されています。")
  /\ (JsString.includes errorMsg "Email not confirmed" = false ->
      JsString.includes errorMsg "Invalid login credentials" = false ->
      JsString.includes errorMsg "Email already registered" = false ->
      JsString.includes errorMsg "Password should be at least" = true ->
      shown = Some "パスワードは8文字以上にしてください。")
  /\ (JsString.includes errorMsg "Email not confirmed" = false ->
      JsString.includes errorMsg "Invalid login credentials" = false ->
      JsString.includes errorMsg "Email already registered" = false ->
      JsString.includes errorMsg "Password should be at least" = false ->
      shown = Some ("エラーが発生しました: " ++ errorMsg)%string)
  /\ (exists text,
         shown = Some text
         /\ In text
              [AuthPage.emailNotConfirmed; AuthPage.invalidCredentials;
               AuthPage.alreadyRegistered; AuthPage.weakPassword;
               AuthPage.fallback errorMsg])
  /\ (errorMsg = "Email not confirmed" ->
      shown = Some AuthPage.emailNotConfirmed)
  /\ (errorMsg = "Invalid login credentials" ->
      shown = Some AuthPage.invalidCredentials)
  /\ (errorMsg = "Email already registered" ->
      shown = Some AuthPage.alreadyRegistered)
  /\ (errorMsg = "Password should be at least" ->
      shown = Some AuthPage.weakPassword)
  /\ snd (AuthFlow.handleAuth st p) = [].
Proof.
  intros H. cbv zeta.
  assert (E : AuthFlow.handleAuth st p
              = AuthFlow.caught (AuthFlow.current st)
                  (AuthFlow.message (fst (AuthFlow.handleAuth st p)))
                  (Some errorMsg)).
  { unfold AuthFlow.handleAuth.
    destruct H as [[Hm Ht]|[[Hm Ht]|(Hm & Ht & Hp)]]; rewrite Hm, Ht;
      [reflexivity|reflexivity|]. rewrite Hp. reflexivity. }
  assert (Es : AuthFlow.error (fst (AuthFlow.handleAuth st p))
               = Some (AuthPage.authErrorMessage errorMsg)).
  { rewrite E. reflexivity. }
  assert (Et : snd (AuthFlow.handleAuth st p) = []).
  { rewrite E. reflexivity. }
  rewrite Es.
  destruct (authErrorMessage_cases errorMsg)
    as (H1 & H2 & H3 & H4 & H5 & H6 & H7 & H8 & H9 & H10).
  split; [intros; f_equal; now apply H1|].
  split; [intros; f_equal; now apply H2|].
  split; [intros; f_equal; now apply H3|].
  split; [intros; f_equal; now apply H4|].
  split; [intros; f_equal; now apply H5|].
  split; [now exists (AuthPage.authErrorMessage errorMsg)|].
  split; [intros ->; now rewrite H7|].
  split; [intros ->; now rewrite H8|].
  split; [intros ->; now rewrite H9|].
  split; [intros ->; now rewrite H10|].
  exact Et.
Qed.

Lemma handleAuth_error_message_witness :
  AuthFlow.error
    (fst (AuthFlow.handleAuth
            (AuthFlow.mkState AuthFlow.Login false None None)
            (AuthFlow.mkProvider (AuthFlow.Returned None)
               (AuthFlow.Returned
                  (Some "AuthApiError: Invalid login credentials"))
               (AuthFlow.Returned None))))
  = Some "メールアドレスまたはパスワードが正しくありません。"
  /\ AuthFlow.error
       (fst (AuthFlow.handleAuth
               (AuthFlow.mkState AuthFlow.Signup false None None)
               (AuthFlow.mkProvider (AuthFlow.Thrown (Some "Failed to fetch"))
                  (AuthFlow.Returned None) (AuthFlow.Returned None))))
     = Some "エラーが発生しました: Failed to fetch".
Proof.
  split.
  - destruct (handleAuth_error_message
                (AuthFlow.mkState AuthFlow.Login false None None)
                (AuthFlow.mkProvider (AuthFlow.Returned None)
                   (AuthFlow.Returned
                      (Some "AuthApiError: Invalid login credentials"))
                   (AuthFlow.Returned None))
                "AuthApiError: Invalid login credentials"
                (or_intror (or_introl (conj eq_refl eq_refl))))
      as (_ & H & _).
    apply H; vm_compute; reflexivity.
  - destruct (handleAuth_error_message
                (AuthFlow.mkState AuthFlow.Signup false None None)
                (AuthFlow.mkProvider
                   (AuthFlow.Thrown (Some "Failed to fetch"))
                   (AuthFlow.Returned None) (AuthFlow.Returned None))
                "Failed to fetch"
                (or_introl (conj eq_refl eq_refl)))
      as (_ & _ & _ & _ & H & _).
    apply H; vm_compute; reflexivity.
Defined.

(** ** Own properties *)

Section ObjectFacts.
Import JsObject.

Lemma replace_In (o : object) (k : string) (v : value)
    (p : string * value) :
  In p (replace o k v) -> In p o \/ p = (k, v).
Proof.
  induction o as [|[k' v'] o IH]; simpl.
  - tauto.
  - destruct (String.eqb_spec k' k) as [->|_]; simpl.
    + intros [<-|H]; auto.
    + intros [<-|H]; auto. destruct (IH H); auto.
Qed.

Lemma set_In (o : object) (k : string) (v : value) (p : string * value) :
  In p (set o k v) -> In p o \/ p = (k, v).
Proof.
  unfold set. destruct (own o k).
  - apply replace_In.
  - destruct (k =? "__proto__")%string.
    + auto.
    + intros H. apply in_app_or in H. simpl in H. intuition.
Qed.

Lemma indexed_In (o : object) (n : N) (p : string * value) :
  In (n, p) (indexed o) -> In p o.
Proof.
  unfold indexed. intros H. apply in_flat_map in H.
  destruct H as (q & Hq & H). destruct (arrayIndex (fst q)); simpl in H.
  - destruct H as [H|[]]. now inversion H; subst.
  - destruct H.
Qed.

(** [Object.entries] lists own properties only. *)
Lemma entries_In (o : object) (p : string * value) :
  In p (entries o) -> In p o.
Proof.
  unfold entries. intros H. apply in_app_or in H. destruct H as [H|H].
  - apply in_map_iff in H. destruct H as ([n q] & <- & H).
    apply (Permutation_in _ (sort_perm _ _)) in H.
    apply (indexed_In o n q H).
  - unfold named in H. apply filter_In in H. tauto.
Qed.
End ObjectFacts.

(** ** The most frequent brew method and origin *)

Section TopGroup.
Import JsObject DashboardPage.
Variable field : CoffeeEntry -> option string.

Lemma countBy_blank (entries : list CoffeeEntry) :
  Forall (blank field) entries -> countBy field entries = [].
Proof.
  unfold countBy. intros H.
  assert (Hfold : forall counts : object,
             fold_left (countStep field) entries counts = counts).
  { induction H as [|e entries He Hrest IH]; intros counts.
    - reflexivity.
    - cbn [fold_left].
      replace (countStep field counts e) with counts; [apply IH|].
      unfold countStep. destruct He as [-> | ->]; reflexivity. }
  apply Hfold.
Qed.

(** Every group is the non-empty value of some entry. *)
Lemma countStep_groups (all : list CoffeeEntry) (counts : object)
    (e : CoffeeEntry) :
  In e all -> Forall (groupOf field all) counts ->
  Forall (groupOf field all) (countStep field counts e).
Proof.
  intros He H. unfold countStep.
  destruct (field e) as [k|] eqn:Hk; [|exact H].
  destruct (JsString.nonEmpty k) eqn:Hne; [|exact H].
  apply Forall_forall. intros p Hp. apply set_In in Hp.
  destruct Hp as [Hp| ->].
  - rewrite Forall_forall in H. apply H, Hp.
  - split; simpl.
    + intros ->. discriminate Hne.
    + exists e. split; assumption.
Qed.

Lemma countBy_groups (entries : list CoffeeEntry) :
  Forall (groupOf field entries) (countBy field entries).
Proof.
  unfold countBy.
  assert (H : forall part counts,
             incl part entries -> Forall (groupOf field entries) counts ->
             Forall (groupOf field entries)
               (fold_left (countStep field) part counts)).
  { induction part as [|e part IH]; intros counts Hincl Hc.
    - exact Hc.
    - cbn [fold_left]. apply IH.
      + intros x Hx. apply Hincl. now right.
      + apply countStep_groups; [apply Hincl; now left | exact Hc]. }
  apply H; [apply incl_refl | constructor].
Qed.

Lemma top_group (entries : list CoffeeEntry) (p : string * value) :
  top (countBy field entries) = Some p -> groupOf field entries p.
Proof.
  unfold top. intros H.
  set (cmp := fun a b : string * value => difference (snd b) (snd a)) in H.
  assert (Hin : In p (JsArray.sort cmp
                        (JsObject.entries (countBy field entries)))).
  { destruct (JsArray.sort cmp _) as [|q l]; simpl in H; [discriminate|].
    inversion H. now left. }
  apply (Permutation_in _ (sort_perm cmp _)) in Hin.
  apply entries_In in Hin.
  pose proof (countBy_groups entries) as Hall.
  rewrite Forall_forall in Hall. apply Hall, Hin.
Qed.
End TopGroup.

(** C10.  When no entry has a non-empty brew method the most frequent brew
    method is reported as "なし", and likewise for the origin.  An entry
    whose brew method (origin) is null or empty adds no group: every group is
    the non-empty value of some entry, so the reported top value is never the
    empty string. *)
Theorem top_value_fallback (now : Z) (entries : list CoffeeEntry) :
  (Forall (blank brew_method) entries ->
   DashboardPage.topMethod (DashboardPage.getStats now entries) = "なし")
  /\ (Forall (blank bean_origin) entries ->
      DashboardPage.topOrigin (DashboardPage.getStats now entries) = "なし")
  /\ DashboardPage.topMethod (DashboardPage.getStats now entries) <> ""
  /\ DashboardPage.topOrigin (DashboardPage.getStats now entries) <> ""
  /\ Forall (groupOf brew_method entries)
       (DashboardPage.countBy brew_method entries)
  /\ Forall (groupOf bean_origin entries)
       (DashboardPage.countBy bean_origin entries).
Proof.
  unfold DashboardPage.getStats. cbn [DashboardPage.topMethod
                                        DashboardPage.topOrigin].
  repeat split.
  - intros H. now rewrite (countBy_blank brew_method entries H).
  - intros H. now rewrite (countBy_blank bean_origin entries H).
  - destruct (DashboardPage.top (DashboardPage.countBy brew_method entries))
      as [p|] eqn:Hp.
    + apply (top_group brew_method entries p Hp).
    + discriminate.
  - destruct (DashboardPage.top (DashboardPage.countBy bean_origin entries))
      as [p|] eqn:Hp.
    + apply (top_group bean_origin entries p Hp).
    + discriminate.
  - apply countBy_groups.
  - apply countBy_groups.
Qed.

Lemma top_value_fallback_witness :
  Forall (blank brew_method) [Samples.february; Samples.february]
  /\ DashboardPage.topMethod
       (DashboardPage.getStats 0 [Samples.february; Samples.february])
     = "なし".
Proof.
  assert (H : Forall (blank brew_method) [Samples.february; Samples.february])
    by (repeat constructor; left; reflexivity).
  split; [exact H|].
  exact (proj1 (top_value_fallback 0 [Samples.february; Samples.february]) H).
Defined.

(** ** The filter options of the entries page *)

Import Coverage.

Section SetFacts.

Lemma add_In (s : list string) (x y : string) :
  In y (JsSet.add s x) <-> In y s \/ y = x.
Proof.
  unfold JsSet.add. destruct (existsb (String.eqb x) s) eqn:E.
  - split; [tauto|]. intros [H| ->]; [exact H|].
    apply existsb_exists in E. destruct E as (z & Hz & E).
    apply String.eqb_eq in E. now subst.
  - rewrite in_app_iff. simpl. intuition.
Qed.

Lemma add_NoDup (s : list string) (x : string) :
  NoDup s -> NoDup (JsSet.add s x).
Proof.
  intros H. unfold JsSet.add.
  destruct (existsb (String.eqb x) s) eqn:E; [exact H|].
  apply NoDup_app; [exact H | repeat constructor; simpl; tauto |].
  intros y Hy [<-|[]].
  apply Bool.not_true_iff_false in E. apply E.
  apply existsb_exists. exists x. split; [exact Hy | apply String.eqb_refl].
Qed.

Lemma fold_add_In (l s : list string) (y : string) :
  In y (fold_left JsSet.add l s) <-> In y s \/ In y l.
Proof.
  revert s. induction l as [|x l IH]; intros s; simpl.
  - tauto.
  - rewrite IH, add_In. intuition.
Qed.

Lemma fold_add_NoDup (l s : list string) :
  NoDup s -> NoDup (fold_left JsSet.add l s).
Proof.
  revert s. induction l as [|x l IH]; intros s H; simpl.
  - exact H.
  - apply IH, add_NoDup, H.
Qed.

Lemma strings_In (l : list (option string)) (s : string) :
  In s (EntriesView.strings l) <-> In (Some s) l.
Proof.
  unfold EntriesView.strings. rewrite in_flat_map. split.
  - intros ([v|] & Hv & H); simpl in H; [|tauto].
    destruct H as [<-|[]]. exact Hv.
  - intros H. exists (Some s). split; [exact H | now left].
Qed.

Lemma present_trim (s : string) :
  EntriesView.present (Some s) = true <-> JsString.trim s <> "".
Proof.
  unfold EntriesView.present, JsString.nonEmpty. split.
  - intros H. apply andb_prop in H. destruct H as [_ H].
    apply Bool.negb_true_iff, String.eqb_neq in H. exact H.
  - intros H. apply andb_true_intro. split.
    + apply Bool.negb_true_iff, String.eqb_neq. intros ->. now apply H.
    + apply Bool.negb_true_iff, String.eqb_neq. exact H.
Qed.

Lemma uniqueValues_In (field : CoffeeEntry -> option string)
    (fetched : list CoffeeEntry) (o : string) :
  In o (EntriesView.uniqueValues field fetched)
  <-> exists e, In e fetched /\ field e = Some o /\ JsString.trim o <> "".
Proof.
  unfold EntriesView.uniqueValues, JsSet.fromArray.
  rewrite fold_add_In, strings_In, filter_In, in_map_iff, present_trim.
  simpl. split.
  - intros [[]|[(e & He & Hin) Ht]]. exists e. auto.
  - intros (e & Hin & He & Ht). right. split; [|exact Ht]. exists e. auto.
Qed.

End SetFacts.

(** X1.  The origins and the brew methods offered as filter options: no
    option is listed twice, and a string is an option exactly when it is the
    origin (the brew method) of some fetched entry and does not trim to the
    empty string. *)
Theorem filter_options_listed
    (field : CoffeeEntry -> option string) (fetched : list CoffeeEntry) :
  NoDup (EntriesView.uniqueValues field fetched)
  /\ (forall o : string,
         In o (EntriesView.uniqueValues field fetched)
         <-> exists e,
             In e fetched /\ field e = Some o /\ JsString.trim o <> "")
  /\ ~ In "" (EntriesView.uniqueValues field fetched).
Proof.
  split; [|split].
  - apply fold_add_NoDup. constructor.
  - apply uniqueValues_In.
  - intros H. apply uniqueValues_In in H. destruct H as (e & _ & _ & H).
    now apply H.
Qed.

(** ** Narrowing the list *)

Section Narrowing.
Import EntriesPage.

Lemma StronglySorted_filter {A : Type} (R : A -> A -> Prop) (p : A -> bool)
    (l : list A) :
  StronglySorted R l -> StronglySorted R (filter p l).
Proof.
  induction 1 as [|x l Hs IH Hall]; simpl.
  - constructor.
  - destruct (p x); [|exact IH]. constructor; [exact IH|].
    rewrite Forall_forall in *. intros y Hy. apply filter_In in Hy.
    apply Hall. tauto.
Qed.

Lemma filter_swap {A : Type} (p q : A -> bool) (l : list A) :
  filter p (filter q l) = filter q (filter p l).
Proof.
  rewrite !filter_filter. apply filter_ext. intros a. apply andb_comm.
Qed.

(** Filtering a sorted array is sorting the filtered array. *)
Lemma sort_filter_commute {A : Type} (key : A -> Z) (p : A -> bool)
    (l : list A) :
  filter p (JsArray.sort (JsArray.descending key) l)
  = JsArray.sort (JsArray.descending key) (filter p l).
Proof.
  apply sort_descending_unique.
  - apply StronglySorted_filter, sort_descending.
  - intros r. rewrite filter_swap, sort_descending_stable.
    apply filter_swap.
Qed.

Lemma sortResult_filter (f : filters) (p : CoffeeEntry -> bool)
    (l : list CoffeeEntry) :
  filter p (sortResult f l) = sortResult f (filter p l).
Proof.
  unfold sortResult. destruct (sortBy f).
  - apply (sort_filter_commute created_at).
  - apply (sort_filter_commute rating).
Qed.

Lemma sortResult_mode (f f' : filters) (l : list CoffeeEntry) :
  sortBy f' = sortBy f -> sortResult f' l = sortResult f l.
Proof. unfold sortResult. now intros ->. Qed.

(** When the criteria [f'] ask for what [f] asks and for [p], in the same
    sort mode, the list for [f'] is the list for [f] without the entries
    that fail [p]. *)
Lemma refine_filter (f f' : filters) (p : CoffeeEntry -> bool)
    (entries : list CoffeeEntry) :
  sortBy f' = sortBy f ->
  (forall e, matchesAll f' e = matchesAll f e && p e) ->
  filteredEntries entries f' = filter p (filteredEntries entries f).
Proof.
  intros Hmode Hp. rewrite !filteredEntries_sorted_filter.
  rewrite sortResult_filter, filter_filter.
  rewrite (sortResult_mode f f' _ Hmode). f_equal.
  apply filter_ext, Hp.
Qed.

Lemma sortResult_twice (f : filters) (l : list CoffeeEntry) :
  sortResult f (sortResult f l) = sortResult f l.
Proof.
  unfold sortResult. destruct (sortBy f).
  - apply (sort_descending_id created_at), (sort_descending created_at).
  - apply (sort_descending_id rating), (sort_descending rating).
Qed.

End Narrowing.

(** X2.  Raising the rating threshold narrows the list in place: for a
    threshold above 0 and not below the current one, the new list is the
    current list without the entries rated below the threshold, in the same
    order.  With ratings of at most 5, the threshold 5 (★5のみ) leaves
    exactly the entries rated 5. *)
Theorem rating_threshold_narrows
    (entries : list CoffeeEntry) (f : EntriesPage.filters) (stars : Z) :
  0 < stars -> EntriesPage.ratingFilter f <= stars ->
  EntriesPage.filteredEntries entries (EntriesView.setRatingFilter f stars)
  = filter (fun e => rating e >=? stars)
      (EntriesPage.filteredEntries entries f)
  /\ (stars = 5 -> Forall (fun e => rating e <= 5) entries ->
      Forall (fun e => rating e = 5)
        (EntriesPage.filteredEntries entries
           (EntriesView.setRatingFilter f stars))).
Proof.
  intros Hpos Hle.
  assert (Heq : EntriesPage.filteredEntries entries
                  (EntriesView.setRatingFilter f stars)
                = filter (fun e => rating e >=? stars)
                    (EntriesPage.filteredEntries entries f)).
  { apply refine_filter; [reflexivity|]. intros e.
    unfold EntriesPage.matchesAll, EntriesPage.stageMatch. simpl.
    destruct (Z.gtb_spec stars 0) as [_|H0]; [|lia].
    rewrite <- !andb_assoc. repeat f_equal.
    destruct (Z.gtb_spec (EntriesPage.ratingFilter f) 0); [|reflexivity].
    rewrite !Z.geb_leb.
    destruct (Z.leb_spec stars (rating e));
      destruct (Z.leb_spec (EntriesPage.ratingFilter f) (rating e));
      try reflexivity; lia. }
  split; [exact Heq|]. intros -> Hmax. rewrite Heq.
  apply Forall_forall. intros e He. apply filter_In in He.
  destruct He as [He Hr].
  assert (Hin : In e entries).
  { pose proof (filteredEntries_perm f entries) as Hp.
    apply (Permutation_in _ Hp) in He. apply filter_In in He. tauto. }
  rewrite Forall_forall in Hmax. specialize (Hmax e Hin).
  rewrite Z.geb_leb in Hr. apply Z.leb_le in Hr. lia.
Qed.

Lemma rating_threshold_narrows_witness :
  EntriesPage.filteredEntries
    [Samples.march; Samples.february; Samples.january]
    (EntriesView.setRatingFilter (Samples.reset EntriesPage.SortDate) 4)
  = [Samples.march; Samples.january].
Proof.
  rewrite (proj1 (rating_threshold_narrows
                    [Samples.march; Samples.february; Samples.january]
                    (Samples.reset EntriesPage.SortDate) 4
                    ltac:(lia) ltac:(simpl; lia))).
  vm_compute. reflexivity.
Defined.

(** X3.  Running the filter on its own result changes nothing: the list for
    given criteria, filtered and sorted again by the same criteria, is the
    same list. *)
Theorem filteredEntries_idempotent
    (entries : list CoffeeEntry) (f : EntriesPage.filters) :
  EntriesPage.filteredEntries (EntriesPage.filteredEntries entries f) f
  = EntriesPage.filteredEntries entries f.
Proof.
  rewrite (filteredEntries_sorted_filter f (EntriesPage.filteredEntries _ _)).
  rewrite filteredEntries_sorted_filter.
  rewrite sortResult_filter, filter_filter, sortResult_twice.
  f_equal. apply filter_ext. intros e.
  now destruct (EntriesPage.matchesAll f e).
Qed.

(** ** Search and case *)

Section SearchFacts.
Import JsString.

Lemma prefix_app (t q : string) : String.prefix t (t ++ q) = true.
Proof.
  induction t as [|a t IH]; [now destruct q|]. simpl.
  destruct (ascii_dec a a); [exact IH|contradiction].
Qed.

Lemma prefix_split (t : string) :
  forall s : string, String.prefix t s = true -> exists q, s = t ++ q.
Proof.
  induction t as [|a t IH]; intros s H.
  - exists s. reflexivity.
  - destruct s as [|b s]; [discriminate H|]. simpl in H.
    destruct (ascii_dec a b) as [->|]; [|discriminate H].
    destruct (IH s H) as [q ->]. exists q. reflexivity.
Qed.

Lemma includes_eq (s t : string) :
  includes s t
  = String.prefix t s
    || match s with
       | EmptyString => false
       | String _ s' => includes s' t
       end.
Proof. destruct s; reflexivity. Qed.

Lemma append_assoc (a b c : string) : (a ++ b) ++ c = a ++ b ++ c.
Proof. induction a as [|x a IH]; simpl; [reflexivity|now rewrite IH]. Qed.

(** [s.includes(t)] holds exactly when [t] lies between two parts of [s]. *)
Lemma includes_app (p t q : string) : includes (p ++ t ++ q) t = true.
Proof.
  induction p as [|c p IH].
  - simpl. rewrite includes_eq, prefix_app. reflexivity.
  - rewrite includes_eq. simpl. rewrite IH. apply orb_true_r.
Qed.

Lemma includes_split (s t : string) :
  includes s t = true -> exists p q, s = p ++ t ++ q.
Proof.
  induction s as [|c s IH]; intros H; rewrite includes_eq in H;
    apply orb_prop in H; destruct H as [H|H].
  - apply prefix_split in H. destruct H as [q ->]. now exists "", q.
  - discriminate H.
  - apply prefix_split in H. destruct H as [q ->]. now exists "", q.
  - destruct (IH H) as (p & q & ->). now exists (String c p), q.
Qed.

Lemma bytes_app (a b : string) : bytes (a ++ b) = (bytes a ++ bytes b)%list.
Proof.
  unfold bytes. induction a as [|x a IH]; simpl; [reflexivity|].
  now rewrite IH.
Qed.

Lemma fromBytes_app (x y : list Z) :
  fromBytes (x ++ y) = fromBytes x ++ fromBytes y.
Proof.
  unfold fromBytes. induction x as [|b x IH]; simpl; [reflexivity|].
  now rewrite IH.
Qed.

(** *** Decoding *)

Ltac bools :=
  repeat match goal with
    | H : _ && _ = true |- _ => apply andb_prop in H; destruct H
    | H : (_ <=? _) = true |- _ => apply Z.leb_le in H
    | H : (_ <? _) = true |- _ => apply Z.ltb_lt in H
    end.

Lemma decode_eq (l : list Z) :
  decode l
  = match l with
    | [] => []
    | b0 :: l1 =>
        if b0 <? 0x80 then Scalar b0 :: decode l1
        else
          match l1 with
          | b1 :: l2 =>
              if wellFormed2 b0 b1 then Scalar (scalar2 b0 b1) :: decode l2
              else
                match l2 with
                | b2 :: l3 =>
                    if wellFormed3 b0 b1 b2
                    then Scalar (scalar3 b0 b1 b2) :: decode l3
                    else
                      match l3 with
                      | b3 :: l4 =>
                          if wellFormed4 b0 b1 b2 b3
                          then Scalar (scalar4 b0 b1 b2 b3) :: decode l4
                          else Stray b0 :: decode l1
                      | [] => Stray b0 :: decode l1
                      end
                | [] => Stray b0 :: decode l1
                end
          | [] => Stray b0 :: decode l1
          end
    end.
Proof. destruct l; reflexivity. Qed.

(** The first code unit of a list of bytes: one of the four well-formed
    sequences, or a stray byte. *)
Lemma decode_cases (l : list Z) :
  l = []
  \/ (exists b0 l1,
         l = b0 :: l1 /\ (b0 <? 0x80) = true
         /\ decode l = Scalar b0 :: decode l1)
  \/ (exists b0 b1 l2,
         l = b0 :: b1 :: l2 /\ wellFormed2 b0 b1 = true
         /\ decode l = Scalar (scalar2 b0 b1) :: decode l2)
  \/ (exists b0 b1 b2 l3,
         l = b0 :: b1 :: b2 :: l3 /\ wellFormed3 b0 b1 b2 = true
         /\ decode l = Scalar (scalar3 b0 b1 b2) :: decode l3)
  \/ (exists b0 b1 b2 b3 l4,
         l = b0 :: b1 :: b2 :: b3 :: l4 /\ wellFormed4 b0 b1 b2 b3 = true
         /\ decode l = Scalar (scalar4 b0 b1 b2 b3) :: decode l4)
  \/ (exists b0 l1, l = b0 :: l1 /\ decode l = Stray b0 :: decode l1).
Proof.
  destruct l as [|b0 l1]; [now left|right].
  pose proof (decode_eq (b0 :: l1)) as E. cbv beta iota in E.
  destruct (b0 <? 0x80) eqn:E0; [left; now exists b0, l1|right].
  destruct l1 as [|b1 l2];
    [do 3 right; now exists b0, []|].
  destruct (wellFormed2 b0 b1) eqn:E2; [left; now exists b0, b1, l2|right].
  destruct l2 as [|b2 l3];
    [do 2 right; now exists b0, [b1]|].
  destruct (wellFormed3 b0 b1 b2) eqn:E3;
    [left; now exists b0, b1, b2, l3|right].
  destruct l3 as [|b3 l4];
    [right; now exists b0, [b1; b2]|].
  destruct (wellFormed4 b0 b1 b2 b3) eqn:E4;
    [left; now exists b0, b1, b2, b3, l4|right].
  now exists b0, (b1 :: b2 :: b3 :: l4).
Qed.

Lemma decode1 (b0 : Z) (l : list Z) :
  (b0 <? 0x80) = true -> decode (b0 :: l) = Scalar b0 :: decode l.
Proof. intros H. rewrite decode_eq. now rewrite H. Qed.

Lemma decode2 (b0 b1 : Z) (l : list Z) :
  wellFormed2 b0 b1 = true ->
  decode (b0 :: b1 :: l) = Scalar (scalar2 b0 b1) :: decode l.
Proof.
  intros H. rewrite decode_eq. rewrite H.
  replace (b0 <? 0x80) with false; [reflexivity|].
  symmetry. apply Z.ltb_ge. unfold wellFormed2 in H. bools. lia.
Qed.

Lemma decode3 (b0 b1 b2 : Z) (l : list Z) :
  wellFormed3 b0 b1 b2 = true ->
  decode (b0 :: b1 :: b2 :: l) = Scalar (scalar3 b0 b1 b2) :: decode l.
Proof.
  intros H. rewrite decode_eq. rewrite H.
  assert (Hlead : 0xE0 <= b0) by (unfold wellFormed3 in H; bools; lia).
  replace (b0 <? 0x80) with false by (symmetry; apply Z.ltb_ge; lia).
  replace (wellFormed2 b0 b1) with false; [reflexivity|].
  symmetry. unfold wellFormed2.
  replace (b0 <=? 0xDF) with false by (symmetry; apply Z.leb_gt; lia).
  now rewrite andb_false_r.
Qed.

Lemma decode4 (b0 b1 b2 b3 : Z) (l : list Z) :
  wellFormed4 b0 b1 b2 b3 = true ->
  decode (b0 :: b1 :: b2 :: b3 :: l)
  = Scalar (scalar4 b0 b1 b2 b3) :: decode l.
Proof.
  intros H. rewrite decode_eq. rewrite H.
  assert (Hlead : 0xF0 <= b0) by (unfold wellFormed4 in H; bools; lia).
  replace (b0 <? 0x80) with false by (symmetry; apply Z.ltb_ge; lia).
  replace (wellFormed2 b0 b1) with false.
  - replace (wellFormed3 b0 b1 b2) with false; [reflexivity|].
    symmetry. unfold wellFormed3.
    replace (b0 <=? 0xEF) with false by (symmetry; apply Z.leb_gt; lia).
    now rewrite andb_false_r.
  - symmetry. unfold wellFormed2.
    replace (b0 <=? 0xDF) with false by (symmetry; apply Z.leb_gt; lia).
    now rewrite andb_false_r.
Qed.

(** A well-formed sequence does not begin with a continuation byte. *)
Lemma lead_byte (b : Z) (l : list Z) :
  forallb isScalar (decode (b :: l)) = true -> continuation b = false.
Proof.
  intros H. unfold continuation.
  destruct (decode_cases (b :: l))
    as [E|[(b0 & l1 & E & W & D)|[(b0 & b1 & l2 & E & W & D)
       |[(b0 & b1 & b2 & l3 & E & W & D)
        |[(b0 & b1 & b2 & b3 & l4 & E & W & D)|(b0 & l1 & E & D)]]]]];
    try discriminate E; injection E as -> El.
  - bools. replace (0x80 <=? b0) with false; [reflexivity|].
    symmetry. apply Z.leb_gt. lia.
  - unfold wellFormed2 in W. bools.
    replace (b0 <=? 0xBF) with false; [apply andb_false_r|].
    symmetry. apply Z.leb_gt. lia.
  - unfold wellFormed3 in W. bools.
    replace (b0 <=? 0xBF) with false; [apply andb_false_r|].
    symmetry. apply Z.leb_gt. lia.
  - unfold wellFormed4 in W. bools.
    replace (b0 <=? 0xBF) with false; [apply andb_false_r|].
    symmetry. apply Z.leb_gt. lia.
  - rewrite D in H. discriminate H.
Qed.

(** Well-formed bytes end where a code point ends: what follows them is
    decoded on its own. *)
Lemma decode_app (t : list Z) :
  forall q : list Z,
    forallb isScalar (decode t) = true ->
    decode (t ++ q) = (decode t ++ decode q)%list.
Proof.
  remember (List.length t) as n eqn:Hn. revert t Hn.
  induction n as [n IH] using lt_wf_ind. intros t Hn q H.
  destruct (decode_cases t)
    as [E|[(b0 & l1 & E & W & D)|[(b0 & b1 & l2 & E & W & D)
       |[(b0 & b1 & b2 & l3 & E & W & D)
        |[(b0 & b1 & b2 & b3 & l4 & E & W & D)|(b0 & l1 & E & D)]]]]];
    [subst t; reflexivity|..]; rewrite D in H; try discriminate H; subst t.
  - rewrite D. cbn [List.app]. rewrite (decode1 _ _ W). f_equal.
    apply (IH (List.length l1)); [subst n; simpl; lia|reflexivity|exact H].
  - rewrite D. cbn [List.app]. rewrite (decode2 _ _ _ W). f_equal.
    apply (IH (List.length l2)); [subst n; simpl; lia|reflexivity|exact H].
  - rewrite D. cbn [List.app]. rewrite (decode3 _ _ _ _ W). f_equal.
    apply (IH (List.length l3)); [subst n; simpl; lia|reflexivity|exact H].
  - rewrite D. cbn [List.app]. rewrite (decode4 _ _ _ _ _ W). f_equal.
    apply (IH (List.length l4)); [subst n; simpl; lia|reflexivity|exact H].
Qed.

(** UTF-8 is self-synchronising: in well-formed bytes, a part that does not
    begin with a continuation byte begins where a code point begins. *)
Lemma decode_sync (p : list Z) :
  forall r : list Z,
    forallb isScalar (decode (p ++ r)) = true ->
    match r with
    | [] => True
    | b :: _ => continuation b = false
    end ->
    decode (p ++ r) = (decode p ++ decode r)%list.
Proof.
  remember (List.length p) as n eqn:Hn. revert p Hn.
  induction n as [n IH] using lt_wf_ind. intros p Hn r H Hr.
  destruct p as [|p0 p1]; [reflexivity|].
  assert (Hcont : forall b l, r = b :: l -> continuation b = true -> False).
  { intros b l -> Hb. rewrite Hb in Hr. discriminate Hr. }
  destruct (decode_cases ((p0 :: p1) ++ r))
    as [E|[(b0 & l1 & E & W & D)|[(b0 & b1 & l2 & E & W & D)
       |[(b0 & b1 & b2 & l3 & E & W & D)
        |[(b0 & b1 & b2 & b3 & l4 & E & W & D)|(b0 & l1 & E & D)]]]]];
    [discriminate E|..]; rewrite D in H; try discriminate H;
    rewrite D; clear D; cbn [List.app] in E; injection E as -> E.
  - subst l1. rewrite (decode1 _ _ W). cbn [List.app]. f_equal.
    apply (IH (List.length p1)); [subst n; simpl; lia|reflexivity|exact H
                                 |exact Hr].
  - destruct p1 as [|p1 p2]; cbn [List.app] in E.
    + exfalso. apply (Hcont b1 l2 E). unfold wellFormed2 in W.
      now apply andb_prop in W.
    + injection E as -> E. subst l2. rewrite (decode2 _ _ _ W).
      cbn [List.app]. f_equal.
      apply (IH (List.length p2)); [subst n; simpl; lia|reflexivity|exact H
                                   |exact Hr].
  - assert (C1 : continuation b1 = true /\ continuation b2 = true).
    { unfold wellFormed3 in W.
      repeat (apply andb_prop in W; destruct W as [W ?]). now split. }
    destruct C1 as [C1 C2].
    destruct p1 as [|p1 [|p2 p3]]; cbn [List.app] in E.
    + exfalso. apply (Hcont b1 (b2 :: l3) E C1).
    + injection E as -> E. exfalso. apply (Hcont b2 l3 E C2).
    + injection E as -> -> E. subst l3. rewrite (decode3 _ _ _ _ W).
      cbn [List.app]. f_equal.
      apply (IH (List.length p3)); [subst n; simpl; lia|reflexivity|exact H
                                   |exact Hr].
  - assert (C1 : continuation b1 = true /\ continuation b2 = true
                 /\ continuation b3 = true).
    { unfold wellFormed4 in W.
      repeat (apply andb_prop in W; destruct W as [W ?]). now repeat split. }
    destruct C1 as (C1 & C2 & C3).
    destruct p1 as [|p1 [|p2 [|p3 p4]]]; cbn [List.app] in E.
    + exfalso. apply (Hcont b1 (b2 :: b3 :: l4) E C1).
    + injection E as -> E. exfalso. apply (Hcont b2 (b3 :: l4) E C2).
    + injection E as -> -> E. exfalso. apply (Hcont b3 l4 E C3).
    + injection E as -> -> -> E. subst l4. rewrite (decode4 _ _ _ _ _ W).
      cbn [List.app]. f_equal.
      apply (IH (List.length p4)); [subst n; simpl; lia|reflexivity|exact H
                                   |exact Hr].
Qed.

(** The code points of a text found inside another are found inside the
    code points of the other. *)
Lemma decode_inside (p t q : list Z) :
  forallb isScalar (decode (p ++ t ++ q)) = true ->
  forallb isScalar (decode t) = true ->
  t <> [] ->
  decode (p ++ t ++ q) = (decode p ++ decode t ++ decode q)%list.
Proof.
  intros H Ht Hne. rewrite (decode_sync p (t ++ q) H).
  - now rewrite (decode_app t q Ht).
  - destruct t as [|b t]; [contradiction|]. cbn [List.app].
    apply (lead_byte b t Ht).
Qed.

(** *** Lower case *)

Lemma lowerUnit_plain (before after : list codeUnit) (u : codeUnit) :
  isCapitalSigma u = false -> lowerUnit before u after = lowerUnit [] u [].
Proof.
  intros H. destruct u as [c|b]; [|reflexivity].
  unfold lowerUnit. simpl in H. now rewrite H.
Qed.

(** Code units without a capital sigma are lower-cased one by one, whatever
    surrounds them. *)
Lemma lowerFrom_plain (t : list codeUnit) :
  existsb isCapitalSigma t = false ->
  forall before after : list codeUnit,
    lowerFrom before (t ++ after)
    = (flat_map (fun u => lowerUnit [] u []) t
       ++ lowerFrom (rev t ++ before) after)%list.
Proof.
  induction t as [|u t IH]; intros H before after; [reflexivity|].
  cbn [existsb] in H. apply orb_false_elim in H. destruct H as [Hu Ht].
  cbn [List.app lowerFrom flat_map rev].
  rewrite (lowerUnit_plain _ _ _ Hu), (IH Ht), <- !app_assoc.
  reflexivity.
Qed.

Lemma lowerFrom_app (a : list codeUnit) :
  forall before after : list codeUnit,
    exists lowered,
      lowerFrom before (a ++ after)
      = (lowered ++ lowerFrom (rev a ++ before) after)%list.
Proof.
  induction a as [|u a IH]; intros before after; [now exists []|].
  destruct (IH (u :: before) after) as [lowered E].
  exists (lowerUnit before u (a ++ after) ++ lowered)%list.
  cbn [List.app lowerFrom rev]. rewrite E, <- !app_assoc. reflexivity.
Qed.

(** Lower-casing keeps the place of a text without a capital sigma: when
    [s] contains [t], the lower case of [s] contains the lower case of
    [t]. *)
Lemma includes_toLowerCase (s t : string) :
  wellFormed s = true -> wellFormed t = true ->
  hasCapitalSigma t = false ->
  includes s t = true -> includes (toLowerCase s) (toLowerCase t) = true.
Proof.
  intros Hs Ht Hsigma Hinc.
  destruct t as [|c t'] eqn:Et.
  { rewrite includes_eq. now destruct (toLowerCase s). }
  rewrite <- Et in *.
  destruct (includes_split s t Hinc) as (p & q & ->).
  unfold wellFormed in Hs, Ht. unfold hasCapitalSigma in Hsigma.
  unfold toLowerCase. rewrite !bytes_app in Hs |- *.
  rewrite (decode_inside _ _ _ Hs Ht) by (rewrite Et; discriminate).
  destruct (lowerFrom_app (decode (bytes p)) []
              (decode (bytes t) ++ decode (bytes q))%list) as [lowered ->].
  rewrite (lowerFrom_plain _ Hsigma).
  pose proof (lowerFrom_plain _ Hsigma [] []) as E.
  rewrite app_nil_r in E. cbn [lowerFrom] in E. rewrite app_nil_r in E.
  rewrite E. unfold encode. rewrite !flat_map_app, !fromBytes_app.
  apply includes_app.
Qed.

End SearchFacts.

(** X4.  The keyword search loses no verbatim match, unless the typed text
    has a capital sigma: when an entry is in the list and its bean name or
    its origin contains the typed text as it is typed, the entry is still in
    the list after the text is entered as search term (a text that does not
    trim to the empty string and has no capital sigma).  The capital sigma
    is the exception because its lower case depends on the letters around
    it. *)
Theorem search_keeps_verbatim_match
    (entries : list CoffeeEntry) (f : EntriesPage.filters) (term : string)
    (e : CoffeeEntry) (text : string) :
  JsString.trim term <> "" ->
  wellFormed term = true -> hasCapitalSigma term = false ->
  In e (EntriesPage.filteredEntries entries f) ->
  bean_name e = Some text \/ bean_origin e = Some text ->
  wellFormed text = true ->
  JsString.includes text term = true ->
  In e (EntriesPage.filteredEntries entries
          (EntriesView.setSearchTerm f term)).
Proof.
  intros Hterm Hwf Hsigma Hin Hfield Htext Hinc.
  pose proof (filteredEntries_perm f entries) as Hp.
  apply (Permutation_in _ Hp) in Hin. apply filter_In in Hin.
  destruct Hin as [Hin Hall].
  apply (Permutation_in _
           (Permutation_sym
              (filteredEntries_perm (EntriesView.setSearchTerm f term)
                 entries))).
  apply filter_In. split; [exact Hin|].
  unfold EntriesPage.matchesAll in Hall |- *.
  repeat (apply andb_prop in Hall; destruct Hall as [Hall ?]).
  repeat (apply andb_true_intro; split); try assumption.
  unfold EntriesPage.stageMatch.
  cbn [EntriesPage.searchTerm EntriesView.setSearchTerm].
  apply String.eqb_neq in Hterm. rewrite Hterm. cbn [negb].
  unfold EntriesPage.keywordMatch, EntriesPage.fieldIncludes.
  apply (includes_toLowerCase _ _ Htext Hwf Hsigma) in Hinc.
  destruct Hfield as [-> | ->]; rewrite Hinc; [reflexivity|].
  apply orb_true_r.
Qed.

Lemma search_keeps_verbatim_match_witness :
  In Samples.january
    (EntriesPage.filteredEntries
       [Samples.march; Samples.february; Samples.january]
       (EntriesView.setSearchTerm (Samples.reset EntriesPage.SortDate)
          "Yirga")).
Proof.
  apply (search_keeps_verbatim_match _ _ "Yirga" Samples.january
           "Yirgacheffe").
  - vm_compute. discriminate.
  - vm_compute. reflexivity.
  - vm_compute. reflexivity.
  - vm_compute. tauto.
  - left. reflexivity.
  - vm_compute. reflexivity.
  - vm_compute. reflexivity.
Defined.

(** What the search lists has the typed text in its bean name or its
    origin, up to case; an entry without either is not listed. *)
Lemma search_lists_matches
    (entries : list CoffeeEntry) (f : EntriesPage.filters) (term : string)
    (e : CoffeeEntry) :
  JsString.trim term <> "" ->
  In e (EntriesPage.filteredEntries entries
          (EntriesView.setSearchTerm f term)) ->
  exists text,
    (bean_name e = Some text \/ bean_origin e = Some text)
    /\ JsString.includes (JsString.toLowerCase text)
         (JsString.toLowerCase term) = true.
Proof.
  intros Hterm Hin.
  apply (Permutation_in _ (filteredEntries_perm _ entries)) in Hin.
  apply filter_In in Hin. destruct Hin as [_ Hall].
  unfold EntriesPage.matchesAll in Hall.
  repeat (apply andb_prop in Hall; destruct Hall as [Hall ?]).
  unfold EntriesPage.stageMatch in Hall.
  cbn [EntriesPage.searchTerm EntriesView.setSearchTerm] in Hall.
  apply String.eqb_neq in Hterm. rewrite Hterm in Hall. cbn [negb] in Hall.
  unfold EntriesPage.keywordMatch, EntriesPage.fieldIncludes in Hall.
  apply orb_prop in Hall. destruct Hall as [Hall|Hall].
  - destruct (bean_name e) as [text|]; [|discriminate Hall].
    exists text. split; [now left|exact Hall].
  - destruct (bean_origin e) as [text|]; [|discriminate Hall].
    exists text. split; [now right|exact Hall].
Qed.

(** The exception is real: Α followed by a final Σ is lower-cased to ας,
    the typed Σ to σ, and the entry is not found. *)
Example search_final_sigma :
  JsString.includes "ΑΣ" "Σ" = true
  /\ EntriesPage.filteredEntries
       [Samples.entry "ΑΣ" None None None 5 (JsDate.make 2024 0 1)]
       (EntriesView.setSearchTerm EntriesView.resetFilters "Σ")
     = [].
Proof. vm_compute. split; reflexivity. Qed.

(** ** What the entries page shows *)

Section EntriesViewFacts.
Import EntriesPage EntriesView.

Lemma noFilters_reset : noFilters resetFilters.
Proof. repeat split. Qed.

Lemma reset_perm (l : list CoffeeEntry) :
  Permutation (filteredEntries l resetFilters) l.
Proof.
  pose proof (filteredEntries_perm resetFilters l) as H.
  now rewrite (noFilters_keeps_all _ l noFilters_reset) in H.
Qed.

Lemma reset_sorted (l : list CoffeeEntry) :
  StronglySorted (JsArray.notBelow created_at)
    (filteredEntries l resetFilters).
Proof.
  rewrite filteredEntries_sorted_filter. unfold sortResult. simpl.
  apply (sort_descending created_at).
Qed.

Lemma strictEq_true (v : option string) (s : string) :
  strictEq v s = true <-> v = Some s.
Proof.
  destruct v as [x|]; simpl.
  - rewrite String.eqb_eq. split; [now intros -> | now intros [= ->]].
  - split; discriminate.
Qed.

(** With one equality filter set and nothing else, the list holds the
    entries with that value. *)
Lemma only_origin (l : list CoffeeEntry) (o : string) (e : CoffeeEntry) :
  o <> "" ->
  In e (filteredEntries l (setOriginFilter resetFilters o))
  <-> In e l /\ bean_origin e = Some o.
Proof.
  intros Ho.
  assert (Hm : forall x,
             matchesAll (setOriginFilter resetFilters o) x
             = strictEq (bean_origin x) o).
  { intros x. unfold matchesAll, stageMatch. simpl.
    unfold JsString.nonEmpty. apply String.eqb_neq in Ho. rewrite Ho.
    simpl. now rewrite !andb_true_r. }
  pose proof (filteredEntries_perm (setOriginFilter resetFilters o) l) as H.
  rewrite (filter_ext _ _ Hm) in H. split.
  - intros Hin. apply (Permutation_in _ H) in Hin.
    apply filter_In in Hin. now rewrite strictEq_true in Hin.
  - intros Hin. apply (Permutation_in _ (Permutation_sym H)).
    apply filter_In. now rewrite strictEq_true.
Qed.

Lemma only_brewMethod (l : list CoffeeEntry) (m : string) (e : CoffeeEntry) :
  m <> "" ->
  In e (filteredEntries l (setBrewMethodFilter resetFilters m))
  <-> In e l /\ brew_method e = Some m.
Proof.
  intros Hm0.
  assert (Hm : forall x,
             matchesAll (setBrewMethodFilter resetFilters m) x
             = strictEq (brew_method x) m).
  { intros x. unfold matchesAll, stageMatch. simpl.
    unfold JsString.nonEmpty. apply String.eqb_neq in Hm0. rewrite Hm0.
    simpl. now rewrite !andb_true_r. }
  pose proof (filteredEntries_perm (setBrewMethodFilter resetFilters m) l)
    as H.
  rewrite (filter_ext _ _ Hm) in H. split.
  - intros Hin. apply (Permutation_in _ H) in Hin.
    apply filter_In in Hin. now rewrite strictEq_true in Hin.
  - intros Hin. apply (Permutation_in _ (Permutation_sym H)).
    apply filter_In. now rewrite strictEq_true.
Qed.

(** A page without error that is not loading lists its non-empty state. *)
Lemma render_listing (p : page) (e : CoffeeEntry) :
  loading p = false -> error p = None -> In e (shown p) ->
  entries p <> [] ->
  render p = Listing (shown p) (List.length (shown p))
               (List.length (entries p)).
Proof.
  intros Hl He Hin Hne. unfold render. rewrite Hl, He.
  destruct (entries p); [contradiction|].
  destruct (shown p); [destruct Hin | reflexivity].
Qed.

End EntriesViewFacts.

(** X5.  Every option offered in the origin list finds something: after the
    entries are fetched, choosing an offered origin shows a non-empty list,
    which holds exactly the fetched entries of that origin; the same for the
    offered brew methods. *)
Theorem offered_option_matches
    (fetched : list CoffeeEntry) (option : string) :
  let p := fst (EntriesView.fetchEntries EntriesView.initial
                  (EntriesView.Rows (Some fetched))) in
  (In option (EntriesView.origins p) ->
   exists cards,
     EntriesView.render (EntriesView.chooseOrigin p option)
     = EntriesView.Listing cards (List.length cards) (List.length fetched)
     /\ cards <> []
     /\ forall e, In e cards <-> In e fetched /\ bean_origin e = Some option)
  /\ (In option (EntriesView.brewMethods p) ->
      exists cards,
        EntriesView.render (EntriesView.chooseBrewMethod p option)
        = EntriesView.Listing cards (List.length cards)
            (List.length fetched)
        /\ cards <> []
        /\ forall e,
            In e cards <-> In e fetched /\ brew_method e = Some option).
Proof.
  cbv zeta.
  set (p := fst (EntriesView.fetchEntries EntriesView.initial
                   (EntriesView.Rows (Some fetched)))).
  split; intros Hin; apply uniqueValues_In in Hin;
    destruct Hin as (e & He & Hfield & Htrim);
    assert (Hne : option <> "") by (intros ->; now apply Htrim).
  - exists (EntriesPage.filteredEntries fetched
              (EntriesView.setOriginFilter EntriesView.resetFilters option)).
    assert (Hin : In e (EntriesPage.filteredEntries fetched
                          (EntriesView.setOriginFilter
                             EntriesView.resetFilters option)))
      by (apply only_origin; auto).
    split; [|split].
    + apply (render_listing (EntriesView.chooseOrigin p option) e);
        try reflexivity; [exact Hin|].
      change (fetched <> []). intros ->. destruct He.
    + intros H. now rewrite H in Hin.
    + intros x. now apply only_origin.
  - exists (EntriesPage.filteredEntries fetched
              (EntriesView.setBrewMethodFilter EntriesView.resetFilters
                 option)).
    assert (Hin : In e (EntriesPage.filteredEntries fetched
                          (EntriesView.setBrewMethodFilter
                             EntriesView.resetFilters option)))
      by (apply only_brewMethod; auto).
    split; [|split].
    + apply (render_listing (EntriesView.chooseBrewMethod p option) e);
        try reflexivity; [exact Hin|].
      change (fetched <> []). intros ->. destruct He.
    + intros H. now rewrite H in Hin.
    + intros x. now apply only_brewMethod.
Qed.

Lemma offered_option_matches_witness :
  In "Ethiopia"
    (EntriesView.origins
       (fst (EntriesView.fetchEntries EntriesView.initial
               (EntriesView.Rows
                  (Some [Samples.march; Samples.february;
                         Samples.january])))))
  /\ exists cards,
      EntriesView.render
        (EntriesView.chooseOrigin
           (fst (EntriesView.fetchEntries EntriesView.initial
                   (EntriesView.Rows
                      (Some [Samples.march; Samples.february;
                             Samples.january])))) "Ethiopia")
      = EntriesView.Listing cards (List.length cards) 3
      /\ cards <> [].
Proof.
  assert (H : In "Ethiopia"
                (EntriesView.origins
                   (fst (EntriesView.fetchEntries EntriesView.initial
                           (EntriesView.Rows
                              (Some [Samples.march; Samples.february;
                                     Samples.january]))))))
    by (vm_compute; tauto).
  split; [exact H|].
  destruct (proj1 (offered_option_matches
                     [Samples.march; Samples.february; Samples.january]
                     "Ethiopia") H) as (cards & Hr & Hne & _).
  exists cards. split; [exact Hr | exact Hne].
Defined.

(** X6.  A click on a reset button never ends in the notice that no record
    matches: the page then lists every entry, newest first, and counts as
    many displayed as there are in all. *)
Theorem reset_shows_everything (p : EntriesView.page) :
  (forall total,
      EntriesView.render (EntriesView.clickReset p)
      <> EntriesView.NoMatches total)
  /\ (forall cards displayed total,
         EntriesView.render (EntriesView.clickReset p)
         = EntriesView.Listing cards displayed total ->
         displayed = total
         /\ Permutation cards (EntriesView.entries p)
         /\ StronglySorted (JsArray.notBelow created_at) cards).
Proof.
  pose proof (reset_perm (EntriesView.entries p)) as Hperm.
  pose proof (reset_sorted (EntriesView.entries p)) as Hsorted.
  unfold EntriesView.render, EntriesView.clickReset. simpl.
  set (l := EntriesPage.filteredEntries (EntriesView.entries p)
              EntriesView.resetFilters) in *.
  assert (Hbody :
            forall v,
              v = match EntriesView.entries p with
                  | [] => EntriesView.NoEntries
                  | _ :: _ =>
                      match l with
                      | [] => EntriesView.NoMatches
                                (List.length (EntriesView.entries p))
                      | _ :: _ =>
                          EntriesView.Listing l (List.length l)
                            (List.length (EntriesView.entries p))
                      end
                  end ->
              (forall total, v <> EntriesView.NoMatches total)
              /\ (forall cards displayed total,
                     v = EntriesView.Listing cards displayed total ->
                     displayed = total
                     /\ Permutation cards (EntriesView.entries p)
                     /\ StronglySorted (JsArray.notBelow created_at) cards)).
  { intros v ->. destruct (EntriesView.entries p) as [|e es] eqn:E.
    - split; [discriminate | discriminate].
    - destruct l as [|c cs] eqn:El.
      + apply Permutation_nil in Hperm. discriminate Hperm.
      + split; [discriminate|]. intros cards d t [= <- <- <-].
        split; [|split; assumption].
        apply Permutation_length in Hperm. exact Hperm. }
  destruct (EntriesView.loading p).
  - split; discriminate.
  - destruct (EntriesView.error p) as [m|].
    + destruct (JsString.nonEmpty m).
      * split; discriminate.
      * apply Hbody. reflexivity.
    + apply Hbody. reflexivity.
Qed.

(** ** Counting into an object, key by key *)

Section GroupCounts.
Import JsObject DashboardPage.

Lemma plain_not_proto (k : string) :
  inPrototype k = false -> (k =? "__proto__")%string = false.
Proof.
  intros H. destruct (String.eqb_spec k "__proto__") as [->|]; [|reflexivity].
  discriminate H.
Qed.

Lemma own_None_keys (o : object) (k : string) :
  own o k = None <-> ~ In k (map fst o).
Proof.
  induction o as [|[k' v] o IH]; simpl.
  - tauto.
  - destruct (String.eqb_spec k' k) as [->|Hne].
    + split; [discriminate | tauto].
    + rewrite IH. tauto.
Qed.

Lemma own_app_new (o : object) (k : string) (v : value) :
  own o k = None -> own (o ++ [(k, v)])%list k = Some v.
Proof.
  induction o as [|[k' v'] o IH]; simpl.
  - now rewrite String.eqb_refl.
  - destruct (k' =? k)%string; [discriminate | exact IH].
Qed.

Lemma own_app_other (o : object) (k k' : string) (v : value) :
  k' <> k -> own (o ++ [(k, v)])%list k' = own o k'.
Proof.
  intros Hne. induction o as [|[k0 v0] o IH]; simpl.
  - destruct (String.eqb_spec k k'); [now subst | reflexivity].
  - now rewrite IH.
Qed.

Lemma own_replace_same (o : object) (k : string) (v : value) :
  own o k <> None -> own (replace o k v) k = Some v.
Proof.
  induction o as [|[k' v'] o IH]; simpl.
  - tauto.
  - destruct (String.eqb_spec k' k) as [->|Hne]; simpl.
    + now rewrite String.eqb_refl.
    + intros H. destruct (String.eqb_spec k' k); [contradiction|].
      exact (IH H).
Qed.

Lemma own_replace_other (o : object) (k k' : string) (v : value) :
  k' <> k -> own (replace o k v) k' = own o k'.
Proof.
  intros Hne. induction o as [|[k0 v0] o IH]; simpl.
  - reflexivity.
  - destruct (String.eqb_spec k0 k) as [->|H0]; simpl.
    + destruct (String.eqb_spec k k'); [now subst | reflexivity].
    + now rewrite IH.
Qed.

Lemma keys_replace (o : object) (k : string) (v : value) :
  map fst (replace o k v) = map fst o.
Proof.
  induction o as [|[k' v'] o IH]; simpl.
  - reflexivity.
  - destruct (k' =? k)%string; simpl; [reflexivity | now rewrite IH].
Qed.

Lemma replace_app_new (o : object) (k : string) (v v' : value) :
  own o k = None ->
  replace (o ++ [(k, v)])%list k v' = (o ++ [(k, v')])%list.
Proof.
  induction o as [|[k0 v0] o IH]; simpl.
  - now rewrite String.eqb_refl.
  - destruct (k0 =? k)%string; [discriminate|].
    intros H. now rewrite (IH H).
Qed.

(** [o[k] = v] for a key that [Object.prototype] does not have. *)
Lemma own_set_same (o : object) (k : string) (v : value) :
  inPrototype k = false -> own (set o k v) k = Some v.
Proof.
  intros Hp. unfold set. destruct (own o k) eqn:E.
  - apply own_replace_same. now rewrite E.
  - rewrite (plain_not_proto k Hp). now apply own_app_new.
Qed.

Lemma own_set_other (o : object) (k k' : string) (v : value) :
  k' <> k -> own (set o k v) k' = own o k'.
Proof.
  intros Hne. unfold set. destruct (own o k).
  - now apply own_replace_other.
  - destruct (k =? "__proto__")%string; [reflexivity|].
    now apply own_app_other.
Qed.

Lemma keys_set_NoDup (o : object) (k : string) (v : value) :
  NoDup (map fst o) -> NoDup (map fst (set o k v)).
Proof.
  intros H. unfold set. destruct (own o k) eqn:E.
  - now rewrite keys_replace.
  - destruct (k =? "__proto__")%string; [exact H|].
    rewrite map_app. simpl. apply own_None_keys in E.
    apply NoDup_app; [exact H | repeat constructor; simpl; tauto |].
    intros y Hy [<-|[]]. contradiction.
Qed.

Lemma own_In (o : object) (k : string) (v : value) :
  NoDup (map fst o) -> (In (k, v) o <-> own o k = Some v).
Proof.
  induction o as [|[k' v'] o IH]; simpl; intros Hnd.
  - split; [tauto | discriminate].
  - inversion Hnd as [|? ? Hk' Hnd']; subst.
    destruct (String.eqb_spec k' k) as [->|Hne].
    + split.
      * intros [[= ->]|Hin]; [reflexivity|].
        exfalso. apply Hk'. apply in_map_iff. now exists (k, v).
      * intros [= ->]. now left.
    + rewrite <- (IH Hnd'). split.
      * intros [[= -> _]|Hin]; [contradiction | exact Hin].
      * tauto.
Qed.

Variable field : CoffeeEntry -> option string.

Lemma occurrences_snoc (k : string) (es : list CoffeeEntry)
    (e : CoffeeEntry) :
  occurrences field k (es ++ [e])
  = occurrences field k es + (if strictEq (field e) k then 1 else 0).
Proof.
  unfold occurrences. rewrite filter_app, length_app. simpl.
  destruct (strictEq (field e) k); simpl List.length; lia.
Qed.

Lemma occurrences_nonneg (k : string) (es : list CoffeeEntry) :
  0 <= occurrences field k es.
Proof. unfold occurrences. lia. Qed.

Lemma strictEq_Some (k k' : string) :
  strictEq (Some k) k' = (k =? k')%string.
Proof. reflexivity. Qed.

Lemma countStep_counted (o : object) (es : list CoffeeEntry)
    (e : CoffeeEntry) :
  plainField field e -> counted field o es ->
  counted field (countStep field o e) (es ++ [e]).
Proof.
  intros Hplain [Hnd Hown]. unfold countStep, plainField in *.
  destruct (field e) as [k0|] eqn:Hf.
  - destruct (JsString.nonEmpty k0) eqn:Hne.
    + split; [now apply keys_set_NoDup|]. intros k.
      rewrite occurrences_snoc, Hf, strictEq_Some.
      pose proof (occurrences_nonneg k es) as Hpos.
      destruct (String.eqb_spec k0 k) as [->|Hk].
      * rewrite own_set_same by exact Hplain. rewrite Hne. simpl.
        destruct (Z.ltb_spec 0 (occurrences field k es + 1)); [|lia].
        f_equal. unfold get. rewrite Hown, Hne. simpl.
        destruct (Z.ltb_spec 0 (occurrences field k es)).
        -- simpl. destruct (Z.eqb_spec (occurrences field k es) 0);
             [lia | reflexivity].
        -- rewrite Hplain. simpl. f_equal. lia.
      * rewrite own_set_other by congruence. rewrite Hown, Z.add_0_r.
        reflexivity.
    + split; [exact Hnd|]. intros k.
      rewrite occurrences_snoc, Hf, strictEq_Some, Hown.
      destruct (String.eqb_spec k0 k) as [->|Hk].
      * now rewrite Hne.
      * now rewrite Z.add_0_r.
  - split; [exact Hnd|]. intros k.
    rewrite occurrences_snoc, Hf, Hown. simpl. now rewrite Z.add_0_r.
Qed.

Lemma countBy_snoc (es : list CoffeeEntry) (e : CoffeeEntry) :
  countBy field (es ++ [e]) = countStep field (countBy field es) e.
Proof. unfold countBy. now rewrite fold_left_app. Qed.

Lemma countBy_counted (es : list CoffeeEntry) :
  Forall (plainField field) es -> counted field (countBy field es) es.
Proof.
  induction es as [|e es IH] using rev_ind; intros H.
  - split; [apply NoDup_nil|]. intros k.
    change (occurrences field k []) with 0. simpl.
    now rewrite andb_false_r.
  - apply Forall_app in H. destruct H as [Hes He].
    inversion He; subst. rewrite countBy_snoc.
    apply countStep_counted; [assumption | now apply IH].
Qed.

End GroupCounts.

(** ** The groups in descending order of their size *)

Section SortedGroups.
Import JsObject DashboardPage CoffeeTrends.

Lemma insert_ext_in {A : Type} (cmp cmp' : A -> A -> Z) (x : A)
    (l : list A) :
  (forall y, In y l -> cmp x y = cmp' x y) ->
  JsArray.insert cmp x l = JsArray.insert cmp' x l.
Proof.
  induction l as [|y l IH]; intros H; simpl.
  - reflexivity.
  - rewrite (H y (or_introl eq_refl)), IH; [reflexivity|].
    intros z Hz. apply H. now right.
Qed.

(** Two comparators that agree on the elements of an array sort it alike. *)
Lemma sort_ext_in {A : Type} (cmp cmp' : A -> A -> Z) (l : list A) :
  (forall x y, In x l -> In y l -> cmp x y = cmp' x y) ->
  JsArray.sort cmp l = JsArray.sort cmp' l.
Proof.
  induction l as [|x l IH]; intros H.
  - reflexivity.
  - change (JsArray.insert cmp x (JsArray.sort cmp l)
            = JsArray.insert cmp' x (JsArray.sort cmp' l)).
    rewrite IH by (intros; apply H; now right).
    apply insert_ext_in. intros y Hy. apply H; [now left|].
    right. apply (Permutation_in _ (sort_perm cmp' l)), Hy.
Qed.

(** [Object.entries] lists every own property once. *)
Lemma entries_perm (o : object) : Permutation (JsObject.entries o) o.
Proof.
  unfold JsObject.entries.
  apply perm_trans with (map snd (indexed o) ++ named o)%list.
  - apply Permutation_app_tail, Permutation_map, sort_perm.
  - unfold indexed, named. induction o as [|p o IH]; simpl.
    + constructor.
    + destruct (arrayIndex (fst p)); simpl.
      * now apply perm_skip.
      * apply Permutation_sym, Permutation_cons_app, Permutation_sym, IH.
Qed.

Lemma StronglySorted_app_inv {A : Type} (R : A -> A -> Prop)
    (l1 l2 : list A) :
  StronglySorted R (l1 ++ l2) ->
  StronglySorted R l1 /\ forall x y, In x l1 -> In y l2 -> R x y.
Proof.
  induction l1 as [|a l1 IH]; simpl; intros H.
  - split; [constructor | tauto].
  - apply StronglySorted_inv in H. destruct H as [Hs Hall].
    destruct (IH Hs) as [H1 H12]. rewrite Forall_forall in Hall. split.
    + constructor; [exact H1|]. apply Forall_forall. intros y Hy.
      apply Hall, in_or_app. now left.
    + intros x y [<-|Hx] Hy.
      * apply Hall, in_or_app. now right.
      * now apply H12.
Qed.

Lemma StronglySorted_map {A B : Type} (R : B -> B -> Prop) (g : A -> B)
    (l : list A) :
  StronglySorted (fun a b => R (g a) (g b)) l -> StronglySorted R (map g l).
Proof.
  induction 1 as [|a l Hs IH Hall]; simpl; constructor.
  - exact IH.
  - apply Forall_forall. intros y Hy. apply in_map_iff in Hy.
    destruct Hy as (b & <- & Hb). rewrite Forall_forall in Hall.
    now apply Hall.
Qed.

Variable field : CoffeeEntry -> option string.
Variable es : list CoffeeEntry.
Variable o : object.
Hypothesis Hcounted : counted field o es.

(** What the counter object holds. *)
Lemma counted_In (k : string) (v : value) :
  In (k, v) o ->
  v = Num (occurrences field k es) /\ 1 <= occurrences field k es
  /\ k <> "".
Proof.
  destruct Hcounted as [Hnd Hown]. intros Hin.
  apply (own_In o k v Hnd) in Hin. rewrite Hown in Hin.
  destruct (JsString.nonEmpty k) eqn:Hne; [|discriminate Hin].
  destruct (Z.ltb_spec 0 (occurrences field k es)); [|discriminate Hin].
  simpl in Hin. inversion Hin. split; [reflexivity|]. split; [lia|].
  intros ->. discriminate Hne.
Qed.

Lemma counted_present (k : string) :
  k <> "" -> 0 < occurrences field k es ->
  In (k, Num (occurrences field k es)) o.
Proof.
  destruct Hcounted as [Hnd Hown]. intros Hk Hpos.
  apply (own_In o k _ Hnd). rewrite Hown.
  apply String.eqb_neq in Hk. unfold JsString.nonEmpty. rewrite Hk.
  apply Z.ltb_lt in Hpos. now rewrite Hpos.
Qed.

(** The groups as [sort((a, b) => b[1] - a[1])] leaves them. *)
Let sorted : list (string * value) :=
  JsArray.sort (fun a b => difference (snd b) (snd a)) (JsObject.entries o).

Let size (p : string * value) : Z := occurrences field (fst p) es.

Lemma sorted_perm : Permutation sorted o.
Proof.
  unfold sorted. eapply perm_trans; [apply sort_perm | apply entries_perm].
Qed.

Lemma sorted_In (p : string * value) :
  In p sorted ->
  snd p = Num (size p) /\ 1 <= size p /\ fst p <> "".
Proof.
  intros H. apply (Permutation_in _ sorted_perm) in H.
  destruct p as [k v]. apply counted_In in H. exact H.
Qed.

Lemma sorted_by_size : StronglySorted (JsArray.notBelow size) sorted.
Proof.
  assert (Heq : sorted
                = JsArray.sort (JsArray.descending size)
                    (JsObject.entries o)).
  { unfold sorted. apply sort_ext_in. intros x y Hx Hy.
    apply (Permutation_in _ (entries_perm o)) in Hx, Hy.
    destruct x as [kx vx], y as [ky vy].
    apply counted_In in Hx, Hy. destruct Hx as [-> _], Hy as [-> _].
    reflexivity. }
  rewrite Heq. apply sort_descending.
Qed.

Lemma sorted_keys_NoDup : NoDup (map fst sorted).
Proof.
  destruct Hcounted as [Hnd _].
  apply (Permutation_NoDup (Permutation_map fst (Permutation_sym sorted_perm))).
  exact Hnd.
Qed.

(** The first group is a largest one. *)
Lemma sorted_head (p : string * value) (rest : list (string * value)) :
  sorted = p :: rest ->
  forall k : string, k <> "" ->
    occurrences field k es <= occurrences field (fst p) es.
Proof.
  intros Hs k Hk.
  assert (Hp : In p sorted) by (rewrite Hs; now left).
  apply sorted_In in Hp. destruct Hp as (_ & Hp & _). unfold size in Hp.
  destruct (Z.ltb_spec 0 (occurrences field k es)) as [Hpos|]; [|lia].
  pose proof (counted_present k Hk Hpos) as Hin.
  apply (Permutation_in _ (Permutation_sym sorted_perm)) in Hin.
  pose proof sorted_by_size as Hsorted. rewrite Hs in Hin, Hsorted.
  apply StronglySorted_inv in Hsorted. destruct Hsorted as [_ Hall].
  destruct Hin as [->|Hin]; [simpl; lia|].
  rewrite Forall_forall in Hall. apply (Hall _ Hin).
Qed.

Lemma sorted_nonempty (k : string) :
  k <> "" -> 0 < occurrences field k es -> sorted <> [].
Proof.
  intros Hk Hpos Hs. pose proof (counted_present k Hk Hpos) as Hin.
  apply (Permutation_in _ (Permutation_sym sorted_perm)) in Hin.
  rewrite Hs in Hin. destruct Hin.
Qed.

(** The first five groups. *)
Lemma first_five :
  let shown := firstn 5 sorted in
  NoDup (map fst shown)
  /\ map snd shown = map (fun k => Num (occurrences field k es))
                       (map fst shown)
  /\ Forall (fun k => k <> "" /\ 1 <= occurrences field k es)
       (map fst shown)
  /\ StronglySorted
       (fun k k' => occurrences field k' es <= occurrences field k es)
       (map fst shown)
  /\ (forall k k', k' <> "" -> ~ In k' (map fst shown) ->
                   In k (map fst shown) ->
                   occurrences field k' es <= occurrences field k es).
Proof.
  intros shown.
  assert (Hsplit : sorted = (shown ++ skipn 5 sorted)%list)
    by (symmetry; apply firstn_skipn).
  assert (Hin : forall p, In p shown -> In p sorted).
  { intros p Hp. rewrite Hsplit. apply in_or_app. now left. }
  pose proof sorted_by_size as Hsorted. rewrite Hsplit in Hsorted.
  apply StronglySorted_app_inv in Hsorted. destruct Hsorted as [Hs1 Hs12].
  split; [|split; [|split; [|split]]].
  - pose proof sorted_keys_NoDup as Hnd. rewrite Hsplit, map_app in Hnd.
    now apply NoDup_app_remove_r in Hnd.
  - rewrite map_map. apply map_ext_in. intros p Hp.
    now apply Hin, sorted_In in Hp.
  - apply Forall_forall. intros k Hk. apply in_map_iff in Hk.
    destruct Hk as (p & <- & Hp). apply Hin, sorted_In in Hp. tauto.
  - apply StronglySorted_map. exact Hs1.
  - intros k k' Hk' Hout Hk. apply in_map_iff in Hk.
    destruct Hk as (p & <- & Hp).
    pose proof (sorted_In p (Hin p Hp)) as (_ & Hp1 & _). unfold size in Hp1.
    destruct (Z.ltb_spec 0 (occurrences field k' es)) as [Hpos|]; [|lia].
    pose proof (counted_present k' Hk' Hpos) as Hq.
    apply (Permutation_in _ (Permutation_sym sorted_perm)) in Hq.
    rewrite Hsplit in Hq. apply in_app_or in Hq. destruct Hq as [Hq|Hq].
    + exfalso. apply Hout. apply in_map_iff.
      now exists (k', Num (occurrences field k' es)).
    + apply (Hs12 p _ Hp Hq).
Qed.

End SortedGroups.

(** ** The brew methods of the chart and of the summary *)

Section BrewMethods.
Import JsObject DashboardPage CoffeeTrends.

(** On brew methods that [Object.prototype] does not have, the counting loop
    of the chart does what the counting loop of the summary does. *)
Lemma brewStep_countStep (o : object) (es : list CoffeeEntry)
    (e : CoffeeEntry) :
  counted brew_method o es -> plainField brew_method e ->
  brewStep o e = countStep brew_method o e.
Proof.
  intros [Hnd Hown] Hplain. unfold brewStep, countStep, plainField in *.
  destruct (brew_method e) as [m|]; [|reflexivity].
  destruct (JsString.nonEmpty m) eqn:Hne; [|reflexivity].
  pose proof (Hown m) as Hm. rewrite Hne in Hm. simpl in Hm.
  destruct (Z.ltb_spec 0 (occurrences brew_method m es)) as [Hpos|Hzero].
  - unfold get. rewrite Hm. simpl.
    destruct (Z.eqb_spec (occurrences brew_method m es) 0); [lia|].
    simpl. unfold get. rewrite Hm. reflexivity.
  - assert (Hget : get o m = Undefined)
      by (unfold get; now rewrite Hm, Hplain).
    assert (Hset : forall v, set o m v = (o ++ [(m, v)])%list)
      by (intros v; unfold set; now rewrite Hm, (plain_not_proto m Hplain)).
    rewrite Hget. simpl. rewrite !Hset.
    unfold get, set. rewrite (own_app_new o m (Num 0) Hm). simpl.
    apply replace_app_new, Hm.
Qed.

Lemma brew_counts (es : list CoffeeEntry) :
  Forall (plainField brew_method) es ->
  fold_left brewStep es [] = countBy brew_method es.
Proof.
  induction es as [|e es IH] using rev_ind; intros H.
  - reflexivity.
  - apply Forall_app in H. destruct H as [Hes He]. inversion He; subst.
    rewrite countBy_snoc, fold_left_app. simpl. rewrite (IH Hes).
    apply (brewStep_countStep _ es); [now apply countBy_counted | assumption].
Qed.

(** The most frequent value of a column, as [getStats] finds it. *)
Lemma top_largest (field : CoffeeEntry -> option string)
    (es : list CoffeeEntry) (e : CoffeeEntry) (v : string) :
  Forall (plainField field) es ->
  In e es -> field e = Some v -> v <> "" ->
  exists p,
    top (countBy field es) = Some p
    /\ 1 <= occurrences field (fst p) es
    /\ forall k, k <> "" ->
                 occurrences field k es <= occurrences field (fst p) es.
Proof.
  intros Hplain Hin Hv Hne.
  pose proof (countBy_counted field es Hplain) as Hc.
  assert (Hpos : 0 < occurrences field v es).
  { unfold occurrences.
    assert (Hf : In e (filter (fun x => strictEq (field x) v) es)).
    { apply filter_In. split; [exact Hin|]. rewrite Hv. simpl.
      apply String.eqb_refl. }
    destruct (filter _ es); [destruct Hf | simpl; lia]. }
  unfold top.
  destruct (JsArray.sort _ (JsObject.entries (countBy field es)))
    as [|p rest] eqn:Hs.
  - exfalso. exact (sorted_nonempty field es _ Hc v Hne Hpos Hs).
  - exists p. split; [reflexivity|]. split.
    + assert (Hp : In p (p :: rest)) by now left.
      rewrite <- Hs in Hp. now apply (sorted_In field es _ Hc) in Hp.
    + exact (sorted_head field es _ Hc p rest Hs).
Qed.

End BrewMethods.

(** X7.  The favourite brew method of the summary is a most frequent one:
    when some entry has a non-empty brew method, and no brew method is the
    name of a property of [Object.prototype], the reported method occurs at
    least once and no brew method occurs more often.  The same holds of the
    origins. *)
Theorem top_is_most_frequent (now : Z) (entries : list CoffeeEntry) :
  (Forall (plainField brew_method) entries ->
   (exists e m, In e entries /\ brew_method e = Some m /\ m <> "") ->
   let k := DashboardPage.topMethod (DashboardPage.getStats now entries) in
   1 <= occurrences brew_method k entries
   /\ forall m, m <> "" ->
                occurrences brew_method m entries
                <= occurrences brew_method k entries)
  /\ (Forall (plainField bean_origin) entries ->
      (exists e o, In e entries /\ bean_origin e = Some o /\ o <> "") ->
      let k := DashboardPage.topOrigin (DashboardPage.getStats now entries)
      in
      1 <= occurrences bean_origin k entries
      /\ forall o, o <> "" ->
                   occurrences bean_origin o entries
                   <= occurrences bean_origin k entries).
Proof.
  split; intros Hplain (e & v & Hin & Hv & Hne); cbv zeta;
    unfold DashboardPage.getStats; simpl.
  - destruct (top_largest brew_method entries e v Hplain Hin Hv Hne)
      as (p & -> & H). exact H.
  - destruct (top_largest bean_origin entries e v Hplain Hin Hv Hne)
      as (p & -> & H). exact H.
Qed.

Lemma top_is_most_frequent_witness :
  occurrences brew_method
    (DashboardPage.topMethod
       (DashboardPage.getStats 0
          [Samples.january; Samples.march; Samples.january]))
    [Samples.january; Samples.march; Samples.january]
  >= occurrences brew_method "French press"
       [Samples.january; Samples.march; Samples.january].
Proof.
  apply Z.le_ge.
  apply (proj1 (top_is_most_frequent 0
                  [Samples.january; Samples.march; Samples.january])).
  - repeat constructor.
  - exists Samples.january, "V60". repeat split; [now left | discriminate].
  - discriminate.
Defined.

(** X8.  The brew-method chart, when no brew method is the name of a property
    of [Object.prototype]: it has at most five bars, with distinct labels;
    each label is a non-empty brew method, and its bar is the number of
    entries with that method; the bars come in descending order; and a brew
    method that has no bar occurs no more often than any that has one. *)
Theorem brewMethodData_top_five (entries : list CoffeeEntry) :
  Forall (plainField brew_method) entries ->
  let chart := CoffeeTrends.brewMethodData entries in
  (List.length (CoffeeTrends.labels chart) <= 5)%nat
  /\ NoDup (CoffeeTrends.labels chart)
  /\ CoffeeTrends.data chart
     = map (fun k => JsObject.Num (occurrences brew_method k entries))
         (CoffeeTrends.labels chart)
  /\ Forall (fun k => k <> "" /\ 1 <= occurrences brew_method k entries)
       (CoffeeTrends.labels chart)
  /\ StronglySorted
       (fun k k' => occurrences brew_method k' entries
                    <= occurrences brew_method k entries)
       (CoffeeTrends.labels chart)
  /\ (forall k k', k' <> "" -> ~ In k' (CoffeeTrends.labels chart) ->
                   In k (CoffeeTrends.labels chart) ->
                   occurrences brew_method k' entries
                   <= occurrences brew_method k entries).
Proof.
  intros Hplain. cbv zeta. unfold CoffeeTrends.brewMethodData.
  rewrite (brew_counts entries Hplain).
  cbn [CoffeeTrends.labels CoffeeTrends.data].
  split.
  - rewrite length_map. apply firstn_le_length.
  - exact (first_five brew_method entries _
             (countBy_counted brew_method entries Hplain)).
Qed.

Lemma brewMethodData_top_five_witness :
  CoffeeTrends.data
    (CoffeeTrends.brewMethodData
       [Samples.january; Samples.march; Samples.january])
  = map (fun k =>
           JsObject.Num
             (occurrences brew_method k
                [Samples.january; Samples.march; Samples.january]))
      (CoffeeTrends.labels
         (CoffeeTrends.brewMethodData
            [Samples.january; Samples.march; Samples.january])).
Proof.
  apply (brewMethodData_top_five
           [Samples.january; Samples.march; Samples.january]).
  repeat constructor.
Defined.

(** X9.  The summary and the chart agree: when no brew method is the name of
    a property of [Object.prototype], the favourite brew method of the
    summary is the label of the first bar of the brew-method chart, and it
    is なし exactly when the chart has no bar. *)
Theorem topMethod_is_first_bar (now : Z) (entries : list CoffeeEntry) :
  Forall (plainField brew_method) entries ->
  DashboardPage.topMethod (DashboardPage.getStats now entries)
  = match CoffeeTrends.labels (CoffeeTrends.brewMethodData entries) with
    | k :: _ => k
    | [] => "なし"
    end.
Proof.
  intros Hplain.
  unfold DashboardPage.getStats, CoffeeTrends.brewMethodData,
    DashboardPage.top.
  rewrite (brew_counts entries Hplain). simpl.
  destruct (JsArray.sort _
              (JsObject.entries (DashboardPage.countBy brew_method entries)))
    as [|p rest]; reflexivity.
Qed.

Lemma topMethod_is_first_bar_witness :
  DashboardPage.topMethod
    (DashboardPage.getStats 0
       [Samples.january; Samples.march; Samples.january])
  = "V60"
  /\ CoffeeTrends.labels
       (CoffeeTrends.brewMethodData
          [Samples.january; Samples.march; Samples.january])
     = ["V60"; "French press"].
Proof.
  pose proof (topMethod_is_first_bar 0
                [Samples.january; Samples.march; Samples.january]
                ltac:(repeat constructor)) as H.
  split; [rewrite H|]; vm_compute; reflexivity.
Defined.

(** ** Averages of values within the scale *)

Section Scale.

Lemma sum_within (g : CoffeeEntry -> Z) (es : list CoffeeEntry) :
  Forall (fun e => 1 <= g e <= 5) es ->
  forall acc : Z,
    acc + Z.of_nat (List.length es)
    <= fold_left (fun sum e => sum + g e) es acc
    <= acc + 5 * Z.of_nat (List.length es).
Proof.
  induction 1 as [|e es He Hes IH]; intros acc.
  - simpl. lia.
  - cbn [fold_left]. specialize (IH (acc + g e)).
    simpl List.length. lia.
Qed.

Lemma div_between (a n : Z) :
  0 < n -> n <= a <= 5 * n -> between 1 5 (JsNumber.div a n).
Proof.
  intros Hn Ha. unfold JsNumber.div.
  destruct (Z.eqb_spec n 0); [lia|].
  exists (Qred (inject_Z a / inject_Z n)). split; [reflexivity|].
  rewrite Qred_correct.
  assert (Hpos : (0 < inject_Z n)%Q)
    by (change (inject_Z 0 < inject_Z n)%Q; rewrite <- Zlt_Qlt; lia).
  split.
  - apply Qle_shift_div_l; [exact Hpos|].
    rewrite <- inject_Z_mult, <- Zle_Qle. lia.
  - apply Qle_shift_div_r; [exact Hpos|].
    rewrite <- inject_Z_mult, <- Zle_Qle. lia.
Qed.

Lemma orOne_length (es : list CoffeeEntry) :
  es <> [] ->
  DashboardPage.orOne (Z.of_nat (List.length es))
  = Z.of_nat (List.length es)
  /\ 0 < Z.of_nat (List.length es).
Proof.
  intros H. destruct es; [contradiction|]. unfold DashboardPage.orOne.
  simpl List.length. destruct (Z.eqb_spec (Z.of_nat (S (List.length es))) 0);
    lia.
Qed.

(** A number between 1 and 5 is printed as 1.0, ..., 5.0. *)
Lemma toFixed1_between (x : JsNumber.number) :
  between 1 5 x ->
  exists n : Z,
    10 <= n <= 50
    /\ JsNumber.toFixed1 x
       = (JsDate.decimal (n / 10) ++ "." ++ JsDate.decimal (n mod 10))%string.
Proof.
  intros (q & -> & Hlo & Hhi). unfold JsNumber.toFixed1.
  assert (Habs : Qabs q == q).
  { apply Qabs_pos. apply Qle_trans with (inject_Z 1); [discriminate|].
    exact Hlo. }
  destruct q as [n d].
  cbv [Qle inject_Z Qnum Qden] in Hlo, Hhi.
  assert (Hnum : (Qnum (n # d) <? 0) = false)
    by (apply Z.ltb_ge; cbn [Qnum]; lia).
  rewrite Hnum.
  exists (Qfloor (Qabs (n # d) * inject_Z 10 + (1 # 2))).
  split; [|reflexivity].
  rewrite (Qfloor_comp _ ((n # d) * inject_Z 10 + (1 # 2)))
    by (now rewrite Habs).
  split.
  - apply Z.le_trans with (Qfloor (21 # 2)); [vm_compute; discriminate|].
    apply Qfloor_resp_le. cbv [Qle Qplus Qmult inject_Z Qnum Qden].
    rewrite ?Pos2Z.inj_mul. lia.
  - apply Z.le_trans with (Qfloor (101 # 2)); [|vm_compute; discriminate].
    apply Qfloor_resp_le. cbv [Qle Qplus Qmult inject_Z Qnum Qden].
    rewrite ?Pos2Z.inj_mul. lia.
Qed.

End Scale.

(** X10.  With at least one entry and ratings within 1..5 (the CHECK
    constraint of the table), the average rating is a number between 1 and
    5, and the summary prints it as one of 1.0, 1.1, ..., 5.0. *)
Theorem average_rating_in_scale (now : Z) (entries : list CoffeeEntry) :
  entries <> [] -> Forall (inScale rating) entries ->
  between 1 5 (DashboardPage.averageRating entries)
  /\ exists n : Z,
      10 <= n <= 50
      /\ DashboardPage.avgRating (DashboardPage.getStats now entries)
         = (JsDate.decimal (n / 10) ++ "."
            ++ JsDate.decimal (n mod 10))%string.
Proof.
  intros Hne Hscale.
  assert (H : between 1 5 (DashboardPage.averageRating entries)).
  { unfold DashboardPage.averageRating, DashboardPage.sumRatings.
    destruct (orOne_length entries Hne) as [-> Hpos].
    apply div_between; [exact Hpos|].
    pose proof (sum_within rating entries Hscale 0). lia. }
  split; [exact H|]. apply toFixed1_between, H.
Qed.

Lemma average_rating_in_scale_witness :
  between 1 5
    (DashboardPage.averageRating
       [Samples.january; Samples.february; Samples.march]).
Proof.
  apply (average_rating_in_scale 0
           [Samples.january; Samples.february; Samples.march]).
  - discriminate.
  - repeat constructor; unfold inScale; simpl; lia.
Defined.

(** X11.  With at least one entry and the four taste values within 1..5 (the
    sliders of the record form), each bar of the taste chart is a number
    between 1 and 5, within the chart's axis, which ends at 5. *)
Theorem taste_profile_in_scale (entries : list CoffeeEntry) :
  entries <> [] ->
  Forall (inScale sourness) entries -> Forall (inScale sweetness) entries ->
  Forall (inScale bitterness) entries -> Forall (inScale richness) entries ->
  Forall (between 1 5)
    (CoffeeTrends.data (CoffeeTrends.tasteProfileData entries))
  /\ List.length (CoffeeTrends.data (CoffeeTrends.tasteProfileData entries))
     = 4%nat.
Proof.
  intros Hne H1 H2 H3 H4. split; [|reflexivity].
  unfold CoffeeTrends.tasteProfileData. cbn [CoffeeTrends.data].
  destruct (orOne_length entries Hne) as [-> Hpos].
  assert (Hbar : forall attribute,
             Forall (inScale attribute) entries ->
             between 1 5
               (JsNumber.div (CoffeeTrends.sumOf attribute entries)
                  (Z.of_nat (List.length entries)))).
  { intros attribute H. apply div_between; [exact Hpos|].
    unfold CoffeeTrends.sumOf.
    pose proof (sum_within
                  (fun e => if attribute e =? 0 then 0 else attribute e)
                  entries) as Hs.
    cbv beta in Hs. specialize (Hs ltac:(
      apply Forall_forall; intros e He; rewrite Forall_forall in H;
      specialize (H e He); unfold inScale in H;
      destruct (Z.eqb_spec (attribute e) 0); lia) 0). lia. }
  repeat constructor; apply Hbar; assumption.
Qed.

Lemma taste_profile_in_scale_witness :
  Forall (between 1 5)
    (CoffeeTrends.data
       (CoffeeTrends.tasteProfileData [Samples.january; Samples.march])).
Proof.
  apply (taste_profile_in_scale [Samples.january; Samples.march]);
    try discriminate; repeat constructor; unfold inScale; simpl; lia.
Defined.

(** ** The current month *)

Section CurrentMonth.
Import JsDate.

Lemma getMonth_range (t : Z) : 0 <= getMonth t <= 11.
Proof.
  unfold getMonth, civilFromDays, civilOfEra. cbv beta iota zeta.
  pose proof (Z.mod_pos_bound (t / msPerDay + 719468) 146097 ltac:(lia))
    as Hdoe.
  set (doe := (t / msPerDay + 719468) mod 146097) in *. clearbody doe.
  match goal with
  | |- context [if ?c <? 10 then _ else _] => destruct (Z.ltb_spec c 10)
  end; Z.div_mod_to_equations; lia.
Qed.

Lemma filter_length_le {A : Type} (p : A -> bool) (l : list A) :
  (List.length (filter p l) <= List.length l)%nat.
Proof.
  induction l as [|a l IH]; simpl; [lia|]. destruct (p a); simpl; lia.
Qed.

Lemma filter_length_impl {A : Type} (p q : A -> bool) (l : list A) :
  (forall a, p a = true -> q a = true) ->
  (List.length (filter p l) <= List.length (filter q l))%nat.
Proof.
  intros H. induction l as [|a l IH]; simpl; [lia|].
  destruct (p a) eqn:Hp.
  - rewrite (H a Hp). simpl. lia.
  - destruct (q a); simpl; lia.
Qed.

Lemma total_counters (f : string -> Z) (ks : list string) :
  total (map (fun k => JsObject.Num (f k)) ks)
  = fold_right (fun k n => f k + n) 0 ks.
Proof.
  induction ks as [|k ks IH]; simpl; [reflexivity | now rewrite IH].
Qed.

Lemma one_label_at_most (x : string) (ks : list string) :
  NoDup ks ->
  0 <= fold_right (fun k n => (if (k =? x)%string then 1 else 0) + n) 0 ks
    <= 1.
Proof.
  induction 1 as [|k ks Hk Hnd IH]; simpl; [lia|].
  destruct (String.eqb_spec k x) as [->|]; [|lia].
  assert (Hzero : fold_right
                    (fun k n => (if (k =? x)%string then 1 else 0) + n) 0 ks
                  = 0).
  { clear IH Hnd. induction ks as [|k' ks IH]; simpl; [reflexivity|].
    destruct (String.eqb_spec k' x) as [->|].
    - exfalso. apply Hk. now left.
    - rewrite IH; [reflexivity|]. intros H. apply Hk. now right. }
  lia.
Qed.

(** Distinct labels share the elements among them. *)
Lemma tally_sum_le {A : Type} (label : A -> string) (ks : list string)
    (l : list A) :
  NoDup ks ->
  0 <= fold_right (fun k n => tally label k l + n) 0 ks
    <= Z.of_nat (List.length l).
Proof.
  intros Hnd. induction l as [|a l IH].
  - assert (H : fold_right (fun k n => tally label k (@nil A) + n) 0 ks = 0)
      by (clear Hnd; induction ks as [|k ks IHk]; cbn [fold_right];
          [reflexivity | rewrite IHk; reflexivity]).
    rewrite H. simpl. lia.
  - assert (H : fold_right (fun k n => tally label k (a :: l) + n) 0 ks
                = fold_right
                    (fun k n =>
                       (if (k =? label a)%string then 1 else 0) + n) 0 ks
                  + fold_right (fun k n => tally label k l + n) 0 ks).
    { clear. induction ks as [|k ks IHk]; cbn [fold_right]; [reflexivity|].
      rewrite IHk, tally_cons. lia. }
    rewrite H. pose proof (one_label_at_most (label a) ks Hnd).
    simpl List.length. lia.
Qed.

End CurrentMonth.

(** X12.  The entries of this month on the summary are among those of the
    last bar of the monthly chart: the last bar is labelled with the current
    month and holds a number that is at least the summary's count for this
    month and at most the number of entries. *)
Theorem thisMonth_within_last_bar (now : Z) (entries : list CoffeeEntry) :
  let chart := CoffeeTrends.monthlyData now entries in
  nth 5 (CoffeeTrends.labels chart) "" = JsDate.monthShort now
  /\ exists n : Z,
      nth 5 (CoffeeTrends.data chart) JsObject.NaN = JsObject.Num n
      /\ DashboardPage.thisMonth (DashboardPage.getStats now entries) <= n
      /\ n <= DashboardPage.totalEntries
                (DashboardPage.getStats now entries).
Proof.
  cbv zeta. destruct (monthlyData_buckets now entries) as [-> _].
  unfold lastSix. cbn [map nth CoffeeTrends.labels CoffeeTrends.data].
  rewrite Z.sub_0_r, (Z.mod_small _ 12)
    by (pose proof (getMonth_range now); lia).
  split; [reflexivity|].
  exists (tally monthOf (JsDate.monthLabel (JsDate.getMonth now)) entries).
  split; [reflexivity|]. unfold DashboardPage.getStats, tally. simpl.
  split.
  - apply inj_le, filter_length_impl. intros e He.
    unfold DashboardPage.inMonthOf in He. apply andb_prop in He.
    destruct He as [He _]. apply Z.eqb_eq in He.
    unfold monthOf, JsDate.monthShort. rewrite He. apply String.eqb_refl.
  - apply inj_le, filter_length_le.
Qed.

(** X15.  The monthly chart always has six bars with distinct labels, the
    names of the six months that end with the current one; each bar is the
    number of entries made in a month of that name; and the bars add up to
    no more than the number of entries. *)
Theorem monthly_histogram_bars (now : Z) (entries : list CoffeeEntry) :
  let chart := CoffeeTrends.monthlyData now entries in
  CoffeeTrends.labels chart = lastSix (JsDate.getMonth now)
  /\ List.length (CoffeeTrends.labels chart) = 6%nat
  /\ NoDup (CoffeeTrends.labels chart)
  /\ CoffeeTrends.data chart
     = map (fun k => JsObject.Num (tally monthOf k entries))
         (CoffeeTrends.labels chart)
  /\ 0 <= total (CoffeeTrends.data chart) <= Z.of_nat (List.length entries).
Proof.
  cbv zeta. destruct (monthlyData_buckets now entries) as [-> _].
  cbn [CoffeeTrends.labels CoffeeTrends.data].
  split; [reflexivity|]. split; [reflexivity|].
  split; [apply lastSix_NoDup|]. split; [reflexivity|].
  rewrite total_counters. apply tally_sum_le, lastSix_NoDup.
Qed.

(** X14.  The roast-level chart, when no roast level is the name of a
    property of [Object.prototype]: it has the six fixed labels, each entry
    is counted under its roast level if that is one of the six and under
    その他/不明 otherwise, and the six bars add up to the number of
    entries. *)
Theorem roast_histogram_plain (entries : list CoffeeEntry) :
  Forall plainRoast entries ->
  let chart := CoffeeTrends.roastLevelData entries in
  CoffeeTrends.labels chart
  = ["浅煎り"; "中浅煎り"; "中煎り"; "中深煎り"; "深煎り"; "その他/不明"]
  /\ CoffeeTrends.data chart
     = map (fun k => JsObject.Num (tally bucketOf k entries))
         (CoffeeTrends.labels chart)
  /\ total (CoffeeTrends.data chart) = Z.of_nat (List.length entries).
Proof.
  intros H. cbv zeta. destruct (roastLevelData_plain entries H) as [-> Hsum].
  cbn [CoffeeTrends.labels CoffeeTrends.data].
  split; [reflexivity|]. split; [reflexivity|].
  rewrite total_counters. exact Hsum.
Qed.

Lemma roast_histogram_plain_witness :
  total
    (CoffeeTrends.data
       (CoffeeTrends.roastLevelData
          [Samples.january; Samples.february; Samples.march]))
  = 3.
Proof.
  apply (roast_histogram_plain
           [Samples.january; Samples.february; Samples.march]).
  repeat constructor.
Defined.

(** ** What the dashboard shows *)

(** X13.  The dashboard and its trend component together: the chart data
    functions run only when there are three entries or more; when the
    content is shown there is at least one entry, the summary is that of all
    entries, the table shows the first five entries at most, and the trend
    component shows its notice exactly when there are fewer than three
    entries. *)
Theorem dashboard_view (now : Z) (loading : bool) (error : option string)
    (entries : list CoffeeEntry) :
  (snd (DashboardView.render now loading error entries) <> [] ->
   (3 <= List.length entries)%nat)
  /\ forall stats trends recent,
      fst (DashboardView.render now loading error entries)
      = DashboardView.Content stats trends recent ->
      entries <> []
      /\ stats = DashboardPage.getStats now entries
      /\ recent = firstn 5 entries
      /\ (List.length recent <= 5)%nat
      /\ (trends = CoffeeTrends.Notice <-> (List.length entries < 3)%nat).
Proof.
  assert (Htrends :
            (snd (CoffeeTrends.render now entries) <> [] ->
             (3 <= List.length entries)%nat)
            /\ (fst (CoffeeTrends.render now entries) = CoffeeTrends.Notice
                <-> (List.length entries < 3)%nat)).
  { unfold CoffeeTrends.render.
    destruct (Z.ltb_spec (Z.of_nat (List.length entries)) 3) as [Hlt|Hge].
    - simpl. split; [tauto|]. split; [lia | reflexivity].
    - split; [lia|].
      unfold CoffeeTrends.bind, CoffeeTrends.invoke, CoffeeTrends.ret.
      cbn [fst snd].
      destruct (0 <? Z.of_nat
                  (List.length
                     (CoffeeTrends.labels
                        (CoffeeTrends.brewMethodData entries))));
        cbn [fst snd]; split; try discriminate; lia. }
  destruct Htrends as [Hlog Hnotice].
  assert (Hbody :
            forall v : CoffeeTrends.logged DashboardView.view,
              v = match entries with
                  | [] => CoffeeTrends.ret DashboardView.NoEntries
                  | _ :: _ =>
                      CoffeeTrends.bind (CoffeeTrends.render now entries)
                        (fun trends =>
                           CoffeeTrends.ret
                             (DashboardView.Content
                                (DashboardPage.getStats now entries) trends
                                (firstn 5 entries)))
                  end ->
              (snd v <> [] -> (3 <= List.length entries)%nat)
              /\ forall stats trends recent,
                  fst v = DashboardView.Content stats trends recent ->
                  entries <> []
                  /\ stats = DashboardPage.getStats now entries
                  /\ recent = firstn 5 entries
                  /\ (List.length recent <= 5)%nat
                  /\ (trends = CoffeeTrends.Notice
                      <-> (List.length entries < 3)%nat)).
  { intros v ->. destruct entries as [|e es] eqn:E.
    - split; [simpl; tauto | discriminate].
    - rewrite <- E in *. unfold CoffeeTrends.bind, CoffeeTrends.ret.
      cbn [fst snd]. rewrite app_nil_r. split; [exact Hlog|].
      intros stats trends recent [= <- <- <-].
      split; [rewrite E; discriminate|]. split; [reflexivity|].
      split; [reflexivity|].
      split; [exact (firstn_le_length 5 entries) | exact Hnotice]. }
  unfold DashboardView.render. destruct loading.
  - split; [simpl; tauto | discriminate].
  - destruct error as [m|]; [destruct (JsString.nonEmpty m)|].
    + split; [simpl; tauto | discriminate].
    + apply Hbody. reflexivity.
    + apply Hbody. reflexivity.
Qed.

(** ** The sign-in and sign-up handler *)

Section AuthFacts.
Import AuthFlow.

Lemma authErrorMessage_nonempty (errorMsg : string) :
  AuthPage.authErrorMessage errorMsg <> "".
Proof.
  unfold AuthPage.authErrorMessage.
  repeat match goal with
         | |- (if ?c then _ else _) <> _ => destruct c; [discriminate|]
         end.
  discriminate.
Qed.

(** Every failure has a text to show. *)
Lemma handleAuthError_nonempty (err : option string) :
  AuthPage.handleAuthError err <> "".
Proof.
  destruct err; [apply authErrorMessage_nonempty | discriminate].
Qed.

Lemma nonEmpty_true (s : string) : s <> "" -> JsString.nonEmpty s = true.
Proof.
  intros H. unfold JsString.nonEmpty. apply String.eqb_neq in H.
  now rewrite H.
Qed.

End AuthFacts.

(** X16.  When [handleAuth] has run, whatever the provider answers: the
    loading flag is off and the mode unchanged.  If no error is set, the
    success message is set and exactly one timer runs.  If an error is set,
    its text is not empty, so the error box is shown, and no timer runs.  A
    navigation is only ever scheduled in login mode, 1.5 seconds ahead, to
    the home page or the profile page, and sign-up only schedules the switch
    to login mode.  The message and the error are both set only when the
    sign-in succeeded and the profile query threw. *)
Theorem handleAuth_outcome (st : AuthFlow.state) (p : AuthFlow.provider) :
  let st' := fst (AuthFlow.handleAuth st p) in
  let timers := snd (AuthFlow.handleAuth st p) in
  AuthFlow.loading st' = false
  /\ AuthFlow.current st' = AuthFlow.current st
  /\ (AuthFlow.error st' = None ->
      AuthFlow.boxShown (AuthFlow.message st') = true
      /\ List.length timers = 1%nat)
  /\ (AuthFlow.error st' <> None ->
      AuthFlow.boxShown (AuthFlow.error st') = true /\ timers = [])
  /\ (forall ms path,
         In (AuthFlow.After ms (AuthFlow.Push path)) timers ->
         AuthFlow.current st = AuthFlow.Login /\ ms = 1500
         /\ (path = "/" \/ path = "/profile"))
  /\ (AuthFlow.current st = AuthFlow.Signup ->
      timers = [] \/ timers = [AuthFlow.After 5000
                                 (AuthFlow.SetMode AuthFlow.Login)])
  /\ (AuthFlow.error st' <> None -> AuthFlow.message st' <> None ->
      AuthFlow.current st = AuthFlow.Login
      /\ AuthFlow.thrownBy (AuthFlow.signIn p) = None
      /\ exists err, AuthFlow.fetchProfile p = AuthFlow.Thrown err).
Proof.
  cbv zeta. unfold AuthFlow.handleAuth, AuthFlow.caught.
  assert (Hbox : forall err,
             AuthFlow.boxShown (Some (AuthPage.handleAuthError err)) = true)
    by (intros err; apply nonEmpty_true, handleAuthError_nonempty).
  destruct (AuthFlow.current st) eqn:Hmode;
    [destruct (AuthFlow.thrownBy (AuthFlow.signIn p)) as [err|] eqn:Hin;
     [|destruct (AuthFlow.fetchProfile p) as [row|err] eqn:Hp]
    |destruct (AuthFlow.thrownBy (AuthFlow.signUp p)) as [err|] eqn:Hup];
    cbn [fst snd AuthFlow.loading AuthFlow.current AuthFlow.error
           AuthFlow.message];
    repeat split; intros;
    repeat match goal with
           | H : In _ [] |- _ => destruct H
           | H : In _ [_] |- _ =>
               destruct H as [H|[]]; inversion H; subst; clear H
           | H : None <> None |- _ => contradiction H; reflexivity
           end;
    try discriminate; try reflexivity; try apply Hbox;
    try (eexists; reflexivity);
    try (destruct (AuthFlow.isProfileIncomplete row)); auto.
Qed.

Lemma handleAuth_outcome_witness :
  AuthFlow.boxShown
    (AuthFlow.error
       (fst (AuthFlow.handleAuth
               (AuthFlow.mkState AuthFlow.Login false None None)
               (AuthFlow.mkProvider (AuthFlow.Returned None)
                  (AuthFlow.Returned (Some "Invalid login credentials"))
                  (AuthFlow.Returned None)))))
  = true.
Proof.
  apply (handleAuth_outcome
           (AuthFlow.mkState AuthFlow.Login false None None)
           (AuthFlow.mkProvider (AuthFlow.Returned None)
              (AuthFlow.Returned (Some "Invalid login credentials"))
              (AuthFlow.Returned None))).
  discriminate.
Defined.

(** The profile counts as complete with a non-empty bio and at least one
    favourite type. *)
Lemma profile_complete (row : option AuthFlow.profile) :
  AuthFlow.isProfileIncomplete row = false
  <-> exists b types,
      row = Some (AuthFlow.mkProfile (Some b) (Some types))
      /\ b <> "" /\ types <> [].
Proof.
  unfold AuthFlow.isProfileIncomplete. split.
  - destruct row as [[[b|] types]|]; cbn [AuthFlow.bio AuthFlow.favorite_types];
      try discriminate.
    destruct (JsString.nonEmpty b) eqn:Hb; [|discriminate].
    destruct types as [[|t types]|]; try discriminate. intros _.
    exists b, (t :: types). repeat split; [|discriminate].
    intros ->. discriminate Hb.
  - intros (b & types & -> & Hb & Ht).
    cbn [AuthFlow.bio AuthFlow.favorite_types].
    rewrite (nonEmpty_true b Hb). destruct types; [contradiction|reflexivity].
Qed.

(** X17.  After a successful sign-in whose profile query returns, the page
    moves after 1.5 seconds: to the home page exactly when the profile has a
    non-empty bio and at least one favourite type, to the profile page
    otherwise (also when there is no profile row). *)
Theorem login_redirect (st : AuthFlow.state) (p : AuthFlow.provider)
    (row : option AuthFlow.profile) :
  AuthFlow.current st = AuthFlow.Login ->
  AuthFlow.thrownBy (AuthFlow.signIn p) = None ->
  AuthFlow.fetchProfile p = AuthFlow.Returned row ->
  exists path,
    snd (AuthFlow.handleAuth st p)
    = [AuthFlow.After 1500 (AuthFlow.Push path)]
    /\ (path = "/" \/ path = "/profile")
    /\ (path = "/"
        <-> exists b types,
            row = Some (AuthFlow.mkProfile (Some b) (Some types))
            /\ b <> "" /\ types <> []).
Proof.
  intros Hmode Hin Hrow. unfold AuthFlow.handleAuth.
  rewrite Hmode, Hin, Hrow. cbn [snd].
  exists (if AuthFlow.isProfileIncomplete row then "/profile" else "/").
  split; [reflexivity|].
  pose proof (profile_complete row) as Hc.
  destruct (AuthFlow.isProfileIncomplete row).
  - split; [now right|]. split; [discriminate|].
    intros H. apply Hc in H. discriminate H.
  - split; [now left|]. split; [|reflexivity]. intros _.
    now apply Hc.
Qed.

Lemma login_redirect_witness :
  exists path,
    snd (AuthFlow.handleAuth
           (AuthFlow.mkState AuthFlow.Login false None None)
           (AuthFlow.mkProvider (AuthFlow.Returned None)
              (AuthFlow.Returned None)
              (AuthFlow.Returned
                 (Some (AuthFlow.mkProfile (Some "Barista")
                          (Some ["Espresso"]))))))
    = [AuthFlow.After 1500 (AuthFlow.Push path)]
    /\ (path = "/" \/ path = "/profile").
Proof.
  destruct (login_redirect
              (AuthFlow.mkState AuthFlow.Login false None None)
              (AuthFlow.mkProvider (AuthFlow.Returned None)
                 (AuthFlow.Returned None)
                 (AuthFlow.Returned
                    (Some (AuthFlow.mkProfile (Some "Barista")
                             (Some ["Espresso"])))))
              (Some (AuthFlow.mkProfile (Some "Barista")
                       (Some ["Espresso"])))
              eq_refl eq_refl eq_refl) as (path & H1 & H2 & _).
  exists path. split; assumption.
Defined.

(** X18.  The password reset: with an empty e-mail address the provider is
    not called, the request to enter an address becomes the error, and the
    message and the loading flag stay as they are.  With an address the
    provider is called and the loading flag ends off; then either the
    confirmation is the message and there is no error, or there is an error
    with a non-empty text and no message. *)
Theorem handlePasswordReset_outcome (st : AuthFlow.state) (email : string)
    (reset : AuthFlow.outcome (option string)) :
  (email = "" ->
   AuthFlow.handlePasswordReset st email reset
   = (AuthFlow.mkState (AuthFlow.current st) (AuthFlow.loading st)
        (Some AuthFlow.enterEmail) (AuthFlow.message st), false))
  /\ (email <> "" ->
      let st' := fst (AuthFlow.handlePasswordReset st email reset) in
      snd (AuthFlow.handlePasswordReset st email reset) = true
      /\ AuthFlow.loading st' = false
      /\ AuthFlow.current st' = AuthFlow.current st
      /\ ((AuthFlow.error st' = None
           /\ AuthFlow.message st' = Some AuthFlow.resetSent
           /\ AuthFlow.thrownBy reset = None)
          \/ (AuthFlow.boxShown (AuthFlow.error st') = true
              /\ AuthFlow.message st' = None
              /\ AuthFlow.thrownBy reset <> None))).
Proof.
  unfold AuthFlow.handlePasswordReset. split.
  - intros ->. reflexivity.
  - intros Hne. rewrite (nonEmpty_true email Hne). cbn [negb]. cbv zeta.
    destruct (AuthFlow.thrownBy reset) as [[text|]|];
      cbn [fst snd AuthFlow.loading AuthFlow.current AuthFlow.error
             AuthFlow.message];
      repeat split; try (left; repeat split; reflexivity);
      right; repeat split; try reflexivity; discriminate.
Qed.

Lemma handlePasswordReset_outcome_witness :
  snd (AuthFlow.handlePasswordReset
         (AuthFlow.mkState AuthFlow.Login false None None) ""
         (AuthFlow.Returned None)) = false
  /\ snd (AuthFlow.handlePasswordReset
            (AuthFlow.mkState AuthFlow.Login false None None)
            "taster@example.org" (AuthFlow.Returned None)) = true.
Proof.
  split.
  - rewrite (proj1 (handlePasswordReset_outcome
                      (AuthFlow.mkState AuthFlow.Login false None None) ""
                      (AuthFlow.Returned None)) eq_refl).
    reflexivity.
  - apply (proj2 (handlePasswordReset_outcome
                    (AuthFlow.mkState AuthFlow.Login false None None)
                    "taster@example.org" (AuthFlow.Returned None))).
    discriminate.
Defined.

(** ** Selecting tags *)

Section SelectionFacts.
Import Selection.

Lemma includes_In (prev : list string) (x : string) :
  existsb (String.eqb x) prev = true <-> In x prev.
Proof.
  rewrite existsb_exists. split.
  - intros (y & Hy & E). apply String.eqb_eq in E. now subst.
  - intros H. exists x. split; [exact H | apply String.eqb_refl].
Qed.

Lemma without_In (prev : list string) (x y : string) :
  In y (filter (fun f => negb (f =? x)%string) prev) <-> In y prev /\ y <> x.
Proof.
  rewrite filter_In, Bool.negb_true_iff, String.eqb_neq. tauto.
Qed.

Lemma without_absent (prev : list string) (x : string) :
  ~ In x prev -> filter (fun f => negb (f =? x)%string) prev = prev.
Proof.
  induction prev as [|y prev IH]; simpl; intros H; [reflexivity|].
  destruct (String.eqb_spec y x) as [->|]; simpl.
  - tauto.
  - rewrite IH; tauto.
Qed.

End SelectionFacts.

(** X19.  A click on a flavour (or on a favourite type) flips that tag and
    no other: the tag is selected afterwards exactly when it was not before,
    every other tag stays as it was, a selection without repetitions stays
    without repetitions, and a second click on a tag that was not selected
    gives back the selection as it was. *)
Theorem toggle_flips (prev : list string) (x : string) :
  (In x (Selection.toggle prev x) <-> ~ In x prev)
  /\ (forall y, y <> x -> (In y (Selection.toggle prev x) <-> In y prev))
  /\ (NoDup prev -> NoDup (Selection.toggle prev x))
  /\ (forall y, In y (Selection.toggle (Selection.toggle prev x) x)
                <-> In y prev)
  /\ (~ In x prev -> Selection.toggle (Selection.toggle prev x) x = prev).
Proof.
  assert (Hx : forall l, In x (Selection.toggle l x) <-> ~ In x l).
  { intros l. unfold Selection.toggle.
    destruct (existsb (String.eqb x) l) eqn:E.
    - apply includes_In in E. rewrite without_In. tauto.
    - apply Bool.not_true_iff_false in E. rewrite includes_In in E.
      rewrite in_app_iff. simpl. tauto. }
  assert (Hy : forall l y, y <> x ->
                           (In y (Selection.toggle l x) <-> In y l)).
  { intros l y Hne. unfold Selection.toggle.
    destruct (existsb (String.eqb x) l).
    - rewrite without_In. tauto.
    - rewrite in_app_iff. simpl. intuition congruence. }
  split; [apply Hx|]. split; [apply Hy|]. split; [|split].
  - intros Hnd. unfold Selection.toggle.
    destruct (existsb (String.eqb x) prev) eqn:E.
    + now apply NoDup_filter.
    + apply Bool.not_true_iff_false in E. rewrite includes_In in E.
      apply NoDup_app; [exact Hnd | repeat constructor; simpl; tauto |].
      intros y H [<-|[]]. contradiction.
  - intros y. destruct (String.eqb_spec y x) as [->|Hne].
    + rewrite Hx, Hx.
      destruct (in_dec string_dec x prev); tauto.
    + now rewrite !Hy.
  - intros Hout. unfold Selection.toggle at 2.
    assert (E : existsb (String.eqb x) prev = false).
    { apply Bool.not_true_iff_false. now rewrite includes_In. }
    rewrite E. unfold Selection.toggle.
    assert (E' : existsb (String.eqb x) (prev ++ [x]) = true).
    { apply includes_In, in_or_app. right. now left. }
    rewrite E', filter_app, (without_absent prev x Hout). simpl.
    rewrite String.eqb_refl. simpl. apply app_nil_r.
Qed.

Lemma toggle_flips_witness :
  Selection.toggle (Selection.toggle ["フルーティ"; "ナッツ"] "チョコ") "チョコ"
  = ["フルーティ"; "ナッツ"]
  /\ NoDup (Selection.toggle ["フルーティ"; "ナッツ"] "ナッツ").
Proof.
  split.
  - apply (toggle_flips ["フルーティ"; "ナッツ"] "チョコ").
    simpl. intuition discriminate.
  - apply (toggle_flips ["フルーティ"; "ナッツ"] "ナッツ").
    repeat constructor; simpl; intuition discriminate.
Defined.

(** ** What the entries page shows after the fetch *)

(** X20.  The entries page after [fetchEntries], whatever the back end
    answers: the loading flag is off.  Without a signed-in user the window is
    sent to /auth.  After a failure the error is shown, unless its message is
    the empty string: then the page shows that there are no records yet.
    After a fetch the page shows that there are no records when there are
    none, and lists all of them otherwise, newest first, as many displayed
    as fetched; rows that arrive newest first are listed as they arrive. *)
Theorem fetchEntries_view (r : EntriesView.fetched) :
  let p := fst (EntriesView.fetchEntries EntriesView.initial r) in
  EntriesView.loading p = false
  /\ (r = EntriesView.NoUser ->
      snd (EntriesView.fetchEntries EntriesView.initial r) = Some "/auth")
  /\ (forall err, r = EntriesView.Failed err ->
        (err <> Some "" ->
         exists text, text <> ""
                      /\ EntriesView.render p = EntriesView.ErrorView text)
        /\ (err = Some "" -> EntriesView.render p = EntriesView.NoEntries))
  /\ (forall data, r = EntriesView.Rows data ->
        let rows := match data with Some l => l | None => [] end in
        (rows = [] -> EntriesView.render p = EntriesView.NoEntries)
        /\ (rows <> [] ->
            exists cards,
              EntriesView.render p
              = EntriesView.Listing cards (List.length rows)
                  (List.length rows)
              /\ Permutation cards rows
              /\ StronglySorted (JsArray.notBelow created_at) cards
              /\ (StronglySorted (JsArray.notBelow created_at) rows ->
                  cards = rows))).
Proof.
  cbv zeta. split; [destruct r; reflexivity|]. split; [now intros ->|].
  split.
  - intros err ->. split.
    + intros Hne. destruct err as [text|].
      * exists text. split; [congruence|].
        unfold EntriesView.render. simpl.
        rewrite (nonEmpty_true text); [reflexivity | congruence].
      * eexists. split; [|reflexivity]. discriminate.
    + intros ->. reflexivity.
  - intros data ->.
    set (rows := match data with Some l => l | None => [] end).
    change (fst (EntriesView.fetchEntries EntriesView.initial
                   (EntriesView.Rows data)))
      with (EntriesView.runEffect
              (EntriesView.mkPage rows rows (EntriesView.uniqueOrigins rows)
                 (EntriesView.uniqueBrewMethods rows) false None
                 EntriesView.resetFilters)).
    pose proof (reset_perm rows) as Hperm.
    pose proof (reset_sorted rows) as Hsorted.
    split.
    + intros Hrows. unfold EntriesView.render. simpl. now rewrite Hrows.
    + intros Hrows.
      exists (EntriesPage.filteredEntries rows EntriesView.resetFilters).
      split; [|split; [exact Hperm | split; [exact Hsorted|]]].
      * unfold EntriesView.render. simpl.
        destruct rows as [|e es] eqn:E; [contradiction|]. rewrite <- E in *.
        destruct (EntriesPage.filteredEntries rows EntriesView.resetFilters)
          as [|c cs] eqn:El.
        -- apply Permutation_nil in Hperm. congruence.
        -- rewrite <- El. f_equal. apply Permutation_length in Hperm.
           rewrite El. exact Hperm.
      * intros Hs. rewrite filteredEntries_sorted_filter.
        rewrite (noFilters_keeps_all _ rows noFilters_reset).
        unfold EntriesPage.sortResult. simpl.
        apply (sort_descending_id created_at), Hs.
Qed.

Lemma fetchEntries_view_witness :
  exists cards,
    EntriesView.render
      (fst (EntriesView.fetchEntries EntriesView.initial
              (EntriesView.Rows
                 (Some [Samples.march; Samples.february; Samples.january]))))
    = EntriesView.Listing cards 3 3
    /\ Permutation cards [Samples.march; Samples.february; Samples.january].
Proof.
  destruct (fetchEntries_view
              (EntriesView.Rows
                 (Some [Samples.march; Samples.february; Samples.january])))
    as (_ & _ & _ & H).
  destruct (H (Some [Samples.march; Samples.february; Samples.january])
              eq_refl) as [_ H'].
  destruct (H' ltac:(discriminate)) as (cards & Hr & Hp & _).
  exists cards. split; [exact Hr | exact Hp].
Defined.

(** ** Narrowing by origin or brew method *)

(** X21.  Choosing an origin while no origin filter is set narrows the list
    in place: the new list is the current list without the entries of other
    origins, in the same order.  The same holds of the brew-method filter. *)
Theorem equality_filter_narrows
    (entries : list CoffeeEntry) (f : EntriesPage.filters)
    (choice : string) :
  choice <> "" ->
  (EntriesPage.originFilter f = "" ->
   EntriesPage.filteredEntries entries
     (EntriesView.setOriginFilter f choice)
   = filter (fun e => strictEq (bean_origin e) choice)
       (EntriesPage.filteredEntries entries f))
  /\ (EntriesPage.brewMethodFilter f = "" ->
      EntriesPage.filteredEntries entries
        (EntriesView.setBrewMethodFilter f choice)
      = filter (fun e => strictEq (brew_method e) choice)
          (EntriesPage.filteredEntries entries f)).
Proof.
  intros Hne. apply nonEmpty_true in Hne. split; intros Hnone.
  - apply refine_filter; [reflexivity|]. intros e.
    unfold EntriesPage.matchesAll, EntriesPage.stageMatch. simpl.
    rewrite Hnone, Hne. simpl.
    destruct (if negb (JsString.trim (EntriesPage.searchTerm f) =? "")%string
              then EntriesPage.keywordMatch
                     (JsString.toLowerCase (EntriesPage.searchTerm f)) e
              else true);
      destruct (strictEq (bean_origin e) choice);
      destruct (if JsString.nonEmpty (EntriesPage.roastFilter f)
                then strictEq (roast_level e) (EntriesPage.roastFilter f)
                else true);
      destruct (if JsString.nonEmpty (EntriesPage.brewMethodFilter f)
                then strictEq (brew_method e) (EntriesPage.brewMethodFilter f)
                else true);
      destruct (if EntriesPage.ratingFilter f >? 0
                then rating e >=? EntriesPage.ratingFilter f else true);
      reflexivity.
  - apply refine_filter; [reflexivity|]. intros e.
    unfold EntriesPage.matchesAll, EntriesPage.stageMatch. simpl.
    rewrite Hnone, Hne. simpl.
    destruct (if negb (JsString.trim (EntriesPage.searchTerm f) =? "")%string
              then EntriesPage.keywordMatch
                     (JsString.toLowerCase (EntriesPage.searchTerm f)) e
              else true);
      destruct (strictEq (brew_method e) choice);
      destruct (if JsString.nonEmpty (EntriesPage.roastFilter f)
                then strictEq (roast_level e) (EntriesPage.roastFilter f)
                else true);
      destruct (if JsString.nonEmpty (EntriesPage.originFilter f)
                then strictEq (bean_origin e) (EntriesPage.originFilter f)
                else true);
      destruct (if EntriesPage.ratingFilter f >? 0
                then rating e >=? EntriesPage.ratingFilter f else true);
      reflexivity.
Qed.

Lemma equality_filter_narrows_witness :
  EntriesPage.filteredEntries
    [Samples.january; Samples.february; Samples.march]
    (EntriesView.setOriginFilter (Samples.reset EntriesPage.SortRating)
       "Ethiopia")
  = [Samples.january; Samples.march].
Proof.
  rewrite (proj1 (equality_filter_narrows
                    [Samples.january; Samples.february; Samples.march]
                    (Samples.reset EntriesPage.SortRating) "Ethiopia"
                    ltac:(discriminate)) eq_refl).
  vm_compute. reflexivity.
Defined.

Lemma reset_shows_everything_witness :
  exists cards,
    EntriesView.render
      (EntriesView.clickReset
         (EntriesView.mkPage
            [Samples.march; Samples.february; Samples.january] []
            ["Ethiopia"; "Colombia"] ["French press"; "V60"] false None
            (EntriesView.setRatingFilter EntriesView.resetFilters 6)))
    = EntriesView.Listing cards 3 3
    /\ Permutation cards [Samples.march; Samples.february; Samples.january].
Proof.
  eexists. split; [vm_compute; reflexivity|].
  apply (proj2 (reset_shows_everything
                  (EntriesView.mkPage
                     [Samples.march; Samples.february; Samples.january] []
                     ["Ethiopia"; "Colombia"] ["French press"; "V60"]
                     false None
                     (EntriesView.setRatingFilter EntriesView.resetFilters
                        6))) _ 3%nat 3%nat).
  vm_compute. reflexivity.
Defined.

Lemma dashboard_view_witness :
  (3 <= List.length [Samples.march; Samples.february; Samples.january])%nat.
Proof.
  apply (proj1 (dashboard_view 0 false None
                  [Samples.march; Samples.february; Samples.january])).
  vm_compute. discriminate.
Defined.
